(** * sql_export: chunked export of an Oracle query to spreadsheet files

    A shallow embedding of [sql_export.py].  The script reads a query from
    [params.txt], connects to the database, counts the rows of the query and
    writes them to [output.xlsx] (at most 500 000 rows) or to numbered files
    [output_001.xlsx], [output_002.xlsx], ... of 200 000 rows each.

    Python values, pandas frames, the driver and the file system are modelled
    by the data below; the functions keep the names they have in the script. *)

From Stdlib Require Import ZArith String Ascii DecimalString DecimalZ Bool Lia.
From stdpp Require Import gmap strings list.

Open Scope string_scope.
Open Scope list_scope.

(** ** Python values and exceptions *)

(** The values a fetched row can hold: [None], text, an integer, and the float
    [nan].  Numeric cells are modelled by their integer value; the difference
    between the int64 and float64 storage of a column is not observable by the
    script (it only tests [dtype == 'object']). *)
Inductive pyval :=
| PNone
| PNaN
| PStr (s : string)
| PInt (z : Z).

Definition Row := list pyval.

#[global] Instance pyval_eq_dec : EqDecision pyval.
Proof. solve_decision. Defined.

(** The exception classes the script can meet.  [SystemExit] is the only one
    here that is not a subclass of [Exception]; [InterfaceError] is what the
    driver raises on a handle that is no longer open, and it is not a
    [DatabaseError]. *)
Inductive exn :=
| DatabaseError
| ValueError
| KeyError
| TypeError
| IndexError
| AttributeError
| InterfaceError
| OSError
| MemoryError
| UnboundLocalError
| SystemExit (code : Z).

#[global] Instance exn_eq_dec : EqDecision exn.
Proof. solve_decision. Defined.

(** [isinstance(e, Exception)] *)
Definition is_Exception (e : exn) : bool :=
  match e with SystemExit _ => false | _ => true end.

Inductive result (A : Type) :=
| Ok (a : A)
| Err (e : exn).
Arguments Ok {A} a.
Arguments Err {A} e.

(** ** Strings *)

(** The unit separator U+001F.  Text is held in UTF-8, where the byte 0x1F
    occurs only as the encoding of U+001F. *)
Definition x1f : ascii := "031"%char.

(** [s.replace('\x1f', '')] *)
Fixpoint replace_x1f (s : string) : string :=
  match s with
  | EmptyString => EmptyString
  | String c r => if Ascii.eqb c x1f then replace_x1f r else String c (replace_x1f r)
  end.

Fixpoint count_x1f (s : string) : nat :=
  match s with
  | EmptyString => 0
  | String c r => (if Ascii.eqb c x1f then 1 else 0) + count_x1f r
  end.

(** [str(x)] *)
Definition py_str (v : pyval) : string :=
  match v with
  | PNone => "None"
  | PNaN => "nan"
  | PStr s => s
  | PInt z => NilZero.string_of_int (Z.to_int z)
  end.

(** [isinstance(x, str)] *)
Definition isinstance_str (v : pyval) : bool :=
  match v with PStr _ => true | _ => false end.

(** [pd.isna(x)]: both [None] and [nan] count as missing. *)
Definition isna (v : pyval) : bool :=
  match v with PNone | PNaN => true | _ => false end.

Definition is_number (v : pyval) : bool :=
  match v with PInt _ | PNaN => true | _ => false end.

Fixpoint zeros (n : nat) : string :=
  match n with
  | O => EmptyString
  | S n' => String "0"%char (zeros n')
  end.

(** [f"{k:03d}"]: the decimal digits of [k], padded with zeros on the left to
    a width of at least three (a minus sign counts towards the width). *)
Definition format_03d (k : Z) : string :=
  let digits := NilZero.string_of_int (Z.to_int (Z.abs k)) in
  if (k <? 0)%Z then "-" +:+ zeros (2 - String.length digits) +:+ digits
  else zeros (3 - String.length digits) +:+ digits.

(** ** pandas frames *)

(** The script only ever asks whether a column's dtype is [object]; the
    numeric dtypes (int64, float64) are one case here. *)
Inductive dtype :=
| object
| numeric.

#[global] Instance dtype_eq_dec : EqDecision dtype.
Proof. solve_decision. Defined.

Record Series := mkSeries { dtype_of : dtype; values : list pyval }.

(** A frame is held by columns, as in pandas: [df_data] has one series per
    label of [df_columns], each of [df_nrows] cells. *)
Record DataFrame := mkDataFrame {
  df_columns : list string;
  df_nrows : nat;
  df_data : list Series
}.

(** dtype inference of the frame constructor for one column: a column holding
    text, or no number at all (empty, or only [None]), stays [object]; a
    column of numbers, possibly with missing values, is numeric. *)
Definition infer_dtype (vs : list pyval) : dtype :=
  if existsb isinstance_str vs then object
  else if existsb is_number vs then numeric
  else object.

(** In a numeric column a missing value is stored as [nan]. *)
Definition to_storage (d : dtype) (v : pyval) : pyval :=
  match d, v with
  | numeric, PNone => PNaN
  | _, _ => v
  end.

Definition make_series (vs : list pyval) : Series :=
  let d := infer_dtype vs in
  mkSeries d (map (to_storage d) vs).

Definition max_width (data : list Row) : nat :=
  foldr (fun r m => Nat.max (length r) m) 0 data.

(** Column [j] of the fetched tuples; a tuple that is too short is padded
    with [None]. *)
Definition column_of (data : list Row) (j : nat) : list pyval :=
  map (fun r => nth j r PNone) data.

(** [pd.DataFrame(data, columns=columns)] for a list of tuples.  No data gives
    empty [object] columns; otherwise the widest tuple must have as many
    fields as there are labels, and pandas raises [ValueError] if not. *)
Definition pd_DataFrame (data : list Row) (columns : list string) : result DataFrame :=
  match data with
  | [] => Ok (mkDataFrame columns 0 (map (fun _ => mkSeries object []) columns))
  | _ =>
    if Nat.eqb (max_width data) (length columns)
    then Ok (mkDataFrame columns (length data)
               (map (fun j => make_series (column_of data j)) (seq 0 (length columns))))
    else Err ValueError
  end.

(** [s.astype(str)]: every cell goes through [str], missing values included. *)
Definition astype_str (s : Series) : Series :=
  mkSeries object (map (fun v => PStr (py_str v)) (values s)).

(** [s.str.replace('\x1f', '', regex=False)]: cells that are not text come
    out as [nan]. *)
Definition str_replace (s : Series) : Series :=
  mkSeries object
    (map (fun v => match v with PStr t => PStr (replace_x1f t) | _ => PNaN end) (values s)).

(** Body of the loop
    [if df[col].dtype == 'object' ...: df[col] = df[col].astype(str).str.replace(...)]. *)
Definition strip_column (s : Series) : Series :=
  match dtype_of s with
  | object => str_replace (astype_str s)
  | numeric => s
  end.

(** ['' if df[col].dtype == 'object' else 0] *)
Definition fill_value (s : Series) : pyval :=
  match dtype_of s with
  | object => PStr ""
  | numeric => PInt 0
  end.

(** [fillna] on one column with that column's entry of [fill_dict]. *)
Definition fillna_series (s : Series) : Series :=
  mkSeries (dtype_of s)
    (map (fun v => if isna v then fill_value s else v) (values s)).

(** [df.fillna({col: '' if df[col].dtype == 'object' else 0 for col in df.columns})] *)
Definition fillna (df : DataFrame) : DataFrame :=
  mkDataFrame (df_columns df) (df_nrows df) (map fillna_series (df_data df)).

(** The lambda of the trailing chunk:
    [lambda x: str(x).replace('\x1f', '') if isinstance(x, str) else x] *)
Definition strip_if_str (v : pyval) : pyval :=
  if isinstance_str v then PStr (replace_x1f (py_str v)) else v.

(** [df.applymap(f)]: [f] on every cell, each column re-inferred. *)
Definition applymap (f : pyval -> pyval) (df : DataFrame) : DataFrame :=
  mkDataFrame (df_columns df) (df_nrows df)
    (map (fun s => make_series (map f (values s))) (df_data df)).

(** [df[col]] is a series only when the label [col] is unique; with a repeated
    label it is a frame, and [.dtype] on it raises [AttributeError]. *)
Definition has_duplicate_label (columns : list string) : bool :=
  bool_decide (¬ NoDup columns).

(** Lines 149-155: sanitising in single-file mode ([fillna] is called twice). *)
Definition sanitize_single (df : DataFrame) : result DataFrame :=
  if has_duplicate_label (df_columns df) then Err AttributeError
  else
    let df1 := mkDataFrame (df_columns df) (df_nrows df) (map strip_column (df_data df)) in
    Ok (fillna (fillna df1)).

(** Lines 186-190: sanitising of a full chunk. *)
Definition sanitize_chunk (df : DataFrame) : result DataFrame :=
  if has_duplicate_label (df_columns df) then Err AttributeError
  else
    let df1 := mkDataFrame (df_columns df) (df_nrows df) (map strip_column (df_data df)) in
    Ok (fillna df1).

(** Lines 207-210: sanitising of the trailing partial chunk. *)
Definition sanitize_rest (df : DataFrame) : result DataFrame :=
  let df1 := applymap strip_if_str df in
  if has_duplicate_label (df_columns df1) then Err AttributeError
  else Ok (fillna df1).

(** Cell [(i, j)] of a frame. *)
Definition cell (df : DataFrame) (i j : nat) : option pyval :=
  s ← df_data df !! j; values s !! i.

Definition column_dtype (df : DataFrame) (j : nat) : option dtype :=
  dtype_of <$> df_data df !! j.

(** ** Spreadsheet files *)

(** What [to_excel(..., index=False)] puts on the sheet: the labels as first
    row, then one row per frame row, columns in frame order. *)
Record Sheet := mkSheet { header : list string; body : list (list pyval) }.

Definition frame_row (df : DataFrame) (i : nat) : list pyval :=
  map (fun s => nth i (values s) PNone) (df_data df).

Definition to_sheet (df : DataFrame) : Sheet :=
  mkSheet (df_columns df) (map (frame_row df) (seq 0 (df_nrows df))).

(** ** Text files *)

(** The characters [str.strip()] removes (the ASCII ones). *)
Definition is_space (c : ascii) : bool :=
  let n := nat_of_ascii c in
  (Nat.leb 9 n && Nat.leb n 13) || (Nat.leb 28 n && Nat.leb n 32).

Fixpoint lstrip (s : string) : string :=
  match s with
  | String c r => if is_space c then lstrip r else s
  | EmptyString => EmptyString
  end.

Fixpoint rstrip (s : string) : string :=
  match s with
  | String c r =>
    match rstrip r with
    | EmptyString => if is_space c then EmptyString else String c EmptyString
    | r' => String c r'
    end
  | EmptyString => EmptyString
  end.

(** [s.strip()] *)
Definition strip (s : string) : string := rstrip (lstrip s).

(** The lines of a text file, without their line ends. *)
Fixpoint split_lines_aux (cur : string) (s : string) : list string :=
  match s with
  | EmptyString => match cur with EmptyString => [] | _ => [String.rev cur] end
  | String c r =>
    if Ascii.eqb c "010"%char then String.rev cur :: split_lines_aux EmptyString r
    else split_lines_aux (String c cur) r
  end.

Definition split_lines (s : string) : list string := split_lines_aux EmptyString s.

(** [line.split('=', 1)] on a line that contains ['=']: the text before the
    first ['='] and the text after it; [None] when there is no ['=']. *)
Fixpoint split_eq (s : string) : option (string * string) :=
  match s with
  | EmptyString => None
  | String c r =>
    if Ascii.eqb c "="%char then Some (EmptyString, r)
    else match split_eq r with
         | Some (k, v) => Some (String c k, v)
         | None => None
         end
  end.

Definition nl : string := String "010"%char EmptyString.

(** The loop of [read_db_config]: a stripped line that is not empty and holds
    an ['='] sets [config[key] = value]. *)
Definition parse_config (content : string) : gmap string string :=
  foldl (fun config line =>
           let line := strip line in
           match split_eq line with
           | Some (key, value) => <[key := value]> config
           | None => config
           end)
        ∅ (split_lines content).

(** ** The database driver and the rest of the environment *)

(** What [cursor.execute] makes available on the cursor. *)
Record QueryResult := mkQuery {
  description : list string;   (** the names in [cursor.description] *)
  rows : list Row;             (** the rows the cursor delivers, in order *)
  fetch_error : option exn     (** raised by the cursor after [rows], if any *)
}.

(** Driver events, oldest first, as a run performs them. *)
Inductive event :=
| EvConnect
| EvOpenCursor (id : nat)
| EvCloseCursor (id : nat)
| EvCloseConnection.

#[global] Instance event_eq_dec : EqDecision event.
Proof. solve_decision. Defined.

(** What a [to_excel] that raises leaves at its path.  The writer opens the
    target before any cell is written and saves what it has when it is
    closed: a failure to open leaves the path as it was, a failure while
    cells are written leaves a partial workbook, a failure while saving
    leaves a file that cannot be read. *)
Inductive damage :=
| Untouched
| Partial (sheet : Sheet)
| Unreadable.

(** Everything outside the script that decides how a run goes.  The answers
    of the driver to [cursor()] and [close()] may depend on what the driver
    has done so far. *)
Record Env := mkEnv {
  init_client_error : option exn;      (** [oracledb.init_oracle_client] *)
  connect_error : string -> string -> string -> option exn;
                                       (** [oracledb.connect(user, password, dsn)] *)
  sqlparse_parse : string -> result nat;
                                       (** [sqlparse.parse]: how many statements *)
  db_execute : string -> result QueryResult;
                                       (** [cursor.execute] on a statement *)
  append_error : Row -> option exn;    (** [current_chunk.append(row)] raising *)
  to_excel_error : string -> Sheet -> option exn;
                                       (** [df.to_excel(filename)] raising *)
  to_excel_damage : string -> Sheet -> damage;
                                       (** and what it then leaves at [filename] *)
  cursor_error : list event -> option exn;
                                       (** [connection.cursor()] raising on an open
                                           connection *)
  cursor_close_error : list event -> nat -> option exn;
                                       (** [cursor.close()] raising on an open cursor *)
  connection_close_error : list event -> option exn
                                       (** [connection.close()] raising on an open
                                           connection *)
}.

(** Log records, by the call that emits them ([logging.debug] records are
    below the configured level and never emitted). *)
Inductive log_entry :=
| InfoClientInit
| InfoConfigCreated
| InfoEditConfig
| InfoFileCreated (path : string)
| InfoTotalRows (n : pyval)
| InfoExported (filename : string)
| InfoSaved (filename : string)
| ErrorValidate (e : exn)
| ErrorRow (current_count : Z) (columns : list string) (row : Row) (e : exn)
| ErrorDatabase (e : exn)
| ErrorValue (e : exn)
| ErrorOther (columns : list string) (row : Row) (e : exn).

(** The state of the process: the disk, the log, the driver's history, and
    the local variables of [execute_query_and_export_to_excel] that its
    [except] and [finally] blocks read ([None] for [v_columns] and [v_row]
    means the name is not bound yet). *)
Record State := mkState {
  fs : gmap string string;            (** text files *)
  sheets : gmap string Sheet;         (** spreadsheet files *)
  written : list (string * Sheet);    (** the [to_excel] calls that succeeded *)
  log : list log_entry;
  trace : list event;
  v_connection : bool;                (** [connection is not None] *)
  v_cursor : option nat;              (** [cursor], a handle of the driver *)
  v_columns : option (list string);
  v_row : option Row
}.

Definition initial_state (files : gmap string string) (xlsx : gmap string Sheet) : State :=
  mkState files xlsx [] [] [] false None None None.

(** The handles that are open after a history. *)
Definition open_cursors (tr : list event) : list nat :=
  foldl (fun acc ev =>
           match ev with
           | EvOpenCursor i => acc ++ [i]
           | EvCloseCursor i => List.filter (fun j => negb (Nat.eqb i j)) acc
           | _ => acc
           end) [] tr.

Definition open_connections (tr : list event) : nat :=
  foldl (fun n ev =>
           match ev with
           | EvConnect => S n
           | EvCloseConnection => Nat.pred n
           | _ => n
           end) 0 tr.

(** ** State and exceptions *)

Definition M (A : Type) : Type := State -> result A * State.

Definition ret {A} (a : A) : M A := fun s => (Ok a, s).
Definition raise {A} (e : exn) : M A := fun s => (Err e, s).
Definition bind {A B} (m : M A) (k : A -> M B) : M B :=
  fun s => match m s with
           | (Ok a, s') => k a s'
           | (Err e, s') => (Err e, s')
           end.
Definition lift {A} (r : result A) : M A := fun s => (r, s).
Definition get : M State := fun s => (Ok s, s).
Definition modify (f : State -> State) : M unit := fun s => (Ok tt, f s).

Notation "'let!' x ':=' m 'in' k" := (bind m (fun x => k))
  (at level 10, x name, m at level 100, k at level 200).
Notation "m ;;; k" := (bind m (fun _ => k))
  (at level 100, k at level 200, right associativity).

(** [try: body / except ...: handler]: [handler e] is [None] when no clause
    matches [e]. *)
Definition try_except {A} (body : M A) (handler : exn -> option (M A)) : M A :=
  fun s => match body s with
           | (Ok a, s') => (Ok a, s')
           | (Err e, s') =>
             match handler e with
             | Some h => h s'
             | None => (Err e, s')
             end
           end.

(** [try: body / finally: final]: [final] always runs; an exception it raises
    replaces the outcome of [body]. *)
Definition try_finally {A} (body : M A) (final : M unit) : M A :=
  fun s => match body s with
           | (r, s') =>
             match final s' with
             | (Ok _, s'') => (r, s'')
             | (Err e, s'') => (Err e, s'')
             end
           end.

(** [for x in xs: body], threading the loop's own variables [acc]. *)
Fixpoint for_each {A B} (xs : list A) (body : B -> A -> M B) (acc : B) : M B :=
  match xs with
  | [] => ret acc
  | x :: xs' => let! acc' := body acc x in for_each xs' body acc'
  end.

Definition logging (entry : log_entry) : M unit :=
  modify (fun s => mkState (fs s) (sheets s) (written s) (log s ++ [entry]) (trace s)
                     (v_connection s) (v_cursor s) (v_columns s) (v_row s)).

Definition emit (ev : event) : M unit :=
  modify (fun s => mkState (fs s) (sheets s) (written s) (log s) (trace s ++ [ev])
                     (v_connection s) (v_cursor s) (v_columns s) (v_row s)).

Definition set_connection : M unit :=
  modify (fun s => mkState (fs s) (sheets s) (written s) (log s) (trace s)
                     true (v_cursor s) (v_columns s) (v_row s)).

Definition set_cursor (c : nat) : M unit :=
  modify (fun s => mkState (fs s) (sheets s) (written s) (log s) (trace s)
                     (v_connection s) (Some c) (v_columns s) (v_row s)).

Definition set_columns (cols : list string) : M unit :=
  modify (fun s => mkState (fs s) (sheets s) (written s) (log s) (trace s)
                     (v_connection s) (v_cursor s) (Some cols) (v_row s)).

Definition set_row (r : Row) : M unit :=
  modify (fun s => mkState (fs s) (sheets s) (written s) (log s) (trace s)
                     (v_connection s) (v_cursor s) (v_columns s) (Some r)).

(** [with open(path, 'w') as f: f.write(content)] *)
Definition write_file (path content : string) : M unit :=
  modify (fun s => mkState (<[path := content]> (fs s)) (sheets s) (written s) (log s)
                     (trace s) (v_connection s) (v_cursor s) (v_columns s) (v_row s)).

(** The disk after a write to [filename] that raised. *)
Definition spoil (filename : string) (d : damage) (disk : gmap string Sheet)
    : gmap string Sheet :=
  match d with
  | Untouched => disk
  | Partial sheet => <[filename := sheet]> disk
  | Unreadable => delete filename disk
  end.

(** [df.to_excel(filename, index=False, engine='openpyxl')]: the file of that
    name is replaced; when the call raises, the file may be spoilt. *)
Definition to_excel (env : Env) (df : DataFrame) (filename : string) : M unit :=
  let sheet := to_sheet df in
  match to_excel_error env filename sheet with
  | Some e =>
    match to_excel_damage env filename sheet with
    | Untouched => raise e
    | d =>
      modify (fun s => mkState (fs s) (spoil filename d (sheets s)) (written s) (log s)
                         (trace s) (v_connection s) (v_cursor s) (v_columns s) (v_row s)) ;;;
      raise e
    end
  | None =>
    modify (fun s => mkState (fs s) (<[filename := sheet]> (sheets s))
                       (written s ++ [(filename, sheet)]) (log s) (trace s)
                       (v_connection s) (v_cursor s) (v_columns s) (v_row s))
  end.

(** ** The driver's calls *)

(** [oracledb.init_oracle_client(lib_dir=lib_dir)] *)
Definition init_oracle_client (env : Env) : M unit :=
  match init_client_error env with
  | Some e => raise e
  | None => ret tt
  end.

(** [oracledb.connect(user=..., password=..., dsn=...)] *)
Definition oracledb_connect (env : Env) (user password dsn : string) : M unit :=
  match connect_error env user password dsn with
  | Some e => raise e
  | None => emit EvConnect
  end.

(** [connection.cursor()]: a fresh handle on a connection that is open. *)
Definition connection_cursor (env : Env) : M nat :=
  let! s := get in
  if Nat.eqb (open_connections (trace s)) 0 then raise InterfaceError
  else
    match cursor_error env (trace s) with
    | Some e => raise e
    | None =>
      let id := length (List.filter (fun ev => match ev with EvOpenCursor _ => true | _ => false end)
                          (trace s)) in
      emit (EvOpenCursor id) ;;;
      ret id
    end.

(** Every method of a cursor first checks that the handle is still open. *)
Definition verify_open (c : nat) : M unit :=
  let! s := get in
  if bool_decide (c ∈ open_cursors (trace s)) then ret tt else raise InterfaceError.

(** [cursor.close()]: a cursor whose [close] raised is still open. *)
Definition cursor_close (env : Env) (c : nat) : M unit :=
  verify_open c ;;;
  let! s := get in
  match cursor_close_error env (trace s) c with
  | Some e => raise e
  | None => emit (EvCloseCursor c)
  end.

(** [connection.close()] *)
Definition connection_close (env : Env) : M unit :=
  let! s := get in
  if Nat.eqb (open_connections (trace s)) 0 then raise InterfaceError
  else
    match connection_close_error env (trace s) with
    | Some e => raise e
    | None => emit EvCloseConnection
    end.

(** [cursor.execute(statement)] *)
Definition cursor_execute (env : Env) (c : nat) (statement : string) : M QueryResult :=
  verify_open c ;;;
  lift (db_execute env statement).

(** [cursor.fetchone()]: the next row, or [None]. *)
Definition fetchone (q : QueryResult) : M (option Row) :=
  match rows q with
  | r :: _ => ret (Some r)
  | [] => match fetch_error q with
          | Some e => raise e
          | None => ret None
          end
  end.

(** [cursor.fetchall()] *)
Definition fetchall (q : QueryResult) : M (list Row) :=
  match fetch_error q with
  | Some e => raise e
  | None => ret (rows q)
  end.

(** [x[0]] on the result of [fetchone]. *)
Definition item0 (r : option Row) : M pyval :=
  match r with
  | None => raise TypeError
  | Some [] => raise IndexError
  | Some (v :: _) => ret v
  end.

(** [total_rows <= 500_000] *)
Definition le_500000 (v : pyval) : M bool :=
  match v with
  | PInt z => ret (z <=? 500000)%Z
  | PNaN => ret false
  | PNone | PStr _ => raise TypeError
  end.

(** ** The script *)

(** [read_db_config()] *)
Definition read_db_config : M (gmap string string) :=
  let! s := get in
  match fs s !! "database.txt" with
  | None =>
    write_file "database.txt"
      ("user=123" +:+ nl +:+ "password=456" +:+ nl +:+ "dsn=localhost:1521/orcl" +:+ nl) ;;;
    logging InfoConfigCreated ;;;
    logging InfoEditConfig ;;;
    raise (SystemExit 0)
  | Some content => ret (parse_config content)
  end.

(** [read_sql_from_file(file_path)] *)
Definition read_sql_from_file (file_path : string) : M string :=
  let! s := get in
  (match fs s !! file_path with
   | None =>
     write_file file_path ("SELECT * FROM dual" +:+ nl) ;;;
     logging (InfoFileCreated file_path)
   | Some _ => ret tt
   end) ;;;
  let! s := get in
  match fs s !! file_path with
  | Some content => ret (strip content)
  | None => raise OSError
  end.

(** [validate_sql(sql)] *)
Definition validate_sql (env : Env) (sql : string) : M unit :=
  try_except
    (let! parsed := lift (sqlparse_parse env sql) in
     match parsed with
     | O => raise ValueError
     | S _ => ret tt
     end)
    (fun e => if is_Exception e
              then Some (logging (ErrorValidate e) ;;; raise e)
              else None).

(** [db_config[key]] *)
Definition getitem (d : gmap string string) (key : string) : M string :=
  match d !! key with
  | Some v => ret v
  | None => raise KeyError
  end.

(** The variables of the chunking loop. *)
Record Chunking := mkChunking {
  current_chunk : list Row;
  current_count : Z;
  file_counter : Z
}.

Definition output_base : string := "output".

(** [f"{output_base}_{file_counter:03d}.xlsx"] *)
Definition chunk_filename (file_counter : Z) : string :=
  output_base +:+ "_" +:+ format_03d file_counter +:+ ".xlsx".

(** Lines 177-201: the body of [for row in tqdm(cursor, total=total_rows)]. *)
Definition accumulate (env : Env) (columns : list string) (split_size : Z)
    (st : Chunking) (row : Row) : M Chunking :=
  set_row row ;;;
  let! st :=
    try_except
      (match append_error env row with
       | Some e => raise e
       | None =>
         ret (mkChunking (current_chunk st ++ [row]) (current_count st + 1) (file_counter st))
       end)
      (fun e => if is_Exception e
                then Some (logging (ErrorRow (current_count st) columns row e) ;;; ret st)
                else None) in
  if (split_size <=? current_count st)%Z then
    let! df := lift (pd_DataFrame (current_chunk st) columns) in
    let! df := lift (sanitize_chunk df) in
    let filename := chunk_filename (file_counter st) in
    to_excel env df filename ;;;
    logging (InfoSaved filename) ;;;
    ret (mkChunking [] 0 (file_counter st + 1))
  else ret st.

(** Lines 204-216: what is left after the loop. *)
Definition flush_rest (env : Env) (columns : list string) (st : Chunking) : M unit :=
  match current_chunk st with
  | [] => ret tt
  | _ =>
    let filename := chunk_filename (file_counter st) in
    let! df := lift (pd_DataFrame (current_chunk st) columns) in
    let! df := lift (sanitize_rest df) in
    to_excel env df filename ;;;
    logging (InfoSaved filename)
  end.

(** [tqdm(cursor, total=total_rows)] on line 175: the bar is drawn once when
    it is made, before the first row is asked for, and a total that is [nan]
    cannot be turned into a bar width: [ValueError]. *)
Definition tqdm (total : pyval) : M unit :=
  match total with
  | PNaN => raise ValueError
  | _ => ret tt
  end.

(** Lines 164-216: the [else] branch, with [split_size] as its variable. *)
Definition export_chunks (env : Env) (split_size : Z) (total_rows : pyval)
    (sql : string) : M unit :=
  let! s := get in
  match v_cursor s with
  | None => raise AttributeError
  | Some c0 =>
    cursor_close env c0 ;;;
    let! c := connection_cursor env in
    set_cursor c ;;;
    let! q := cursor_execute env c sql in
    let columns := description q in
    set_columns columns ;;;
    tqdm total_rows ;;;
    let! st := for_each (rows q) (accumulate env columns split_size) (mkChunking [] 0 1) in
    match fetch_error q with
    | Some e => raise e
    | None => flush_rest env columns st
    end
  end.

(** Lines 140-161: the [if] branch. *)
Definition export_single (env : Env) (sql : string) : M unit :=
  let! s := get in
  match v_cursor s with
  | None => raise AttributeError
  | Some c0 =>
    cursor_close env c0 ;;;
    let! c := connection_cursor env in
    set_cursor c ;;;
    let! q := cursor_execute env c sql in
    let columns := description q in
    set_columns columns ;;;
    let! data := fetchall q in
    let! df := lift (pd_DataFrame data columns) in
    let! df := lift (sanitize_single df) in
    to_excel env df "output.xlsx" ;;;
    logging (InfoExported "output.xlsx")
  end.

(** [f"SELECT COUNT(1) FROM ({sql})"] *)
Definition count_sql (sql : string) : string :=
  "SELECT COUNT(1) FROM (" +:+ sql +:+ ")".

(** Lines 85-216: the [try] block. *)
Definition try_block (env : Env) (sql : string) : M unit :=
  init_oracle_client env ;;;
  logging InfoClientInit ;;;
  let! db_config := read_db_config in
  let! user := getitem db_config "user" in
  let! password := getitem db_config "password" in
  let! dsn := getitem db_config "dsn" in
  oracledb_connect env user password dsn ;;;
  set_connection ;;;
  let! c := connection_cursor env in
  set_cursor c ;;;
  validate_sql env sql ;;;
  let! q := cursor_execute env c (count_sql sql) in
  let! first := fetchone q in
  let! total_rows := item0 first in
  logging (InfoTotalRows total_rows) ;;;
  let! small := le_500000 total_rows in
  if small then export_single env sql
  else export_chunks env 200000 total_rows sql.

(** Lines 218-226: the [except] clauses.  The last one formats [columns] and
    [row] into its message, and reading a local name that is not bound
    raises [UnboundLocalError]. *)
Definition handlers (e : exn) : option (M unit) :=
  match e with
  | DatabaseError => Some (logging (ErrorDatabase e))
  | ValueError => Some (logging (ErrorValue e))
  | SystemExit _ => None
  | _ =>
    Some (let! s := get in
          match v_columns s, v_row s with
          | Some columns, Some row => logging (ErrorOther columns row e)
          | _, _ => raise UnboundLocalError
          end)
  end.

(** Lines 227-234: the [finally] block. *)
Definition finally_block (env : Env) : M unit :=
  let! s := get in
  (match v_cursor s with
   | Some c => cursor_close env c
   | None => ret tt
   end) ;;;
  if v_connection s then connection_close env else ret tt.

(** [execute_query_and_export_to_excel(sql)] *)
Definition execute_query_and_export_to_excel (env : Env) (sql : string) : M unit :=
  try_finally (try_except (try_block env sql) handlers) (finally_block env).

(** The [__main__] block. *)
Definition main (env : Env) : M unit :=
  let! sql := read_sql_from_file "params.txt" in
  execute_query_and_export_to_excel env sql.

(** The exit status of the interpreter: 0 when [main] returns, the argument
    of [sys.exit], and 1 after an exception nobody caught. *)
Definition exit_status (r : result unit) : Z :=
  match r with
  | Ok _ => 0
  | Err (SystemExit code) => code
  | Err _ => 1
  end.

(** ** Notions used in the statements *)

(** A series is [inferred] when its dtype and storage are the ones the frame
    constructor gives its values. *)
Definition inferred (s : Series) : Prop := make_series (values s) = s.

(** The rows the loop accepts: those whose [append] does not raise. *)
Definition accepted (env : Env) (r : Row) : bool :=
  match append_error env r with
  | None => true
  | Some _ => false
  end.

Definition survivors (env : Env) (data : list Row) : list Row :=
  List.filter (accepted env) data.

(** The sheet that comes out of building a frame from [chunk], sanitising it
    with [sanitize] and writing it (an empty sheet stands for "no sheet"
    when one of the two steps raises). *)
Definition sheet_via (sanitize : DataFrame -> result DataFrame)
    (columns : list string) (chunk : list Row) : Sheet :=
  match pd_DataFrame chunk columns with
  | Ok df => match sanitize df with
             | Ok df' => to_sheet df'
             | Err _ => mkSheet [] []
             end
  | Err _ => mkSheet [] []
  end.

(** The numbered files for the accepted rows [sv], chunk size [c]: file
    [k + 1] holds rows [k * c] to [k * c + c - 1] of [sv]. *)
Definition full_files (columns : list string) (c : nat) (sv : list Row)
    : list (string * Sheet) :=
  map (fun k => (chunk_filename (Z.of_nat (k + 1)),
                 sheet_via sanitize_chunk columns (take c (drop (k * c) sv))))
      (seq 0 (length sv / c)).

(** The trailing file: the rows after the last full chunk, if there are any. *)
Definition rest_file (columns : list string) (c : nat) (sv : list Row)
    : list (string * Sheet) :=
  if Nat.eqb (length sv mod c) 0 then []
  else [(chunk_filename (Z.of_nat (length sv / c + 1)),
         sheet_via sanitize_rest columns (drop (length sv / c * c) sv))].

Definition chunk_files (columns : list string) (c : nat) (sv : list Row)
    : list (string * Sheet) :=
  full_files columns c sv ++ rest_file columns c sv.

(** The per-row failures recorded in a log. *)
Definition row_errors (l : list log_entry) : list (Z * list string * Row * exn) :=
  omap (fun entry => match entry with
                     | ErrorRow k cols r e => Some (k, cols, r, e)
                     | _ => None
                     end) l.

(** What the loop is expected to log for the rows of [data] whose [append]
    raises: the row, the labels, the exception, and the number of rows its
    chunk held at that moment. *)
Definition dropped_rows (env : Env) (columns : list string) (c : nat) (data : list Row)
    : list (Z * list string * Row * exn) :=
  omap (fun i => r ← data !! i;
                 e ← append_error env r;
                 Some (Z.of_nat (length (survivors env (take i data)) mod c), columns, r, e))
       (seq 0 (length data)).

(** Writing a list of files to disk, in order. *)
Definition write_all (files : list (string * Sheet)) (disk : gmap string Sheet)
    : gmap string Sheet :=
  foldl (fun m f => <[f.1 := f.2]> m) disk files.

(** A driver whose [cursor()] and [close()] calls do not raise on handles
    that are open. *)
Definition reliable_driver (env : Env) : Prop :=
  (forall tr, cursor_error env tr = None)
  /\ (forall tr c, cursor_close_error env tr c = None)
  /\ (forall tr, connection_close_error env tr = None).

(** A run in which nothing outside the script fails: the client library
    loads, [database.txt] holds the three keys, the connection is accepted,
    [params.txt] holds a query that parses, the count query answers [total],
    the query delivers [data] under the labels [columns] (pairwise distinct,
    one field per label in every row), every sheet can be written, and the
    driver hands out and closes its handles. *)
Record Nominal (env : Env) (files : gmap string string) (sql : string)
    (columns : list string) (data : list Row) (total : Z) : Prop := {
  nom_client : init_client_error env = None;
  nom_config : exists cfg, files !! "database.txt" = Some cfg
                           /\ is_Some (parse_config cfg !! "user")
                           /\ is_Some (parse_config cfg !! "password")
                           /\ is_Some (parse_config cfg !! "dsn");
  nom_connect : forall u p d, connect_error env u p d = None;
  nom_params : exists text, files !! "params.txt" = Some text /\ strip text = sql;
  nom_parse : exists k, sqlparse_parse env sql = Ok (S k);
  nom_count : exists d, db_execute env (count_sql sql) = Ok (mkQuery d [[PInt total]] None);
  nom_query : db_execute env sql = Ok (mkQuery columns data None);
  nom_labels : NoDup columns;
  nom_width : Forall (fun r => length r = length columns) data;
  nom_excel : forall f sh, to_excel_error env f sh = None;
  nom_append : forall r e, append_error env r = Some e -> is_Exception e = true;
  nom_driver : reliable_driver env
}.

(** The state in which a run without failures reaches its mode decision:
    connected, the first cursor open, the client and the row count logged. *)
Definition at_decision (files : gmap string string) (total : Z)
    (xlsx : gmap string Sheet) : State :=
  mkState files xlsx [] [InfoClientInit; InfoTotalRows (PInt total)]
    [EvConnect; EvOpenCursor 0] true (Some 0) None None.

(** The driver history of a run that exports something: one connection, the
    counting cursor, then the cursor of the query itself. *)
Definition full_trace : list event :=
  [EvConnect; EvOpenCursor 0; EvCloseCursor 0; EvOpenCursor 1; EvCloseCursor 1;
   EvCloseConnection].

(** The number of body rows of each written file, in writing order. *)
Definition row_counts (files : list (string * Sheet)) : list Z :=
  map (fun f => Z.of_nat (length (body f.2))) files.

Definition total_rows_written (files : list (string * Sheet)) : Z :=
  foldr Z.add 0%Z (row_counts files).

(** The names [output_001.xlsx], [output_002.xlsx], ... of [k] files. *)
Definition numbered_names (k : nat) : list string :=
  map (fun i => "output_" +:+ format_03d (Z.of_nat i) +:+ ".xlsx") (seq 1 k).

(** The placeholder written when [database.txt] is missing, and the query
    written when the query file is missing. *)
Definition placeholder_config : string :=
  "user=123" +:+ nl +:+ "password=456" +:+ nl +:+ "dsn=localhost:1521/orcl" +:+ nl.

Definition default_query_file : string := "SELECT * FROM dual" +:+ nl.

(** The driver history of a run that fails after connecting and before the
    query itself is executed. *)
Definition short_trace : list event :=
  [EvConnect; EvOpenCursor 0; EvCloseCursor 0; EvCloseConnection].

(** What the [finally] block looks at: the driver history and the variables
    [connection] and [cursor]. *)
Definition resources (s : State) : list event * bool * option nat :=
  (trace s, v_connection s, v_cursor s).

(** The situations in which the [try] block can be left: not connected;
    connected, no cursor yet; connected with the counting cursor; connected
    with [cursor] still naming the counting cursor, which is closed (line
    140 done, line 141 or 165 not); connected with the query's cursor. *)
Definition res_idle : list event * bool * option nat := ([], false, None).
Definition res_connected : list event * bool * option nat := ([EvConnect], true, None).
Definition res_counting : list event * bool * option nat :=
  ([EvConnect; EvOpenCursor 0], true, Some 0).
Definition res_stale : list event * bool * option nat :=
  ([EvConnect; EvOpenCursor 0; EvCloseCursor 0], true, Some 0).
Definition res_exporting : list event * bool * option nat :=
  ([EvConnect; EvOpenCursor 0; EvCloseCursor 0; EvOpenCursor 1], true, Some 1).

(** A computation that leaves the driver and the two variables alone,
    whether it returns or raises. *)
Definition keeps_resources {A} (m : M A) : Prop :=
  forall s, resources (snd (m s)) = resources s.

(** Nothing is left open after a history, and never more than one
    connection and one cursor were open during it. *)
Definition all_released (tr : list event) : Prop :=
  open_connections tr = 0 /\ open_cursors tr = [].

Definition at_most_one_open (tr : list event) : Prop :=
  forall k, open_connections (take k tr) <= 1 /\ length (open_cursors (take k tr)) <= 1.

(** An outcome whose state is in one of these situations; the two without
    an open cursor on a connection arise only when [connection.cursor()]
    raised. *)
Definition ends_safely (env : Env) (x : result unit * State) : Prop :=
  resources (snd x) = res_idle
  \/ (resources (snd x) = res_connected /\ cursor_error env [EvConnect] <> None)
  \/ resources (snd x) = res_counting
  \/ (resources (snd x) = res_stale
      /\ cursor_error env [EvConnect; EvOpenCursor 0; EvCloseCursor 0] <> None)
  \/ resources (snd x) = res_exporting.

(** What single-file mode and a full chunk write for a fetched value [v] in a
    column whose fetched values are [col]. *)
Definition export_cell (col : list pyval) (v : pyval) : pyval :=
  match infer_dtype col with
  | object => PStr (replace_x1f (py_str v))
  | numeric => if isna v then PInt 0 else v
  end.

(** The same for the trailing chunk. *)
Definition export_cell_rest (col : list pyval) (v : pyval) : pyval :=
  match v with
  | PStr t => PStr (replace_x1f t)
  | PInt z => PInt z
  | PNone | PNaN =>
    match infer_dtype col with
    | object => PStr ""
    | numeric => PInt 0
    end
  end.

(** The body of a sheet, row by row and column by column, from the fetched
    rows. *)
Definition export_rows (out : list pyval -> pyval -> pyval)
    (columns : list string) (chunk : list Row) : list (list pyval) :=
  map (fun r => map (fun j => out (column_of chunk j) (nth j r PNone))
                    (seq 0 (length columns)))
      chunk.

(** Integers that pandas stores exactly whatever the column: an integer
    column with a missing value is stored as float64, which is exact up to
    2^53 in absolute value (and every such integer fits int64). *)
Definition exact_int (v : pyval) : Prop :=
  match v with
  | PInt z => (- 2 ^ 53 <= z <= 2 ^ 53)%Z
  | _ => True
  end.

Definition exact_rows (data : list Row) : Prop := Forall (Forall exact_int) data.


(** The driver histories a run can leave behind. *)
Definition run_traces : list (list event) :=
  [ [];
    [EvConnect];
    [EvConnect; EvCloseConnection];
    [EvConnect; EvOpenCursor 0];
    [EvConnect; EvOpenCursor 0; EvCloseCursor 0];
    short_trace;
    [EvConnect; EvOpenCursor 0; EvCloseCursor 0; EvOpenCursor 1];
    [EvConnect; EvOpenCursor 0; EvCloseCursor 0; EvOpenCursor 1; EvCloseCursor 1];
    full_trace ].

(** How the [finally] block ends: it returns and nothing is left open, or it
    raises and the connection is still open. *)
Definition cleaned_up (x : result unit * State) : Prop :=
  (fst x = Ok tt /\ all_released (trace (snd x)))
  \/ (exists e, fst x = Err e /\ open_connections (trace (snd x)) = 1).

(** ** Concrete environments used in examples *)

Definition demo_sql : string := "SELECT NAME, AGE FROM PEOPLE".

Definition demo_files : gmap string string :=
  <["params.txt" := demo_sql +:+ nl]>
    {[ "database.txt" := "user=scott" +:+ nl +:+ "password=tiger" +:+ nl +:+ "dsn=db:1521/orcl" +:+ nl ]}.

(** A database that answers the count query with [count] and the query
    itself with [q]. *)
Definition demo_db (count : Z) (q : QueryResult) (statement : string) : result QueryResult :=
  if String.eqb statement (count_sql demo_sql)
  then Ok (mkQuery ["COUNT(1)"] [[PInt count]] None)
  else if String.eqb statement demo_sql then Ok q
  else Err DatabaseError.

Definition demo_env (count : Z) (q : QueryResult)
    (append_err : Row -> option exn) (excel_err : string -> Sheet -> option exn) : Env :=
  mkEnv None (fun _ _ _ => None) (fun _ => Ok 1) (demo_db count q) append_err excel_err
    (fun _ _ => Untouched) (fun _ => None) (fun _ _ => None) (fun _ => None).

Definition no_append_error : Row -> option exn := fun _ => None.
Definition no_excel_error : string -> Sheet -> option exn := fun _ _ => None.

(** An [append] that fails, with [MemoryError], on the rows equal to
    [('bad',)]. *)
Definition reject_bad (r : Row) : option exn :=
  if bool_decide (r = [PStr "bad"]) then Some MemoryError else None.

(** A result of 600 000 rows whose first row is [('bad',)], and a database
    that delivers it. *)
Definition big_data : list Row :=
  [PStr "bad"] :: replicate (Z.to_nat 599999) [PStr "a"].

Definition big_env : Env :=
  demo_env 600000 (mkQuery ["NAME"] big_data None) reject_bad no_excel_error.

(** A result of two rows, for single-file mode. *)
Definition small_data : list Row := [[PStr "a"; PInt 1]; [PNone; PNone]].

Definition small_env : Env :=
  demo_env 2 (mkQuery ["NAME"; "AGE"] small_data None) no_append_error no_excel_error.

(** A disk on which no spreadsheet can be written. *)
Definition locked_output : string -> Sheet -> option exn := fun _ _ => Some OSError.

(** Single-file mode with a disk that refuses the file. *)
Definition locked_env : Env :=
  demo_env 2 (mkQuery ["NAME"; "AGE"] small_data None) no_append_error locked_output.

(** The same disk in multi-file mode: the count query announces 600 000 rows. *)
Definition locked_env_chunks : Env :=
  demo_env 600000 (mkQuery ["NAME"; "AGE"] small_data None) no_append_error locked_output.

(** A database that rejects the connection, and a query that does not parse. *)
Definition refused_env : Env :=
  mkEnv None (fun _ _ _ => Some DatabaseError) (fun _ => Ok 1)
    (demo_db 2 (mkQuery ["NAME"; "AGE"] small_data None)) no_append_error no_excel_error
    (fun _ _ => Untouched) (fun _ => None) (fun _ _ => None) (fun _ => None).

Definition unparsed_env : Env :=
  mkEnv None (fun _ _ _ => None) (fun _ => Ok 0)
    (demo_db 2 (mkQuery ["NAME"; "AGE"] small_data None)) no_append_error no_excel_error
    (fun _ _ => Untouched) (fun _ => None) (fun _ _ => None) (fun _ => None).

(** A connection that is lost while the rows are fetched: [fetchall] raises
    [DatabaseError] after the first row, and so does every later
    [cursor.close()]. *)
Definition lost_env : Env :=
  mkEnv None (fun _ _ _ => None) (fun _ => Ok 1)
    (demo_db 2 (mkQuery ["NAME"; "AGE"] [[PStr "a"; PInt 1]] (Some DatabaseError)))
    no_append_error no_excel_error (fun _ _ => Untouched)
    (fun _ => None)
    (fun tr _ => if bool_decide (EvOpenCursor 1 ∈ tr) then Some DatabaseError else None)
    (fun _ => None).

(** A driver that hands out one cursor only: the second [connection.cursor()]
    (line 141) raises [DatabaseError]. *)
Definition one_cursor_env : Env :=
  mkEnv None (fun _ _ _ => None) (fun _ => Ok 1)
    (demo_db 2 (mkQuery ["NAME"; "AGE"] small_data None))
    no_append_error no_excel_error (fun _ _ => Untouched)
    (fun tr => if bool_decide (EvOpenCursor 0 ∈ tr) then Some DatabaseError else None)
    (fun _ _ => None)
    (fun _ => None).

(** A count query that answers [nan], over a stream of one row. *)
Definition nan_db (statement : string) : result QueryResult :=
  if String.eqb statement (count_sql demo_sql)
  then Ok (mkQuery ["COUNT(1)"] [[PNaN]] None)
  else if String.eqb statement demo_sql then Ok (mkQuery ["NAME"] [[PStr "a"]] None)
  else Err DatabaseError.

Definition nan_env : Env :=
  mkEnv None (fun _ _ _ => None) (fun _ => Ok 1) nan_db
    no_append_error no_excel_error (fun _ _ => Untouched)
    (fun _ => None) (fun _ _ => None) (fun _ => None).

(** Multi-file mode over a short stream in which the first and the third row
    fail: the count query announces 600 000 rows, the cursor delivers four. *)
Definition skipping_data : list Row :=
  [[PStr "bad"]; [PStr "a"]; [PStr "bad"]; [PStr "b"]].

Definition skipping_env : Env :=
  demo_env 600000 (mkQuery ["NAME"] skipping_data None) reject_bad no_excel_error.

(** ** Notions used in the further properties *)

(** The ways a call of [main] can end, as the interpreter sees them. *)
Definition escapes_only_by_exit_or_handler (r : result unit) (st : State) : Prop :=
  r = Ok tt
  \/ (exists code, r = Err (SystemExit code))
  \/ (r = Err UnboundLocalError /\ (v_columns st = None \/ v_row st = None)).

(** The start of a run goes well: the client library loads, [database.txt]
    holds the three keys, the connection is accepted, and the driver hands
    out and closes its handles. *)
Record Connects (env : Env) (files : gmap string string) : Prop := {
  con_client : init_client_error env = None;
  con_config : exists cfg, files !! "database.txt" = Some cfg
                           /\ is_Some (parse_config cfg !! "user")
                           /\ is_Some (parse_config cfg !! "password")
                           /\ is_Some (parse_config cfg !! "dsn");
  con_connect : forall u p d, connect_error env u p d = None;
  con_driver : reliable_driver env
}.

(** In addition the query parses and the count query answers [total]. *)
Record Counts (env : Env) (files : gmap string string) (sql : string) (total : Z)
    : Prop := {
  cnt_connects : Connects env files;
  cnt_parse : exists k, sqlparse_parse env sql = Ok (S k);
  cnt_count : exists d, db_execute env (count_sql sql) = Ok (mkQuery d [[PInt total]] None)
}.

(** The state right after [cursor = connection.cursor()] on line 126. *)
Definition connected (files : gmap string string) (xlsx : gmap string Sheet) : State :=
  mkState files xlsx [] [InfoClientInit] [EvConnect; EvOpenCursor 0] true (Some 0) None None.

(** Lines 130-216: the [try] block from [validate_sql(sql)] on. *)
Definition after_connect (env : Env) (sql : string) : M unit :=
  validate_sql env sql ;;;
  let! q := cursor_execute env 0 (count_sql sql) in
  let! first := fetchone q in
  let! total_rows := item0 first in
  logging (InfoTotalRows total_rows) ;;;
  let! small := le_500000 total_rows in
  if small then export_single env sql
  else export_chunks env 200000 total_rows sql.

(** A value fit for a sheet: not missing, and free of U+001F if it is text. *)
Definition clean (v : pyval) : Prop :=
  isna v = false /\ forall t, v = PStr t -> count_x1f t = 0.

Definition clean_sheet (s : Sheet) : Prop := Forall (Forall clean) (body s).

(** The trailing sanitiser on one column, as a function of the column's
    dtype. *)
Definition rest_out (d : dtype) (v : pyval) : pyval :=
  match v with
  | PStr t => PStr (replace_x1f t)
  | PInt z => PInt z
  | PNone | PNaN => match d with object => PStr "" | numeric => PInt 0 end
  end.

(** ** Credential files *)

(** [c not in s] *)
Fixpoint lacks (c : ascii) (s : string) : bool :=
  match s with
  | EmptyString => true
  | String x r => negb (Ascii.eqb x c) && lacks c r
  end.

Fixpoint ascii_only (s : string) : bool :=
  match s with
  | EmptyString => true
  | String x r => Nat.ltb (nat_of_ascii x) 128 && ascii_only r
  end.

(** Text on which the model of reading agrees with Python: ASCII only (it
    decodes, and [strip] removes nothing the model does not), and no
    carriage return (the only line end is the line feed). *)
Definition plain_text (content : string) : Prop :=
  ascii_only content = true /\ lacks "013"%char content = true.

(** The two files the script reads hold plain text, if they exist. *)
Definition readable (files : gmap string string) : Prop :=
  forall path content,
    path = "params.txt" \/ path = "database.txt" ->
    files !! path = Some content -> plain_text content.

(** A credential file as an operator writes it: one [key=value] per line. *)
Definition config_line (kv : string * string) : string :=
  fst kv +:+ ("=" +:+ snd kv).

Definition render_config (kvs : list (string * string)) : string :=
  foldr (fun kv rest => config_line kv +:+ (nl +:+ rest)) EmptyString kvs.

(** An entry that fits on one line: no ['='] in the key, no line end in the
    line, ASCII only (as far as [strip] is modelled), no white space at either
    end of the line. *)
Definition config_entry (kv : string * string) : Prop :=
  lacks "="%char (fst kv) = true
  /\ lacks "010"%char (config_line kv) = true
  /\ lacks "013"%char (config_line kv) = true
  /\ ascii_only (config_line kv) = true
  /\ strip (config_line kv) = config_line kv.

(** ** File names *)

(** The number a string of decimal digits stands for, leading zeros allowed. *)
Definition counter_of (s : string) : option Z :=
  option_map Z.of_uint (NilEmpty.uint_of_string s).

(** ** What a run leaves behind *)

(** The file a log record announces as written. *)
Definition announces (entry : log_entry) : option string :=
  match entry with
  | InfoExported f | InfoSaved f => Some f
  | _ => None
  end.

Definition announced (l : list log_entry) : list string := omap announces l.

(** The spreadsheets on the disk, the writes that succeeded and the files the
    log announces. *)
Definition outputs (s : State) : gmap string Sheet * list (string * Sheet) * list string :=
  (sheets s, written s, announced (log s)).

(** A computation that writes no spreadsheet and announces none. *)
Definition quiet {A} (m : M A) : Prop :=
  forall s, outputs (snd (m s)) = outputs s.

(** The only name lists a run can produce. *)
Definition expected_names (names : list string) : Prop :=
  names = ["output.xlsx"] \/ exists k, names = numbered_names k.

(** What a run has left behind at any point after its last write: the log
    announces exactly the files written, in order; and either [output.xlsx]
    alone was written, or nothing was written and the write of
    [output.xlsx] may have failed and spoilt that file, or the first numbered
    files were written and the write of the next one may have failed and
    spoilt that file.  Beyond that the disk [xlsx] the run started with is
    unchanged. *)
Definition settled (xlsx : gmap string Sheet) (s : State) : Prop :=
  announced (log s) = map fst (written s)
  /\ ((map fst (written s) = ["output.xlsx"] /\ sheets s = write_all (written s) xlsx)
      \/ (written s = [] /\ exists d, sheets s = spoil "output.xlsx" d xlsx)
      \/ (map fst (written s) = numbered_names (length (written s))
          /\ exists d,
               sheets s
               = spoil (chunk_filename (Z.of_nat (length (written s)) + 1)) d
                   (write_all (written s) xlsx))).

(** Inside the chunking loop no write has failed, and the counter is one
    ahead of the files written. *)
Definition chunking (xlsx : gmap string Sheet) (acc : Chunking) (s : State) : Prop :=
  sheets s = write_all (written s) xlsx
  /\ announced (log s) = map fst (written s)
  /\ map fst (written s) = numbered_names (length (written s))
  /\ file_counter acc = (Z.of_nat (length (written s)) + 1)%Z.

Definition untouched (xlsx : gmap string Sheet) (s : State) : Prop :=
  outputs s = (xlsx, [], []).

(** A computation that leaves one part of the state as it found it, and one
    that keeps a property of the state, whether they return or raise. *)
Definition leaves {X A} (part : State -> X) (m : M A) : Prop :=
  forall s, part (snd (m s)) = part s.

Definition preserves {A} (P : State -> Prop) (m : M A) : Prop :=
  forall s, P s -> P (snd (m s)).

(** The names under which the script writes spreadsheets. *)
Definition output_name (name : string) : Prop :=
  name = "output.xlsx" \/ exists k : Z, name = chunk_filename k.

(** The text files [files] the run started with are all there, unchanged, and
    nothing was created beside the two files the script may create. *)
Definition files_kept (files : gmap string string) (s : State) : Prop :=
  (forall path content, files !! path = Some content -> fs s !! path = Some content)
  /\ (forall path, path <> "params.txt" -> path <> "database.txt" ->
                   fs s !! path = files !! path).
(** * Properties *)

(** ** Stripping U+001F from a text *)

Lemma replace_x1f_count (s : string) : count_x1f (replace_x1f s) = 0.
Proof.
  induction s as [|c r IH]; simpl; [reflexivity|].
  destruct (Ascii.eqb c x1f) eqn:E; simpl; [assumption|].
  rewrite E. simpl. assumption.
Qed.

Lemma replace_x1f_filter (s : string) :
  list_ascii_of_string (replace_x1f s)
  = List.filter (fun c => negb (Ascii.eqb c x1f)) (list_ascii_of_string s).
Proof.
  induction s as [|c r IH]; simpl; [reflexivity|].
  destruct (Ascii.eqb c x1f); simpl; congruence.
Qed.

Lemma replace_x1f_length (s : string) :
  String.length s = String.length (replace_x1f s) + count_x1f s.
Proof.
  induction s as [|c r IH]; simpl; [reflexivity|].
  destruct (Ascii.eqb c x1f); simpl; lia.
Qed.

Lemma replace_x1f_clean (s : string) : count_x1f s = 0 -> replace_x1f s = s.
Proof.
  induction s as [|c r IH]; simpl; [reflexivity|].
  destruct (Ascii.eqb c x1f); simpl; [discriminate|].
  intros H. f_equal. auto.
Qed.

(** ** Cells of a sanitised frame *)

Lemma cell_map (f : Series -> Series) (cols : list string) (n : nat)
    (data : list Series) (i j : nat) :
  cell (mkDataFrame cols n (map f data)) i j = (s ← data !! j; values (f s) !! i).
Proof.
  unfold cell. simpl. rewrite list_lookup_fmap.
  destruct (data !! j); reflexivity.
Qed.

Lemma cell_fillna (df : DataFrame) (i j : nat) :
  cell (fillna df) i j = (s ← df_data df !! j; values (fillna_series s) !! i).
Proof. unfold fillna. apply cell_map. Qed.

Lemma strip_column_object_lookup (s : Series) (i : nat) :
  dtype_of s = object ->
  values (strip_column s) !! i = (fun v => PStr (replace_x1f (py_str v))) <$> values s !! i.
Proof.
  intros Hd. unfold strip_column. rewrite Hd. unfold str_replace, astype_str. simpl.
  rewrite !list_lookup_fmap. destruct (values s !! i); reflexivity.
Qed.

Lemma strip_column_dtype (s : Series) : dtype_of (strip_column s) = dtype_of s.
Proof. unfold strip_column. destruct (dtype_of s) eqn:E; simpl; congruence. Qed.

Lemma fillna_series_idem (s : Series) : fillna_series (fillna_series s) = fillna_series s.
Proof.
  unfold fillna_series. simpl. f_equal. rewrite map_map.
  apply map_ext. intros v. unfold fill_value. simpl.
  destruct (isna v) eqn:E; [|rewrite E; reflexivity].
  destruct (dtype_of s); reflexivity.
Qed.

Lemma fillna_idem (df : DataFrame) : fillna (fillna df) = fillna df.
Proof.
  unfold fillna. simpl. f_equal. rewrite map_map. apply map_ext.
  intros s. apply fillna_series_idem.
Qed.

(** The second [fillna] of single-file mode changes nothing: both modes
    sanitise a full frame the same way. *)
Lemma sanitize_single_chunk (df : DataFrame) : sanitize_single df = sanitize_chunk df.
Proof.
  unfold sanitize_single, sanitize_chunk.
  destruct (has_duplicate_label (df_columns df)); [reflexivity|].
  rewrite fillna_idem. reflexivity.
Qed.

Lemma has_duplicate_label_false (columns : list string) :
  NoDup columns -> has_duplicate_label columns = false.
Proof. intros H. unfold has_duplicate_label. apply bool_decide_eq_false. tauto. Qed.

Lemma has_duplicate_label_true (columns : list string) :
  ¬ NoDup columns -> has_duplicate_label columns = true.
Proof. intros H. unfold has_duplicate_label. apply bool_decide_eq_true. assumption. Qed.

Lemma sanitize_chunk_ok (df : DataFrame) :
  NoDup (df_columns df) ->
  sanitize_chunk df
  = Ok (fillna (mkDataFrame (df_columns df) (df_nrows df) (map strip_column (df_data df)))).
Proof. intros H. unfold sanitize_chunk. rewrite has_duplicate_label_false; auto. Qed.

Lemma sanitize_rest_ok (df : DataFrame) :
  NoDup (df_columns df) ->
  sanitize_rest df = Ok (fillna (applymap strip_if_str df)).
Proof. intros H. unfold sanitize_rest. simpl. rewrite has_duplicate_label_false; auto. Qed.

(** A full chunk: every cell of an [object] column comes out as the text
    [str(v)] without U+001F, whatever [v] was. *)
Lemma sanitize_chunk_object_cell (df df' : DataFrame) (i j : nat) (v : pyval) :
  sanitize_chunk df = Ok df' ->
  column_dtype df j = Some object ->
  cell df i j = Some v ->
  cell df' i j = Some (PStr (replace_x1f (py_str v))).
Proof.
  unfold sanitize_chunk. destruct (has_duplicate_label _); [discriminate|].
  intros [= <-]. rewrite cell_fillna. unfold column_dtype, cell. simpl.
  rewrite list_lookup_fmap.
  destruct (df_data df !! j) as [s|]; simpl; [|discriminate].
  intros [= Hd] Hv. rewrite list_lookup_fmap, strip_column_object_lookup by assumption.
  rewrite Hv. reflexivity.
Qed.

(** A full chunk: a numeric column keeps its numbers and gets 0 for each
    missing value. *)
Lemma sanitize_chunk_numeric_cell (df df' : DataFrame) (i j : nat) (v : pyval) :
  sanitize_chunk df = Ok df' ->
  column_dtype df j = Some numeric ->
  cell df i j = Some v ->
  cell df' i j = Some (if isna v then PInt 0 else v).
Proof.
  unfold sanitize_chunk. destruct (has_duplicate_label _); [discriminate|].
  intros [= <-]. rewrite cell_fillna. unfold column_dtype, cell. simpl.
  rewrite list_lookup_fmap.
  destruct (df_data df !! j) as [s|]; simpl; [|discriminate].
  intros [= Hd] Hv. rewrite list_lookup_fmap.
  unfold strip_column, fill_value. rewrite Hd. rewrite Hd, Hv. reflexivity.
Qed.

(** ** Frames as the constructor builds them *)

Lemma existsb_str_storage (d : dtype) (vs : list pyval) :
  existsb isinstance_str (map (to_storage d) vs) = existsb isinstance_str vs.
Proof.
  induction vs as [|v vs IH]; simpl; [reflexivity|].
  rewrite IH. destruct d, v; reflexivity.
Qed.

Lemma existsb_number_storage (vs : list pyval) :
  existsb is_number vs = true ->
  existsb is_number (map (to_storage numeric) vs) = true.
Proof.
  induction vs as [|v vs IH]; simpl; [discriminate|].
  destruct v; simpl; auto.
Qed.

Lemma to_storage_object (vs : list pyval) : map (to_storage object) vs = vs.
Proof. induction vs as [|v vs IH]; simpl; [reflexivity|]. rewrite IH. reflexivity. Qed.

Lemma to_storage_idem (d : dtype) (vs : list pyval) :
  map (to_storage d) (map (to_storage d) vs) = map (to_storage d) vs.
Proof.
  rewrite map_map. apply map_ext. intros v. destruct d, v; reflexivity.
Qed.

Lemma make_series_inferred (vs : list pyval) : inferred (make_series vs).
Proof.
  unfold inferred, make_series. simpl.
  assert (Hd : infer_dtype (map (to_storage (infer_dtype vs)) vs) = infer_dtype vs).
  { unfold infer_dtype at 1 3. rewrite existsb_str_storage.
    destruct (existsb isinstance_str vs) eqn:Es.
    - reflexivity.
    - unfold infer_dtype. rewrite Es.
      destruct (existsb is_number vs) eqn:En.
      + rewrite existsb_number_storage; auto.
      + rewrite to_storage_object, En. reflexivity. }
  rewrite Hd, to_storage_idem. reflexivity.
Qed.

Lemma pd_DataFrame_inferred (data : list Row) (columns : list string) (df : DataFrame) :
  pd_DataFrame data columns = Ok df -> Forall inferred (df_data df).
Proof.
  unfold pd_DataFrame. destruct data as [|r data].
  - intros [= <-]. simpl. apply Forall_forall. intros s Hs.
    apply list_elem_of_In, in_map_iff in Hs. destruct Hs as (_ & <- & _). reflexivity.
  - destruct (Nat.eqb _ _); [|discriminate]. intros [= <-]. simpl.
    apply Forall_forall. intros s Hs.
    apply list_elem_of_In, in_map_iff in Hs. destruct Hs as (j & <- & _).
    apply make_series_inferred.
Qed.

Lemma strip_if_str_isinstance (v : pyval) :
  isinstance_str (strip_if_str v) = isinstance_str v.
Proof. destruct v; reflexivity. Qed.

Lemma strip_if_str_number (v : pyval) : is_number (strip_if_str v) = is_number v.
Proof. destruct v; reflexivity. Qed.

Lemma infer_dtype_strip (vs : list pyval) :
  infer_dtype (map strip_if_str vs) = infer_dtype vs.
Proof.
  unfold infer_dtype.
  assert (Hs : existsb isinstance_str (map strip_if_str vs) = existsb isinstance_str vs).
  { induction vs as [|v vs IH]; simpl; [reflexivity|].
    rewrite IH, strip_if_str_isinstance. reflexivity. }
  assert (Hn : existsb is_number (map strip_if_str vs) = existsb is_number vs).
  { clear Hs. induction vs as [|v vs IH]; simpl; [reflexivity|].
    rewrite IH, strip_if_str_number. reflexivity. }
  rewrite Hs, Hn. reflexivity.
Qed.

Lemma to_storage_strip (d : dtype) (v : pyval) :
  to_storage d (strip_if_str (to_storage d v)) = strip_if_str (to_storage d v).
Proof. destruct d, v; reflexivity. Qed.

(** On a constructor-built column, [applymap] with the stripping lambda keeps
    the dtype and changes the cells by the lambda alone. *)
Lemma applymap_strip_series (s : Series) :
  inferred s ->
  make_series (map strip_if_str (values s))
  = mkSeries (dtype_of s) (map strip_if_str (values s)).
Proof.
  destruct s as [d vs]. unfold inferred, make_series. simpl.
  intros [= Hd Hv]. rewrite infer_dtype_strip, Hd. f_equal.
  rewrite Hd in Hv. rewrite <- Hv.
  rewrite !map_map. apply map_ext. intros v. apply to_storage_strip.
Qed.

Lemma cell_applymap_strip (df : DataFrame) (i j : nat) :
  Forall inferred (df_data df) ->
  cell (applymap strip_if_str df) i j = strip_if_str <$> cell df i j.
Proof.
  intros Hall. unfold applymap. rewrite cell_map. unfold cell.
  destruct (df_data df !! j) as [s|] eqn:Hj; cbn -[make_series]; [|reflexivity].
  rewrite applymap_strip_series.
  - simpl. apply list_lookup_fmap.
  - eapply Forall_lookup_1; eauto.
Qed.

Lemma column_dtype_applymap_strip (df : DataFrame) (j : nat) :
  Forall inferred (df_data df) ->
  column_dtype (applymap strip_if_str df) j = column_dtype df j.
Proof.
  intros Hall. unfold column_dtype, applymap. simpl. rewrite list_lookup_fmap.
  destruct (df_data df !! j) as [s|] eqn:Hj; cbn -[make_series]; [|reflexivity].
  rewrite applymap_strip_series; [reflexivity|]. eapply Forall_lookup_1; eauto.
Qed.

(** The trailing chunk: text loses its U+001F, a missing value becomes the
    fill value of its column, and every other cell is kept as it is. *)
Lemma sanitize_rest_cell (df df' : DataFrame) (i j : nat) (d : dtype) (v : pyval) :
  Forall inferred (df_data df) ->
  sanitize_rest df = Ok df' ->
  column_dtype df j = Some d ->
  cell df i j = Some v ->
  cell df' i j
  = Some (match v with
          | PStr t => PStr (replace_x1f t)
          | PNone | PNaN => match d with object => PStr "" | numeric => PInt 0 end
          | PInt z => PInt z
          end).
Proof.
  intros Hall. unfold sanitize_rest. destruct (has_duplicate_label _); [discriminate|].
  intros [= <-] Hd Hv.
  pose proof (cell_applymap_strip df i j Hall) as Hc.
  pose proof (column_dtype_applymap_strip df j Hall) as Hd'.
  rewrite Hv in Hc. rewrite Hd in Hd'. simpl in Hc.
  rewrite cell_fillna. unfold cell, column_dtype in Hc, Hd'.
  destruct (df_data (applymap strip_if_str df) !! j) as [s|]; simpl in *; [|discriminate].
  injection Hd' as Hd'. rewrite list_lookup_fmap, Hc. simpl.
  unfold fill_value. rewrite Hd'. destruct v, d; reflexivity.
Qed.

Lemma pd_DataFrame_columns (data : list Row) (columns : list string) (df : DataFrame) :
  pd_DataFrame data columns = Ok df -> df_columns df = columns.
Proof.
  unfold pd_DataFrame. destruct data; [intros [= <-]; reflexivity|].
  destruct (Nat.eqb _ _); [intros [= <-]; reflexivity | discriminate].
Qed.

Lemma storage_str (d : dtype) (v : pyval) (t : string) :
  to_storage d v = PStr t -> v = PStr t.
Proof. destruct d, v; simpl; congruence. Qed.

Lemma existsb_lookup {A} (p : A -> bool) (l : list A) (i : nat) (x : A) :
  l !! i = Some x -> p x = true -> existsb p l = true.
Proof.
  intros Hl Hp. apply existsb_exists. exists x. split; [|assumption].
  apply list_elem_of_In. eapply list_elem_of_lookup_2; eauto.
Qed.

(** In a frame the constructor built, text only sits in [object] columns. *)
Lemma text_cell_object_column (data : list Row) (columns : list string) (df : DataFrame)
    (i j : nat) (t : string) :
  pd_DataFrame data columns = Ok df ->
  cell df i j = Some (PStr t) ->
  column_dtype df j = Some object.
Proof.
  intros Hdf Hc. pose proof (pd_DataFrame_inferred _ _ _ Hdf) as Hall.
  unfold cell, column_dtype in *.
  destruct (df_data df !! j) as [s|] eqn:Hj; simpl in *; [|discriminate].
  pose proof (Forall_lookup_1 _ _ _ _ Hall Hj) as Hs.
  f_equal. rewrite <- Hs. unfold make_series. simpl. unfold infer_dtype.
  erewrite existsb_lookup; eauto.
Qed.

(** C4 (the code departs from its own comments): in single-file mode and in
    every full chunk the text columns go through [astype(str)] before
    [fillna], so a missing text cell is exported as the four letters "None"
    and not as the empty text the comments on lines 147, 152 and 189 announce;
    the trailing-chunk path, on the same frame, does give the empty text.  The
    run below exports the two rows [('a', 1)] and [(None, None)]. *)
Theorem text_null_exported_as_None :
  let q := mkQuery ["NAME"; "AGE"] [[PStr "a"; PInt 1]; [PNone; PNone]] None in
  let env := demo_env 2 q no_append_error no_excel_error in
  written (snd (main env (initial_state demo_files ∅)))
  = [("output.xlsx", mkSheet ["NAME"; "AGE"] [[PStr "a"; PInt 1]; [PStr "None"; PInt 0]])]
  /\ exists df d1 d2 d3,
       pd_DataFrame (rows q) (description q) = Ok df
       /\ column_dtype df 0 = Some object /\ cell df 1 0 = Some PNone
       /\ sanitize_single df = Ok d1 /\ cell d1 1 0 = Some (PStr "None")
       /\ sanitize_chunk df = Ok d2 /\ cell d2 1 0 = Some (PStr "None")
       /\ sanitize_rest df = Ok d3 /\ cell d3 1 0 = Some (PStr "").
Proof.
  split; [vm_compute; reflexivity|].
  eexists _, _, _, _. repeat apply conj; reflexivity.
Qed.

(** C5 (as the code has it): a text cell with any number of U+001F comes out
    of each of the three sanitising paths without a single U+001F and with
    its other characters kept, in order; the text loses exactly as many
    characters as it had U+001F.  The sanitiser returns a frame whenever the
    column labels are pairwise distinct. *)
Theorem sanitizer_strips_unit_separator
    (data : list Row) (columns : list string) (df : DataFrame) (i j : nat) (t : string) :
  pd_DataFrame data columns = Ok df ->
  NoDup columns ->
  cell df i j = Some (PStr t) ->
  exists d1 d2 d3,
    sanitize_single df = Ok d1 /\ sanitize_chunk df = Ok d2 /\ sanitize_rest df = Ok d3
    /\ cell d1 i j = Some (PStr (replace_x1f t))
    /\ cell d2 i j = Some (PStr (replace_x1f t))
    /\ cell d3 i j = Some (PStr (replace_x1f t))
    /\ count_x1f (replace_x1f t) = 0
    /\ list_ascii_of_string (replace_x1f t)
       = List.filter (fun c => negb (Ascii.eqb c x1f)) (list_ascii_of_string t)
    /\ String.length t = String.length (replace_x1f t) + count_x1f t.
Proof.
  intros Hdf Hnd Hc.
  pose proof (pd_DataFrame_columns _ _ _ Hdf) as Hcols.
  pose proof (pd_DataFrame_inferred _ _ _ Hdf) as Hall.
  pose proof (text_cell_object_column _ _ _ _ _ _ Hdf Hc) as Hobj.
  rewrite <- Hcols in Hnd.
  pose proof (sanitize_chunk_ok df Hnd) as H2.
  pose proof (sanitize_rest_ok df Hnd) as H3.
  eexists _, _, _. rewrite sanitize_single_chunk.
  split; [exact H2|]. split; [exact H2|]. split; [exact H3|].
  pose proof (sanitize_chunk_object_cell _ _ i j _ H2 Hobj Hc) as Hc2.
  pose proof (sanitize_rest_cell _ _ i j _ _ Hall H3 Hobj Hc) as Hc3.
  simpl in Hc2.
  repeat split; auto using replace_x1f_count, replace_x1f_filter, replace_x1f_length.
Qed.

Lemma sanitizer_strips_unit_separator_witness :
  exists d1 d2 d3,
    let df := mkDataFrame ["NAME"] 1
                [mkSeries object [PStr (String x1f ("a" +:+ String x1f "b"))]] in
    sanitize_single df = Ok d1 /\ sanitize_chunk df = Ok d2 /\ sanitize_rest df = Ok d3
    /\ cell d1 0 0 = Some (PStr "ab")
    /\ cell d2 0 0 = Some (PStr "ab")
    /\ cell d3 0 0 = Some (PStr "ab").
Proof.
  destruct (sanitizer_strips_unit_separator
              [[PStr (String x1f ("a" +:+ String x1f "b"))]] ["NAME"]
              (mkDataFrame ["NAME"] 1
                 [mkSeries object [PStr (String x1f ("a" +:+ String x1f "b"))]])
              0 0 (String x1f ("a" +:+ String x1f "b")))
    as (d1 & d2 & d3 & H1 & H2 & H3 & C1 & C2 & C3 & _).
  - reflexivity.
  - compute_done.
  - reflexivity.
  - change (replace_x1f (String x1f ("a" +:+ String x1f "b"))) with "ab" in C1, C2, C3.
    exists d1, d2, d3. simpl. repeat split; assumption.
Defined.

(** C5 as stated fails: the sanitiser has an error condition.  When a column
    label occurs twice (a query such as [SELECT a.ID, b.ID ...]), [df[col]]
    is a frame, [df[col].dtype] raises [AttributeError], and each of the
    three paths ends in that exception. *)
Lemma sanitizer_error_on_repeated_label :
  exists df,
    pd_DataFrame [[PStr "x"; PStr "y"]] ["ID"; "ID"] = Ok df
    /\ sanitize_single df = Err AttributeError
    /\ sanitize_chunk df = Err AttributeError
    /\ sanitize_rest df = Err AttributeError.
Proof. eexists. repeat apply conj; reflexivity. Qed.

(** C10: the sanitising of a full chunk (and of single-file mode, which is the
    same transform) and the sanitising of the trailing chunk differ.  In a
    full chunk every cell [v] of an [object] column becomes the text [str(v)]
    without U+001F, so [None] gives "None", [nan] gives "nan" and an integer
    gives its digits.  In the trailing chunk the stripping step changes text
    cells only and hands every other cell, missing values included, on as it
    is.  The two paths give different sheets for the rows [('a',)], [(None,)]. *)
Theorem full_and_trailing_sanitizers_differ :
  (forall df df' i j v,
      sanitize_chunk df = Ok df' -> column_dtype df j = Some object ->
      cell df i j = Some v ->
      cell df' i j = Some (PStr (replace_x1f (py_str v))))
  /\ py_str PNone = "None" /\ py_str PNaN = "nan" /\ py_str (PInt 5) = "5"
  /\ (forall df, sanitize_single df = sanitize_chunk df)
  /\ (forall data columns df i j v,
        pd_DataFrame data columns = Ok df -> cell df i j = Some v ->
        cell (applymap strip_if_str df) i j
        = Some (match v with PStr t => PStr (replace_x1f t) | _ => v end))
  /\ (exists df d1 d2,
        pd_DataFrame [[PStr "a"]; [PNone]] ["NAME"] = Ok df
        /\ sanitize_chunk df = Ok d1 /\ sanitize_rest df = Ok d2
        /\ to_sheet d1 = mkSheet ["NAME"] [[PStr "a"]; [PStr "None"]]
        /\ to_sheet d2 = mkSheet ["NAME"] [[PStr "a"]; [PStr ""]]
        /\ to_sheet d1 <> to_sheet d2).
Proof.
  split; [intros; eapply sanitize_chunk_object_cell; eauto|].
  split; [reflexivity|]. split; [reflexivity|]. split; [reflexivity|].
  split; [apply sanitize_single_chunk|].
  split.
  - intros data columns df i j v Hdf Hc.
    rewrite cell_applymap_strip by (eapply pd_DataFrame_inferred; eauto).
    rewrite Hc. destruct v; reflexivity.
  - eexists _, _, _. repeat apply conj; try reflexivity.
    vm_compute. discriminate.
Qed.

Lemma full_and_trailing_sanitizers_differ_witness :
  let df := mkDataFrame ["NAME"; "N"] 2
              [mkSeries object [PStr "a"; PNone]; mkSeries numeric [PInt 7; PNaN]] in
  cell (fillna (mkDataFrame ["NAME"; "N"] 2 (map strip_column (df_data df)))) 1 0
  = Some (PStr "None")
  /\ cell (applymap strip_if_str df) 1 0 = Some PNone
  /\ cell (applymap strip_if_str df) 1 1 = Some PNaN.
Proof.
  pose proof full_and_trailing_sanitizers_differ as (Hfull & _ & _ & _ & _ & Hrest & _).
  split; [|split].
  - apply (Hfull (mkDataFrame ["NAME"; "N"] 2
                    [mkSeries object [PStr "a"; PNone]; mkSeries numeric [PInt 7; PNaN]])
                 _ 1 0 PNone); reflexivity.
  - apply (Hrest [[PStr "a"; PInt 7]; [PNone; PNone]] ["NAME"; "N"] _ 1 0 PNone); reflexivity.
  - apply (Hrest [[PStr "a"; PInt 7]; [PNone; PNone]] ["NAME"; "N"] _ 1 1 PNaN); reflexivity.
Defined.

(** ** Building and writing a chunk when nothing fails *)

Lemma max_width_uniform (n : nat) (r : Row) (data : list Row) :
  Forall (fun r => length r = n) (r :: data) -> max_width (r :: data) = n.
Proof.
  revert r. induction data as [|r' data IH]; intros r Hall.
  - inversion Hall; subst. simpl. lia.
  - inversion Hall as [|? ? Hr Hrest]; subst.
    change (max_width (r :: r' :: data))
      with (Nat.max (length r) (max_width (r' :: data))).
    rewrite (IH r' Hrest). inversion Hrest; subst. lia.
Qed.

Lemma pd_DataFrame_ok (columns : list string) (data : list Row) :
  Forall (fun r => length r = length columns) data ->
  exists df, pd_DataFrame data columns = Ok df
             /\ df_columns df = columns /\ df_nrows df = length data.
Proof.
  intros Hall. destruct data as [|r data].
  - eexists. simpl. repeat split.
  - unfold pd_DataFrame. rewrite (max_width_uniform _ _ _ Hall), Nat.eqb_refl.
    eexists. repeat split.
Qed.

Lemma to_sheet_header (df : DataFrame) : header (to_sheet df) = df_columns df.
Proof. reflexivity. Qed.

Lemma to_sheet_body_length (df : DataFrame) : length (body (to_sheet df)) = df_nrows df.
Proof. unfold to_sheet. simpl. rewrite length_map, length_seq. reflexivity. Qed.

Lemma sanitize_chunk_shape (df df' : DataFrame) :
  sanitize_chunk df = Ok df' ->
  df_columns df' = df_columns df /\ df_nrows df' = df_nrows df.
Proof.
  unfold sanitize_chunk. destruct (has_duplicate_label _); [discriminate|].
  intros [= <-]. split; reflexivity.
Qed.

Lemma sanitize_rest_shape (df df' : DataFrame) :
  sanitize_rest df = Ok df' ->
  df_columns df' = df_columns df /\ df_nrows df' = df_nrows df.
Proof.
  unfold sanitize_rest. destruct (has_duplicate_label _); [discriminate|].
  intros [= <-]. split; reflexivity.
Qed.

(** With distinct labels and rows of the right width, a chunk is built,
    sanitised and turned into a sheet with the labels as header and one
    body row per row of the chunk. *)
Lemma sheet_via_chunk (columns : list string) (chunk : list Row) :
  NoDup columns ->
  Forall (fun r => length r = length columns) chunk ->
  exists df df',
    pd_DataFrame chunk columns = Ok df /\ sanitize_chunk df = Ok df'
    /\ sheet_via sanitize_chunk columns chunk = to_sheet df'
    /\ header (to_sheet df') = columns
    /\ length (body (to_sheet df')) = length chunk.
Proof.
  intros Hnd Hall. destruct (pd_DataFrame_ok columns chunk Hall) as (df & Hdf & Hc & Hn).
  assert (Hs : exists df', sanitize_chunk df = Ok df').
  { rewrite sanitize_chunk_ok by (rewrite Hc; assumption). eauto. }
  destruct Hs as (df' & Hs). exists df, df'.
  destruct (sanitize_chunk_shape _ _ Hs) as (Hc' & Hn').
  unfold sheet_via. rewrite Hdf, Hs, to_sheet_header, to_sheet_body_length.
  repeat split; congruence.
Qed.

Lemma sheet_via_rest (columns : list string) (chunk : list Row) :
  NoDup columns ->
  Forall (fun r => length r = length columns) chunk ->
  exists df df',
    pd_DataFrame chunk columns = Ok df /\ sanitize_rest df = Ok df'
    /\ sheet_via sanitize_rest columns chunk = to_sheet df'
    /\ header (to_sheet df') = columns
    /\ length (body (to_sheet df')) = length chunk.
Proof.
  intros Hnd Hall. destruct (pd_DataFrame_ok columns chunk Hall) as (df & Hdf & Hc & Hn).
  assert (Hs : exists df', sanitize_rest df = Ok df').
  { rewrite sanitize_rest_ok by (rewrite Hc; assumption). eauto. }
  destruct Hs as (df' & Hs). exists df, df'.
  destruct (sanitize_rest_shape _ _ Hs) as (Hc' & Hn').
  unfold sheet_via. rewrite Hdf, Hs, to_sheet_header, to_sheet_body_length.
  repeat split; congruence.
Qed.

Lemma sheet_via_single (columns : list string) (chunk : list Row) :
  sheet_via sanitize_single columns chunk = sheet_via sanitize_chunk columns chunk.
Proof.
  unfold sheet_via. destruct (pd_DataFrame chunk columns); [|reflexivity].
  rewrite sanitize_single_chunk. reflexivity.
Qed.

(** ** The chunking loop *)

Lemma for_each_snoc {A B} (xs : list A) (x : A) (body : B -> A -> M B) (acc : B) (s : State) :
  for_each (xs ++ [x]) body acc s
  = match for_each xs body acc s with
    | (Ok acc', s') => body acc' x s'
    | (Err e, s') => (Err e, s')
    end.
Proof.
  revert acc s. induction xs as [|y xs IH]; intros acc s; simpl.
  - unfold bind, ret. destruct (body acc x s) as [[a|e] s']; reflexivity.
  - unfold bind. destruct (body acc y s) as [[a|e] s']; [apply IH | reflexivity].
Qed.

Lemma div_mod_succ_full (n c : nat) :
  S (n mod c) = c -> S n / c = S (n / c) /\ S n mod c = 0.
Proof.
  intros Hc. assert (c <> 0) by lia.
  pose proof (Nat.div_mod_eq n c) as Hn.
  assert (HS : S n = c * S (n / c) + 0) by nia.
  split.
  - symmetry. apply (Nat.div_unique (S n) c (S (n / c)) 0); [lia | exact HS].
  - symmetry. apply (Nat.mod_unique (S n) c (S (n / c)) 0); [lia | exact HS].
Qed.

Lemma div_mod_succ_part (n c : nat) :
  S (n mod c) < c -> S n / c = n / c /\ S n mod c = S (n mod c).
Proof.
  intros Hc. assert (c <> 0) by lia.
  pose proof (Nat.div_mod_eq n c) as Hn.
  assert (HS : S n = c * (n / c) + S (n mod c)) by lia.
  split.
  - symmetry. apply (Nat.div_unique (S n) c (n / c) (S (n mod c))); [lia | exact HS].
  - symmetry. apply (Nat.mod_unique (S n) c (n / c) (S (n mod c))); [lia | exact HS].
Qed.

Lemma omap_list_ext {A B} (f g : A -> option B) (l : list A) :
  (forall x, x ∈ l -> f x = g x) -> omap f l = omap g l.
Proof.
  induction l as [|x l IH]; intros H; [reflexivity|].
  change (omap f (x :: l)) with (match f x with Some y => y :: omap f l | None => omap f l end).
  change (omap g (x :: l)) with (match g x with Some y => y :: omap g l | None => omap g l end).
  rewrite (H x) by (left). rewrite IH; [reflexivity|].
  intros y Hy. apply H. right. assumption.
Qed.

Lemma survivors_snoc (env : Env) (p : list Row) (x : Row) :
  survivors env (p ++ [x])
  = survivors env p ++ (if accepted env x then [x] else []).
Proof. unfold survivors. rewrite List.filter_app. simpl. destruct (accepted env x); reflexivity. Qed.

Lemma survivors_width (env : Env) (n : nat) (data : list Row) :
  Forall (fun r => length r = n) data ->
  Forall (fun r => length r = n) (survivors env data).
Proof.
  intros H. apply Forall_forall. intros r Hr.
  apply list_elem_of_In, List.filter_In in Hr. destruct Hr as [Hr _].
  rewrite Forall_forall in H. apply H, list_elem_of_In. assumption.
Qed.

(** A slice that lies inside [sv] is not changed by appending to [sv]. *)
Lemma slice_stable {A} (sv ext : list A) (c k : nat) :
  k * c + c <= length sv ->
  take c (drop (k * c) (sv ++ ext)) = take c (drop (k * c) sv).
Proof.
  intros H. rewrite drop_app_le by lia.
  apply take_app_le. rewrite length_drop. lia.
Qed.

Lemma full_files_stable (columns : list string) (c : nat) (sv ext : list Row) (q : nat) :
  q * c <= length sv ->
  map (fun k => (chunk_filename (Z.of_nat (k + 1)),
                 sheet_via sanitize_chunk columns (take c (drop (k * c) (sv ++ ext)))))
      (seq 0 q)
  = map (fun k => (chunk_filename (Z.of_nat (k + 1)),
                   sheet_via sanitize_chunk columns (take c (drop (k * c) sv))))
        (seq 0 q).
Proof.
  intros H. apply map_ext_in. intros k Hk. apply in_seq in Hk.
  rewrite slice_stable; [reflexivity | nia].
Qed.

(** Appending an accepted row that completes a chunk adds one full file. *)
Lemma full_files_snoc_full (columns : list string) (c : nat) (sv : list Row) (x : Row) :
  S (length sv mod c) = c ->
  full_files columns c (sv ++ [x])
  = full_files columns c sv
    ++ [(chunk_filename (Z.of_nat (length sv / c + 1)),
         sheet_via sanitize_chunk columns (drop (length sv / c * c) sv ++ [x]))].
Proof.
  intros Hc. unfold full_files. rewrite length_app. simpl length.
  replace (length sv + 1) with (S (length sv)) by lia.
  destruct (div_mod_succ_full _ _ Hc) as [Hq _]. rewrite Hq, seq_S, map_app. simpl.
  pose proof (Nat.div_mod_eq (length sv) c) as Hn.
  rewrite full_files_stable by nia. do 3 f_equal.
  rewrite drop_app_le by nia.
  rewrite take_ge; [reflexivity|]. rewrite length_app, length_drop. simpl. nia.
Qed.

(** Appending an accepted row that does not complete a chunk adds no file. *)
Lemma full_files_snoc_part (columns : list string) (c : nat) (sv : list Row) (x : Row) :
  S (length sv mod c) < c ->
  full_files columns c (sv ++ [x]) = full_files columns c sv.
Proof.
  intros Hc. unfold full_files. rewrite length_app. simpl length.
  replace (length sv + 1) with (S (length sv)) by lia.
  destruct (div_mod_succ_part _ _ Hc) as [Hq _]. rewrite Hq.
  pose proof (Nat.div_mod_eq (length sv) c) as Hn.
  apply full_files_stable. nia.
Qed.

Lemma dropped_rows_snoc (env : Env) (columns : list string) (c : nat)
    (p : list Row) (x : Row) :
  dropped_rows env columns c (p ++ [x])
  = dropped_rows env columns c p
    ++ match append_error env x with
       | Some e => [(Z.of_nat (length (survivors env p) mod c), columns, x, e)]
       | None => []
       end.
Proof.
  unfold dropped_rows. rewrite length_app. simpl length.
  replace (length p + 1) with (S (length p)) by lia.
  rewrite seq_S, omap_app. f_equal.
  - apply omap_list_ext. intros i Hi.
    apply list_elem_of_In, in_seq in Hi.
    rewrite lookup_app_l by lia. rewrite take_app_le by lia. reflexivity.
  - cbn. rewrite list_lookup_middle by reflexivity. cbn.
    rewrite take_app_length. destruct (append_error env x); reflexivity.
Qed.

Section Loop.
Variables (env : Env) (columns : list string) (split : Z).
Hypothesis Hsplit : (0 < split)%Z.
Hypothesis Hnd : NoDup columns.
Hypothesis Hexcel : forall f sh, to_excel_error env f sh = None.
Hypothesis Happend : forall r e, append_error env r = Some e -> is_Exception e = true.

(** A row whose [append] raises: logged, and the loop variables untouched. *)
Lemma accumulate_rejected (st : Chunking) (x : Row) (e : exn) (s : State) :
  append_error env x = Some e ->
  (current_count st < split)%Z ->
  accumulate env columns split st x s
  = (Ok st,
     mkState (fs s) (sheets s) (written s)
       (log s ++ [ErrorRow (current_count st) columns x e])
       (trace s) (v_connection s) (v_cursor s) (v_columns s) (Some x)).
Proof using Happend.
  intros He Hlt. unfold accumulate, bind, set_row, modify, try_except, raise, logging, ret.
  rewrite He, (Happend _ _ He). simpl.
  destruct (Z.leb_spec split (current_count st)); [lia | reflexivity].
Qed.

(** An accepted row that does not fill the chunk. *)
Lemma accumulate_kept (st : Chunking) (x : Row) (s : State) :
  append_error env x = None ->
  (current_count st + 1 < split)%Z ->
  accumulate env columns split st x s
  = (Ok (mkChunking (current_chunk st ++ [x]) (current_count st + 1) (file_counter st)),
     mkState (fs s) (sheets s) (written s) (log s)
       (trace s) (v_connection s) (v_cursor s) (v_columns s) (Some x)).
Proof.
  intros He Hlt. unfold accumulate, bind, set_row, modify, try_except, raise, logging, ret.
  rewrite He. simpl.
  destruct (Z.leb_spec split (current_count st + 1)); [lia | reflexivity].
Qed.

(** An accepted row that fills the chunk: the chunk is written under the
    current counter and the loop variables start over. *)
Lemma accumulate_flush (st : Chunking) (x : Row) (s : State) :
  append_error env x = None ->
  (split <= current_count st + 1)%Z ->
  Forall (fun r => length r = length columns) (current_chunk st ++ [x]) ->
  accumulate env columns split st x s
  = (Ok (mkChunking [] 0 (file_counter st + 1)),
     let file := (chunk_filename (file_counter st),
                  sheet_via sanitize_chunk columns (current_chunk st ++ [x])) in
     mkState (fs s) (<[file.1 := file.2]> (sheets s)) (written s ++ [file])
       (log s ++ [InfoSaved file.1])
       (trace s) (v_connection s) (v_cursor s) (v_columns s) (Some x)).
Proof using Hnd Hexcel.
  intros He Hle Hw.
  destruct (sheet_via_chunk columns _ Hnd Hw) as (df & df' & Hdf & Hs & Hsheet & _).
  unfold accumulate, bind, set_row, modify, try_except, raise, logging, ret, lift, to_excel.
  rewrite He. simpl.
  destruct (Z.leb_spec split (current_count st + 1)); [|lia].
  rewrite Hdf, Hs, Hexcel, Hsheet. reflexivity.
Qed.

(** The whole loop: the files written are the full chunks of the accepted
    rows, the rows after the last full chunk are still in [current_chunk],
    and the log gained one [ErrorRow] record per rejected row. *)
Lemma accumulate_loop (data : list Row) (s : State) :
  Forall (fun r => length r = length columns) data ->
  let c := Z.to_nat split in
  let sv := survivors env data in
  let files := full_files columns c sv in
  exists L,
    for_each data (accumulate env columns split) (mkChunking [] 0 1) s
    = (Ok (mkChunking (drop (length sv / c * c) sv)
             (Z.of_nat (length sv mod c)) (Z.of_nat (length sv / c + 1))),
       mkState (fs s) (write_all files (sheets s)) (written s ++ files) (log s ++ L)
         (trace s) (v_connection s) (v_cursor s) (v_columns s)
         (match last data with Some r => Some r | None => v_row s end))
    /\ row_errors L = dropped_rows env columns c data.
Proof using All.
  intros Hw c sv files. subst sv files.
  assert (Hc : 0 < c) by (subst c; lia).
  induction data as [|x p IH] using rev_ind.
  - exists []. split; [|reflexivity].
    simpl. unfold full_files. simpl length.
    rewrite Nat.Div0.div_0_l, Nat.Div0.mod_0_l. simpl.
    unfold ret. destruct s; simpl. rewrite !app_nil_r. reflexivity.
  - apply Forall_app in Hw. destruct Hw as [Hwp Hwx].
    destruct (IH Hwp) as (L & Hrun & Hlog). clear IH.
    rewrite for_each_snoc, Hrun. clear Hrun.
    rewrite survivors_snoc, dropped_rows_snoc, last_snoc.
    set (sv := survivors env p) in *.
    pose proof (Nat.div_mod_eq (length sv) c) as Hdm.
    pose proof (Nat.mod_upper_bound (length sv) c ltac:(lia)) as Hub.
    assert (Hwsv : Forall (fun r => length r = length columns) sv)
      by (apply survivors_width; assumption).
    unfold accepted. destruct (append_error env x) as [e|] eqn:He.
    + exists (L ++ [ErrorRow (Z.of_nat (length sv mod c)) columns x e]).
      rewrite accumulate_rejected with (e := e); [|assumption|simpl; lia].
      simpl. rewrite !app_nil_r, app_assoc. split; [reflexivity|].
      unfold row_errors in *. rewrite omap_app, Hlog. reflexivity.
    + destruct (decide (S (length sv mod c) = c)) as [Hfull|Hpart].
      * exists (L ++ [InfoSaved (chunk_filename (Z.of_nat (length sv / c + 1)))]).
        rewrite accumulate_flush; [|assumption|simpl; lia|].
        2:{ simpl. apply Forall_app. split; [|assumption].
            apply Forall_drop. assumption. }
        cbn [current_chunk current_count file_counter fst snd
             fs sheets written log trace v_connection v_cursor v_columns v_row].
        rewrite length_app. simpl length.
        replace (length sv + 1) with (S (length sv)) by lia.
        destruct (div_mod_succ_full _ _ Hfull) as [Hq Hr]. rewrite Hq, Hr.
        rewrite full_files_snoc_full by assumption.
        rewrite (drop_ge (sv ++ [x])) by (rewrite length_app; simpl; nia).
        unfold write_all. rewrite foldl_app. simpl.
        rewrite <- !app_assoc.
        replace (Z.of_nat (length sv / c + 1) + 1)%Z
          with (Z.of_nat (S (length sv / c) + 1)) by lia.
        split; [reflexivity|].
        unfold row_errors in *. rewrite omap_app, Hlog. simpl.
        rewrite app_nil_r. reflexivity.
      * exists L.
        rewrite accumulate_kept; [|assumption|simpl; lia].
        cbn [current_chunk current_count file_counter
             fs sheets written log trace v_connection v_cursor v_columns v_row].
        rewrite length_app. simpl length.
        replace (length sv + 1) with (S (length sv)) by lia.
        destruct (div_mod_succ_part (length sv) c ltac:(lia)) as [Hq Hr]. rewrite Hq, Hr.
        rewrite full_files_snoc_part by lia.
        rewrite drop_app_le by nia.
        replace (Z.of_nat (length sv mod c) + 1)%Z
          with (Z.of_nat (S (length sv mod c))) by lia.
        split; [reflexivity|]. rewrite app_nil_r. assumption.
Qed.
End Loop.

(** ** A run in which nothing fails *)

Lemma bind_Ok {A B} (m : M A) (k : A -> M B) (s s' : State) (a : A) :
  m s = (Ok a, s') -> bind m k s = k a s'.
Proof. intros H. unfold bind. rewrite H. reflexivity. Qed.

Lemma bind_Err {A B} (m : M A) (k : A -> M B) (s s' : State) (e : exn) :
  m s = (Err e, s') -> bind m k s = (Err e, s').
Proof. intros H. unfold bind. rewrite H. reflexivity. Qed.

(** The answers of a driver that does not fail. *)
Ltac drive :=
  match goal with
  | H : reliable_driver ?env |- context [cursor_error ?env ?tr] =>
    rewrite (proj1 H tr)
  | H : reliable_driver ?env |- context [cursor_close_error ?env ?tr ?c] =>
    rewrite (proj1 (proj2 H) tr c)
  | H : reliable_driver ?env |- context [connection_close_error ?env ?tr] =>
    rewrite (proj2 (proj2 H) tr)
  end.

Ltac driver_facts :=
  lazymatch goal with
  | _ : reliable_driver _ |- _ => idtac
  | H : Nominal _ _ _ _ _ _ |- _ => pose proof (nom_driver _ _ _ _ _ _ H)
  | H : Connects _ _ |- _ => pose proof (con_driver _ _ H)
  | H : Counts _ _ _ _ |- _ => pose proof (con_driver _ _ (cnt_connects _ _ _ _ H))
  | _ => idtac
  end.

(** Evaluating a driver call on a state whose history is known. *)
Ltac mcompute :=
  driver_facts;
  unfold connection_cursor, cursor_close, connection_close, verify_open,
    bind, get, emit, modify, ret, raise;
  cbn [fs sheets written log trace v_connection v_cursor v_columns v_row];
  repeat (first
            [ match goal with
              | |- context [bool_decide ?P] =>
                first [ rewrite (bool_decide_eq_true_2 P) by (vm_compute; set_solver)
                      | rewrite (bool_decide_eq_false_2 P) by (vm_compute; set_solver) ]
              end
            | drive ];
          cbn [fs sheets written log trace v_connection v_cursor v_columns v_row]);
  simpl; reflexivity.

(** One statement of a block that returns normally: [tac] evaluates it. *)
Ltac mstep tac :=
  lazymatch goal with
  | |- context [@bind ?A ?B ?m ?k ?s] =>
    let H := fresh "Hstep" in
    let a := fresh "a" in
    let s' := fresh "s'" in
    evar (a : A); evar (s' : State);
    assert (H : m s = (Ok a, s')) by (subst a s'; tac);
    rewrite (bind_Ok m k s s' a H); subst a s'; clear H;
    cbn [fs sheets written log trace v_connection v_cursor v_columns v_row app
         description rows fetch_error]
  end.

Section NominalRun.
Variables (env : Env) (files : gmap string string) (sql : string)
          (columns : list string) (data : list Row) (total : Z).
Hypothesis Hnom : Nominal env files sql columns data total.

Lemma flush_rest_nominal (st : Chunking) (s : State) :
  Forall (fun r => length r = length columns) (current_chunk st) ->
  flush_rest env columns st s
  = (Ok tt,
     match current_chunk st with
     | [] => s
     | _ =>
       let file := (chunk_filename (file_counter st),
                    sheet_via sanitize_rest columns (current_chunk st)) in
       mkState (fs s) (<[file.1 := file.2]> (sheets s)) (written s ++ [file])
         (log s ++ [InfoSaved file.1])
         (trace s) (v_connection s) (v_cursor s) (v_columns s) (v_row s)
     end).
Proof using Hnom.
  intros Hw. unfold flush_rest.
  destruct (current_chunk st) as [|r ch] eqn:Hch; [reflexivity|].
  destruct (sheet_via_rest columns _ (nom_labels _ _ _ _ _ _ Hnom) Hw)
    as (df & df' & Hdf & Hs & Hsheet & _).
  unfold bind, lift, to_excel, logging, modify.
  rewrite Hdf, Hs, (nom_excel _ _ _ _ _ _ Hnom), Hsheet. reflexivity.
Qed.

(** Up to the mode decision. *)
Lemma try_block_nominal (xlsx : gmap string Sheet) :
  try_block env sql (initial_state files xlsx)
  = (if (total <=? 500000)%Z then export_single env sql
     else export_chunks env 200000 (PInt total) sql) (at_decision files total xlsx).
Proof using Hnom.
  destruct Hnom as [Hcl (cfg & Hcfg & [u Hu] & [p Hp] & [d Hd]) Hconn _
                      [k Hparse] [cd Hcount] _ _ _ _ _].
  unfold try_block, initial_state, at_decision.
  mstep ltac:(unfold init_oracle_client; rewrite Hcl; reflexivity).
  mstep ltac:(reflexivity).
  mstep ltac:(unfold read_db_config, bind, get; cbn [fs]; rewrite Hcfg; reflexivity).
  mstep ltac:(unfold getitem; rewrite Hu; reflexivity).
  mstep ltac:(unfold getitem; rewrite Hp; reflexivity).
  mstep ltac:(unfold getitem; rewrite Hd; reflexivity).
  mstep ltac:(unfold oracledb_connect; rewrite Hconn; reflexivity).
  mstep ltac:(reflexivity).
  mstep ltac:(mcompute).
  mstep ltac:(reflexivity).
  mstep ltac:(unfold validate_sql, try_except, bind, lift; rewrite Hparse; reflexivity).
  mstep ltac:(unfold cursor_execute, bind, lift; rewrite Hcount; mcompute).
  mstep ltac:(reflexivity).
  mstep ltac:(reflexivity).
  mstep ltac:(reflexivity).
  mstep ltac:(reflexivity).
  simpl.
  destruct (total <=? 500000)%Z; reflexivity.
Qed.
Lemma export_single_nominal (xlsx : gmap string Sheet) :
  let sheet := sheet_via sanitize_single columns data in
  export_single env sql (at_decision files total xlsx)
  = (Ok tt,
     mkState files (<["output.xlsx" := sheet]> xlsx) [("output.xlsx", sheet)]
       [InfoClientInit; InfoTotalRows (PInt total); InfoExported "output.xlsx"]
       [EvConnect; EvOpenCursor 0; EvCloseCursor 0; EvOpenCursor 1]
       true (Some 1) (Some columns) None).
Proof using Hnom.
  intros sheet. subst sheet. rewrite sheet_via_single.
  destruct (sheet_via_chunk columns data (nom_labels _ _ _ _ _ _ Hnom)
              (nom_width _ _ _ _ _ _ Hnom))
    as (df & df' & Hdf & Hs & Hsheet & _).
  rewrite <- sanitize_single_chunk in Hs.
  unfold export_single, at_decision.
  mstep ltac:(reflexivity).
  mstep ltac:(mcompute).
  mstep ltac:(mcompute).
  mstep ltac:(reflexivity).
  mstep ltac:(unfold cursor_execute, bind, lift;
              rewrite (nom_query _ _ _ _ _ _ Hnom); mcompute).
  cbn [description rows fetch_error].
  mstep ltac:(reflexivity).
  mstep ltac:(reflexivity).
  mstep ltac:(unfold lift; rewrite Hdf; reflexivity).
  mstep ltac:(unfold lift; rewrite Hs; reflexivity).
  mstep ltac:(unfold to_excel; rewrite (nom_excel _ _ _ _ _ _ Hnom); reflexivity).
  rewrite Hsheet. reflexivity.
Qed.

Lemma export_chunks_nominal (xlsx : gmap string Sheet) :
  let c := Z.to_nat 200000 in
  let files_out := chunk_files columns c (survivors env data) in
  exists L,
    export_chunks env 200000 (PInt total) sql (at_decision files total xlsx)
    = (Ok tt,
       mkState files (write_all files_out xlsx) files_out
         ([InfoClientInit; InfoTotalRows (PInt total)] ++ L)
         [EvConnect; EvOpenCursor 0; EvCloseCursor 0; EvOpenCursor 1]
         true (Some 1) (Some columns) (last data))
    /\ row_errors L = dropped_rows env columns c data.
Proof using Hnom.
  intros c files_out. subst files_out.
  pose proof (nom_labels _ _ _ _ _ _ Hnom) as Hnd.
  pose proof (nom_width _ _ _ _ _ _ Hnom) as Hw.
  unfold export_chunks, tqdm, at_decision.
  mstep ltac:(reflexivity).
  mstep ltac:(mcompute).
  mstep ltac:(mcompute).
  mstep ltac:(reflexivity).
  mstep ltac:(unfold cursor_execute, bind, lift;
              rewrite (nom_query _ _ _ _ _ _ Hnom); mcompute).
  cbn [description rows fetch_error].
  mstep ltac:(reflexivity).
  mstep ltac:(reflexivity).
  match goal with |- context [@bind _ _ (for_each data _ _) _ ?s] =>
    destruct (accumulate_loop env columns 200000 ltac:(lia) Hnd
                (nom_excel _ _ _ _ _ _ Hnom) (nom_append _ _ _ _ _ _ Hnom) data s Hw)
      as (L & Hrun & Hlog)
  end.
  fold c in Hrun, Hlog. set (sv := survivors env data) in *.
  cbn [fs sheets written log trace v_connection v_cursor v_columns v_row app] in Hrun.
  mstep ltac:(exact Hrun).
  rewrite flush_rest_nominal by (apply Forall_drop, survivors_width; assumption).
  cbn [current_chunk file_counter fst snd
       fs sheets written log trace v_connection v_cursor v_columns v_row].
  assert (Hc : 0 < c) by (subst c; lia).
  clearbody c.
  pose proof (Nat.div_mod_eq (length sv) c) as Hdm.
  pose proof (Nat.mod_upper_bound (length sv) c ltac:(lia)) as Hub.
  unfold chunk_files, rest_file.
  destruct (drop (length sv / c * c) sv) as [|r rest] eqn:Hdrop.
  - assert (Hm : length sv mod c = 0).
    { apply (f_equal length) in Hdrop. rewrite length_drop in Hdrop. simpl in Hdrop. nia. }
    rewrite Hm. simpl. rewrite app_nil_r.
    exists L. split; [|assumption].
    destruct (last data); reflexivity.
  - assert (Hm : length sv mod c <> 0).
    { apply (f_equal length) in Hdrop. rewrite length_drop in Hdrop. simpl in Hdrop. nia. }
    apply Nat.eqb_neq in Hm. rewrite Hm.
    exists (L ++ [InfoSaved (chunk_filename (Z.of_nat (length sv / c + 1)))]).
    split.
    + unfold write_all. rewrite foldl_app. simpl.
      destruct (last data); reflexivity.
    + unfold row_errors in *. rewrite omap_app, Hlog. simpl. apply app_nil_r.
Qed.
Lemma finally_block_after_export (f : gmap string string) (sh : gmap string Sheet)
    (w : list (string * Sheet)) (l : list log_entry)
    (vc : option (list string)) (vr : option Row) :
  finally_block env
    (mkState f sh w l [EvConnect; EvOpenCursor 0; EvCloseCursor 0; EvOpenCursor 1]
       true (Some 1) vc vr)
  = (Ok tt, mkState f sh w l full_trace true (Some 1) vc vr).
Proof using Hnom.
  unfold finally_block.
  mstep ltac:(reflexivity).
  mstep ltac:(mcompute).
  mcompute.
Qed.

Lemma read_sql_nominal (xlsx : gmap string Sheet) :
  read_sql_from_file "params.txt" (initial_state files xlsx)
  = (Ok sql, initial_state files xlsx).
Proof using Hnom.
  destruct (nom_params _ _ _ _ _ _ Hnom) as (text & Htext & Hsql).
  unfold read_sql_from_file, initial_state.
  mstep ltac:(reflexivity).
  rewrite Htext.
  mstep ltac:(reflexivity).
  mstep ltac:(reflexivity).
  rewrite Htext, Hsql. reflexivity.
Qed.

(** Single-file mode, start to end. *)
Lemma main_single_file (xlsx : gmap string Sheet) :
  (total <= 500000)%Z ->
  let sheet := sheet_via sanitize_single columns data in
  main env (initial_state files xlsx)
  = (Ok tt,
     mkState files (<["output.xlsx" := sheet]> xlsx) [("output.xlsx", sheet)]
       [InfoClientInit; InfoTotalRows (PInt total); InfoExported "output.xlsx"]
       full_trace true (Some 1) (Some columns) None).
Proof using Hnom.
  intros Hle sheet. unfold main.
  mstep ltac:(apply read_sql_nominal).
  unfold execute_query_and_export_to_excel, try_finally, try_except.
  rewrite try_block_nominal.
  destruct (Z.leb_spec total 500000); [|lia].
  rewrite export_single_nominal, finally_block_after_export. reflexivity.
Qed.

(** Multi-file mode, start to end. *)
Lemma main_multi_file (xlsx : gmap string Sheet) :
  (500000 < total)%Z ->
  let c := Z.to_nat 200000 in
  let files_out := chunk_files columns c (survivors env data) in
  exists L,
    main env (initial_state files xlsx)
    = (Ok tt,
       mkState files (write_all files_out xlsx) files_out
         ([InfoClientInit; InfoTotalRows (PInt total)] ++ L)
         full_trace true (Some 1) (Some columns) (last data))
    /\ row_errors L = dropped_rows env columns c data.
Proof using Hnom.
  intros Hlt c files_out.
  destruct (export_chunks_nominal xlsx) as (L & Hrun & Hlog).
  exists L. split; [|exact Hlog].
  unfold main.
  mstep ltac:(apply read_sql_nominal).
  unfold execute_query_and_export_to_excel, try_finally, try_except.
  rewrite try_block_nominal.
  destruct (Z.leb_spec total 500000); [lia|].
  rewrite Hrun, finally_block_after_export. reflexivity.
Qed.
End NominalRun.

(** ** Counting the rows of the numbered files *)

Lemma map_const_seq {A} (a : A) (start len : nat) :
  map (fun _ => a) (seq start len) = replicate len a.
Proof.
  revert start. induction len as [|len IH]; intros start; simpl; [reflexivity|].
  rewrite IH. reflexivity.
Qed.

Section Counting.
Variables (columns : list string) (c : nat) (sv : list Row).
Hypothesis Hc : 0 < c.
Hypothesis Hnd : NoDup columns.
Hypothesis Hw : Forall (fun r => length r = length columns) sv.

Lemma full_files_length : length (full_files columns c sv) = length sv / c.
Proof. unfold full_files. rewrite length_map, length_seq. reflexivity. Qed.

Lemma full_files_shape (f : string * Sheet) :
  f ∈ full_files columns c sv ->
  header f.2 = columns /\ length (body f.2) = c.
Proof using All.
  unfold full_files. intros Hf.
  apply list_elem_of_In, in_map_iff in Hf. destruct Hf as (k & <- & Hk).
  apply in_seq in Hk. simpl.
  pose proof (Nat.div_mod_eq (length sv) c) as Hdm.
  destruct (sheet_via_chunk columns (take c (drop (k * c) sv)) Hnd)
    as (df & df' & _ & _ & -> & Hh & Hb).
  { apply Forall_take, Forall_drop. assumption. }
  split; [assumption|]. rewrite Hb, length_take, length_drop. nia.
Qed.

Lemma full_files_counts :
  map (fun f => length (body f.2)) (full_files columns c sv)
  = replicate (length sv / c) c.
Proof using All.
  rewrite <- (map_const_seq c 0 (length sv / c)).
  unfold full_files. rewrite map_map. apply map_ext_in. intros k Hk.
  apply (full_files_shape (chunk_filename (Z.of_nat (k + 1)),
                           sheet_via sanitize_chunk columns (take c (drop (k * c) sv)))).
  apply list_elem_of_In. unfold full_files.
  apply in_map_iff. exists k. split; [reflexivity | assumption].
Qed.

Lemma rest_file_shape (f : string * Sheet) :
  f ∈ rest_file columns c sv ->
  header f.2 = columns /\ length (body f.2) = length sv mod c
  /\ f.1 = chunk_filename (Z.of_nat (length sv / c + 1)).
Proof using All.
  unfold rest_file. destruct (Nat.eqb _ _) eqn:E.
  - intros Hf. apply elem_of_nil in Hf. contradiction.
  - intros Hf. apply list_elem_of_singleton in Hf. subst f. simpl.
    pose proof (Nat.div_mod_eq (length sv) c) as Hdm.
    destruct (sheet_via_rest columns (drop (length sv / c * c) sv) Hnd)
      as (df & df' & _ & _ & -> & Hh & Hb).
    { apply Forall_drop. assumption. }
    repeat split; [assumption|]. rewrite Hb, length_drop. nia.
Qed.

Lemma rest_file_iff : rest_file columns c sv <> [] <-> length sv mod c <> 0.
Proof.
  unfold rest_file. destruct (Nat.eqb_spec (length sv mod c) 0); split; congruence.
Qed.

Lemma rest_file_counts :
  map (fun f => length (body f.2)) (rest_file columns c sv)
  = if Nat.eqb (length sv mod c) 0 then [] else [length sv mod c].
Proof using All.
  pose proof rest_file_shape as Hs. unfold rest_file in *.
  destruct (Nat.eqb _ _); [reflexivity|]. simpl.
  f_equal.
  match goal with
  | |- length (body ?sh) = _ =>
    apply (Hs (chunk_filename (Z.of_nat (length sv / c + 1)), sh))
  end.
  left.
Qed.

Lemma chunk_files_names :
  map fst (chunk_files columns c sv)
  = numbered_names (length (chunk_files columns c sv)).
Proof.
  unfold chunk_files, numbered_names. rewrite length_app, map_app, full_files_length.
  unfold full_files, rest_file. rewrite map_map. simpl.
  destruct (Nat.eqb _ _); simpl.
  - rewrite app_nil_r, Nat.add_0_r, <- seq_shift, map_map.
    apply map_ext. intros k. replace (k + 1) with (S k) by lia. reflexivity.
  - rewrite seq_app, map_app, <- seq_shift, map_map. simpl. f_equal.
    + apply map_ext. intros k. replace (k + 1) with (S k) by lia. reflexivity.
    + replace (length sv / c + 1) with (S (length sv / c)) by lia. reflexivity.
Qed.

Lemma chunk_files_total :
  total_rows_written (chunk_files columns c sv) = Z.of_nat (length sv).
Proof using All.
  unfold total_rows_written, row_counts, chunk_files.
  rewrite map_app.
  rewrite <- (map_map (fun f => length (body f.2)) Z.of_nat (full_files _ _ _)).
  rewrite <- (map_map (fun f => length (body f.2)) Z.of_nat (rest_file _ _ _)).
  rewrite full_files_counts, rest_file_counts.
  pose proof (Nat.div_mod_eq (length sv) c) as Hdm.
  rewrite foldr_app.
  assert (Hrep : forall q acc, foldr Z.add acc (map Z.of_nat (replicate q c))
                               = (Z.of_nat (q * c) + acc)%Z).
  { induction q as [|q IH]; intros acc; simpl; [reflexivity|]. rewrite IH. lia. }
  rewrite Hrep.
  destruct (Nat.eqb_spec (length sv mod c) 0); simpl; nia.
Qed.
End Counting.

Lemma survivors_split (env : Env) (columns : list string) (c : nat) (data : list Row) :
  length data = length (survivors env data) + length (dropped_rows env columns c data).
Proof.
  induction data as [|x p IH] using rev_ind; [reflexivity|].
  rewrite survivors_snoc, dropped_rows_snoc, !length_app, IH. unfold accepted. simpl.
  destruct (append_error env x); simpl; lia.
Qed.

(** ** The concrete environments are runs in which nothing fails *)

Lemma demo_nominal (count : Z) (columns : list string) (data : list Row)
    (append_err : Row -> option exn) :
  NoDup columns ->
  Forall (fun r => length r = length columns) data ->
  (forall r e, append_err r = Some e -> is_Exception e = true) ->
  Nominal (demo_env count (mkQuery columns data None) append_err no_excel_error)
    demo_files demo_sql columns data count.
Proof.
  intros Hnd Hw Happ. constructor; try assumption; try reflexivity.
  - exists ("user=scott" +:+ nl +:+ "password=tiger" +:+ nl +:+ "dsn=db:1521/orcl" +:+ nl).
    split; [vm_compute; reflexivity|].
    repeat split; eexists; vm_compute; reflexivity.
  - exists (demo_sql +:+ nl). split; vm_compute; reflexivity.
  - exists 0. reflexivity.
  - eexists. vm_compute. reflexivity.
  - repeat split.
Qed.

Lemma big_nominal : Nominal big_env demo_files demo_sql ["NAME"] big_data 600000.
Proof.
  apply demo_nominal.
  - apply NoDup_singleton.
  - unfold big_data. generalize (Z.to_nat 599999). intros n.
    apply Forall_cons. split; [reflexivity|].
    apply Forall_replicate. reflexivity.
  - intros r e. unfold reject_bad. case_bool_decide; [|discriminate].
    intros [= <-]. reflexivity.
Qed.

Lemma small_nominal :
  Nominal small_env demo_files demo_sql ["NAME"; "AGE"] small_data 2.
Proof.
  apply demo_nominal.
  - compute_done.
  - repeat constructor.
  - discriminate.
Qed.

Lemma big_data_length : Z.of_nat (length big_data) = 600000%Z.
Proof. unfold big_data. rewrite length_cons, length_replicate. lia. Qed.

Lemma survivors_reject_bad (env : Env) (n : nat) :
  append_error env = reject_bad ->
  survivors env ([PStr "bad"] :: replicate n [PStr "a"]) = replicate n [PStr "a"].
Proof.
  intros H. unfold survivors, accepted. rewrite H. clear H.
  change (List.filter _ ([PStr "bad"] :: ?l)) with (List.filter
    (fun r => match reject_bad r with None => true | Some _ => false end) l).
  induction n as [|n IH]; simpl; [reflexivity|]. rewrite IH. reflexivity.
Qed.

Lemma big_survivors :
  survivors big_env big_data = replicate (Z.to_nat 599999) [PStr "a"].
Proof. apply survivors_reject_bad. reflexivity. Qed.

Lemma big_survivors_length : Z.of_nat (length (survivors big_env big_data)) = 599999%Z.
Proof. rewrite big_survivors, length_replicate. lia. Qed.

(** ** The export, claim by claim *)

Lemma format_03d_three_digits (k : Z) :
  (1 <= k <= 999)%Z -> String.length (format_03d k) = 3.
Proof.
  intros Hk.
  assert (Hall : forallb (fun i => Nat.eqb (String.length (format_03d (Z.of_nat i))) 3)
                   (seq 1 999) = true) by (vm_compute; reflexivity).
  rewrite forallb_forall in Hall.
  specialize (Hall (Z.to_nat k)). rewrite Z2Nat.id in Hall by lia.
  apply Nat.eqb_eq, Hall, in_seq. lia.
Qed.

(** The thousandth file gets a four-digit counter. *)
Example chunk_filename_1000 : chunk_filename 1000 = "output_1000.xlsx".
Proof. vm_compute. reflexivity. Qed.

Lemma chunk_size_nat : Z.of_nat (Z.to_nat 200000) = 200000%Z.
Proof. lia. Qed.

(** The layout of the numbered files of a run in multi-file mode. *)
Lemma multi_file_layout (env : Env) (files : gmap string string) (sql : string)
    (columns : list string) (data : list Row) (total : Z) (xlsx : gmap string Sheet) :
  Nominal env files sql columns data total ->
  total = Z.of_nat (length data) ->
  (500000 < total)%Z ->
  let c := Z.to_nat 200000 in
  let sv := survivors env data in
  let s := Z.of_nat (length sv) in
  exists st,
    main env (initial_state files xlsx) = (Ok tt, st)
    /\ written st = full_files columns c sv ++ rest_file columns c sv
    /\ Z.of_nat (length (full_files columns c sv)) = (s / 200000)%Z
    /\ (forall f, f ∈ full_files columns c sv ->
                  header f.2 = columns /\ Z.of_nat (length (body f.2)) = 200000%Z)
    /\ (rest_file columns c sv <> [] <-> (s mod 200000)%Z <> 0%Z)
    /\ (forall f, f ∈ rest_file columns c sv ->
                  header f.2 = columns
                  /\ Z.of_nat (length (body f.2)) = (s mod 200000)%Z)
    /\ length (rest_file columns c sv) <= 1
    /\ map fst (written st) = numbered_names (length (written st))
    /\ (forall k, (1 <= k <= 999)%Z -> String.length (format_03d k) = 3)
    /\ row_errors (log st) = dropped_rows env columns c data
    /\ total_rows_written (written st)
       = (total - Z.of_nat (length (row_errors (log st))))%Z
    /\ total_rows_written (written st) = s.
Proof.
  intros Hnom Htotal Hbig c sv s.
  destruct (main_multi_file env files sql columns data total Hnom xlsx Hbig)
    as (L & Hrun & Hlog).
  fold c in Hrun, Hlog. fold sv in Hrun.
  pose proof (nom_labels _ _ _ _ _ _ Hnom) as Hnd.
  assert (Hw : Forall (fun r => length r = length columns) sv)
    by (apply survivors_width, (nom_width _ _ _ _ _ _ Hnom)).
  assert (Hc : 0 < c) by (subst c; lia).
  assert (HcZ : Z.of_nat c = 200000%Z) by (subst c; lia).
  clearbody c.
  eexists. split; [exact Hrun|].
  cbn [written log].
  assert (Herr : row_errors ([InfoClientInit; InfoTotalRows (PInt total)] ++ L)
                 = dropped_rows env columns c data) by exact Hlog.
  rewrite Herr.
  pose proof (survivors_split env columns c data) as Hsplit. fold sv in Hsplit.
  split; [reflexivity|].
  split; [rewrite full_files_length, Nat2Z.inj_div, HcZ; reflexivity|].
  split.
  { intros f Hf. destruct (full_files_shape columns c sv Hc Hnd Hw f Hf) as [Hh Hb].
    split; [assumption | lia]. }
  split.
  { rewrite rest_file_iff. subst s. rewrite <- HcZ, <- Nat2Z.inj_mod. lia. }
  split.
  { intros f Hf. destruct (rest_file_shape columns c sv Hc Hnd Hw f Hf) as (Hh & Hb & _).
    split; [assumption|]. subst s. rewrite <- HcZ, <- Nat2Z.inj_mod. lia. }
  split.
  { unfold rest_file. destruct (Nat.eqb _ _); simpl; lia. }
  split; [apply (chunk_files_names columns c sv); assumption|].
  split; [apply format_03d_three_digits|].
  split; [reflexivity|].
  pose proof (chunk_files_total columns c sv Hc Hnd Hw) as Htot.
  rewrite Htot. subst s. split; lia.
Qed.

(** C1 (as the code has it): in multi-file mode, with [s] the number of rows
    that were not dropped by a per-row error, the run writes [s / 200000]
    full files of 200 000 rows each, then one more file with the remaining
    [s mod 200000] rows if and only if that remainder is not zero; the files
    are named [output_] + counter + [.xlsx] with the counter starting at 1 and
    padded with zeros to at least three digits (exactly three up to 999); and
    the rows written add up to [s], which is the total minus the dropped
    rows. *)
Theorem multi_file_export (env : Env) (files : gmap string string) (sql : string)
    (columns : list string) (data : list Row) (total : Z) (xlsx : gmap string Sheet) :
  Nominal env files sql columns data total ->
  total = Z.of_nat (length data) ->
  (500000 < total)%Z ->
  let c := Z.to_nat 200000 in
  let sv := survivors env data in
  let s := Z.of_nat (length sv) in
  exists st,
    main env (initial_state files xlsx) = (Ok tt, st)
    /\ written st = full_files columns c sv ++ rest_file columns c sv
    /\ Z.of_nat (length (full_files columns c sv)) = (s / 200000)%Z
    /\ (forall f, f ∈ full_files columns c sv ->
                  header f.2 = columns /\ Z.of_nat (length (body f.2)) = 200000%Z)
    /\ (rest_file columns c sv <> [] <-> (s mod 200000)%Z <> 0%Z)
    /\ (forall f, f ∈ rest_file columns c sv ->
                  header f.2 = columns
                  /\ Z.of_nat (length (body f.2)) = (s mod 200000)%Z)
    /\ length (rest_file columns c sv) <= 1
    /\ map fst (written st) = numbered_names (length (written st))
    /\ (forall k, (1 <= k <= 999)%Z -> String.length (format_03d k) = 3)
    /\ row_errors (log st) = dropped_rows env columns c data
    /\ total_rows_written (written st)
       = (total - Z.of_nat (length (row_errors (log st))))%Z
    /\ total_rows_written (written st) = s.
Proof. exact (multi_file_layout env files sql columns data total xlsx). Qed.

Lemma multi_file_export_witness :
  exists st,
    main big_env (initial_state demo_files ∅) = (Ok tt, st)
    /\ total_rows_written (written st) = 599999%Z
    /\ length (row_errors (log st)) = 1.
Proof.
  destruct (multi_file_export big_env demo_files demo_sql ["NAME"] big_data 600000 ∅
              big_nominal) as (st & Hrun & _ & _ & _ & _ & _ & _ & _ & _ & _ & Hsum & Hs).
  - symmetry. exact big_data_length.
  - lia.
  - exists st. rewrite big_survivors_length in Hs.
    split; [exact Hrun|]. split; [exact Hs|].
    rewrite Hs in Hsum. lia.
Defined.

(** C1 as stated fails when a row is dropped: of 600 000 rows, one of which
    raises while being accumulated, the run writes two full files, not
    [600000 / 200000 = 3]; the third file holds 199 999 rows. *)
Lemma two_full_files_for_600000_rows :
  exists st full rest,
    main big_env (initial_state demo_files ∅) = (Ok tt, st)
    /\ Z.of_nat (length big_data) = 600000%Z
    /\ written st = full ++ rest
    /\ (forall f, f ∈ full -> Z.of_nat (length (body f.2)) = 200000%Z)
    /\ (forall f, f ∈ rest -> Z.of_nat (length (body f.2)) = 199999%Z)
    /\ Z.of_nat (length full) = 2%Z
    /\ length rest = 1
    /\ (Z.of_nat (length full) <> 600000 / 200000)%Z.
Proof.
  destruct (multi_file_layout big_env demo_files demo_sql ["NAME"] big_data 600000 ∅
              big_nominal (eq_sym big_data_length) ltac:(lia))
    as (st & Hrun & Hw & Hfull & Hfs & Hrest & Hrs & Hle & _).
  rewrite big_survivors_length in Hfull, Hrest, Hrs.
  change (599999 / 200000)%Z with 2%Z in Hfull.
  change (599999 mod 200000)%Z with 199999%Z in Hrest, Hrs.
  exists st, (full_files ["NAME"] (Z.to_nat 200000) (survivors big_env big_data)),
    (rest_file ["NAME"] (Z.to_nat 200000) (survivors big_env big_data)).
  split; [exact Hrun|]. split; [exact big_data_length|]. split; [exact Hw|].
  split; [intros f Hf; apply Hfs; exact Hf|].
  split; [intros f Hf; apply Hrs; exact Hf|].
  split; [exact Hfull|].
  split.
  - clear Hrs Hw. destruct (rest_file _ _ _) as [|f [|g rest]].
    + exfalso. apply (proj2 Hrest); [discriminate | reflexivity].
    + reflexivity.
    + cbn [length] in Hle. lia.
  - rewrite Hfull. discriminate.
Qed.

Lemma survivors_all (env : Env) (data : list Row) :
  (forall r, r ∈ data -> append_error env r = None) -> survivors env data = data.
Proof.
  unfold survivors, accepted. induction data as [|x data IH]; intros H; [reflexivity|].
  simpl. rewrite (H x) by left. rewrite IH; [reflexivity|].
  intros r Hr. apply H. right. assumption.
Qed.

(** C2: with at most 500 000 rows (500 000 and 0 included) the run writes
    exactly one file, [output.xlsx], holding all the rows under the column
    labels; with 500 001 rows, none of them rejected, the first file written
    is [output_001.xlsx] and holds exactly 200 000 rows, the first 200 000 of
    the result. *)
Theorem mode_decision (env : Env) (files : gmap string string) (sql : string)
    (columns : list string) (data : list Row) (total : Z) (xlsx : gmap string Sheet) :
  Nominal env files sql columns data total ->
  total = Z.of_nat (length data) ->
  exists st,
    main env (initial_state files xlsx) = (Ok tt, st)
    /\ ((total <= 500000)%Z ->
        exists sheet,
          written st = [("output.xlsx", sheet)]
          /\ sheets st !! "output.xlsx" = Some sheet
          /\ sheet = sheet_via sanitize_single columns data
          /\ header sheet = columns
          /\ Z.of_nat (length (body sheet)) = total)
    /\ (total = 500001%Z ->
        (forall r, r ∈ data -> append_error env r = None) ->
        exists sheet others,
          written st = ("output_001.xlsx", sheet) :: others
          /\ sheet = sheet_via sanitize_chunk columns (take (Z.to_nat 200000) data)
          /\ header sheet = columns
          /\ Z.of_nat (length (body sheet)) = 200000%Z).
Proof.
  intros Hnom Htotal.
  pose proof (nom_labels _ _ _ _ _ _ Hnom) as Hnd.
  pose proof (nom_width _ _ _ _ _ _ Hnom) as Hw.
  destruct (Z.leb_spec total 500000) as [Hsmall|Hbig].
  - eexists. split; [apply (main_single_file env files sql columns data total Hnom xlsx Hsmall)|].
    split; [|intros; lia].
    intros _. cbn [written sheets]. eexists. split; [reflexivity|].
    split; [apply lookup_insert_eq|]. split; [reflexivity|].
    rewrite sheet_via_single.
    destruct (sheet_via_chunk columns data Hnd Hw) as (df & df' & _ & _ & -> & Hh & Hb).
    split; [assumption | lia].
  - destruct (main_multi_file env files sql columns data total Hnom xlsx Hbig)
      as (L & Hrun & _).
    eexists. split; [exact Hrun|]. split; [intros; lia|].
    intros H1 Hall. cbn [written].
    rewrite (survivors_all env data Hall).
    set (c := Z.to_nat 200000). set (r := Z.to_nat 100001).
    assert (Hlen : length data = c * 2 + r) by (subst c r; lia).
    assert (Hr : r < c) by (subst c r; lia).
    assert (HcZ : Z.of_nat c = 200000%Z) by (subst c; lia).
    clearbody c r.
    assert (Hq : length data / c = 2).
    { symmetry. apply (Nat.div_unique (length data) c 2 r); lia. }
    unfold chunk_files, full_files. rewrite Hq.
    cbn [seq map app]. eexists _, _. split; [reflexivity|].
    rewrite Nat.mul_0_l, drop_0. split; [reflexivity|].
    destruct (sheet_via_chunk columns (take c data) Hnd) as (df & df' & _ & _ & -> & Hh & Hb).
    { apply Forall_take. assumption. }
    split; [assumption|]. rewrite Hb, length_take. lia.
Qed.

Lemma mode_decision_witness :
  exists st,
    main small_env (initial_state demo_files ∅) = (Ok tt, st)
    /\ written st = [("output.xlsx",
                      mkSheet ["NAME"; "AGE"] [[PStr "a"; PInt 1]; [PStr "None"; PInt 0]])].
Proof.
  destruct (mode_decision small_env demo_files demo_sql ["NAME"; "AGE"] small_data 2 ∅
              small_nominal) as (st & Hrun & Hsingle & _).
  - reflexivity.
  - exists st. split; [exact Hrun|].
    destruct Hsingle as (sheet & Hw & _ & Hs & _); [lia|].
    rewrite Hw, Hs. vm_compute. reflexivity.
Defined.

(** An empty result still gives one file, with the header and no body row. *)
Example empty_result_writes_header_only :
  let env := demo_env 0 (mkQuery ["NAME"; "AGE"] [] None) no_append_error no_excel_error in
  written (snd (main env (initial_state demo_files ∅)))
  = [("output.xlsx", mkSheet ["NAME"; "AGE"] [])].
Proof. vm_compute. reflexivity. Qed.


(** ** The content of a sheet, cell by cell *)

Lemma map_const_replicate {A B} (b : B) (l : list A) :
  map (fun _ => b) l = replicate (length l) b.
Proof. induction l as [|x l IH]; simpl; [reflexivity|]. rewrite IH. reflexivity. Qed.

(** The frame the constructor builds from rows of the right width. *)
Lemma pd_DataFrame_frame (columns : list string) (chunk : list Row) :
  Forall (fun r => length r = length columns) chunk ->
  pd_DataFrame chunk columns
  = Ok (mkDataFrame columns (length chunk)
          (map (fun j => make_series (column_of chunk j)) (seq 0 (length columns)))).
Proof.
  intros Hw. destruct chunk as [|r chunk].
  - simpl. do 2 f_equal.
    rewrite map_const_replicate.
    rewrite (map_const_replicate (make_series []) (seq 0 (length columns))), length_seq.
    reflexivity.
  - unfold pd_DataFrame. rewrite (max_width_uniform _ _ _ Hw), Nat.eqb_refl. reflexivity.
Qed.

Lemma full_column_values (col : list pyval) :
  values (fillna_series (strip_column (make_series col))) = map (export_cell col) col.
Proof.
  unfold make_series, strip_column, export_cell. cbn [dtype_of values].
  destruct (infer_dtype col).
  - unfold fillna_series, str_replace, astype_str. cbn [dtype_of values].
    rewrite to_storage_object, !map_map. apply map_ext. intros v. reflexivity.
  - unfold fillna_series, fill_value. cbn [dtype_of values].
    rewrite map_map. apply map_ext. intros v. destruct v; reflexivity.
Qed.

Lemma rest_column_values (col : list pyval) :
  values (fillna_series (make_series (map strip_if_str (values (make_series col)))))
  = map (export_cell_rest col) col.
Proof.
  rewrite applymap_strip_series by apply make_series_inferred.
  unfold make_series, fillna_series, fill_value, export_cell_rest. cbn [dtype_of values].
  rewrite !map_map. apply map_ext. intros v.
  destruct (infer_dtype col), v; reflexivity.
Qed.

Lemma body_from_columns (out : list pyval -> pyval -> pyval) (columns : list string)
    (chunk : list Row) (data : list Series) :
  data = map (fun j => mkSeries object (map (out (column_of chunk j)) (column_of chunk j)))
             (seq 0 (length columns)) ->
  map (fun i => map (fun s => nth i (values s) PNone) data) (seq 0 (length chunk))
  = export_rows out columns chunk.
Proof.
  intros ->. unfold export_rows, Row in *. apply list_eq. intros i.
  rewrite !list_lookup_fmap.
  destruct (chunk !! i) as [r|] eqn:Hi.
  - rewrite lookup_seq_lt by (eapply lookup_lt_Some; eauto).
    cbn [fmap option_fmap option_map Nat.add]. f_equal.
    rewrite map_map. apply map_ext. intros j. cbn [values].
    unfold column_of at 2.
    rewrite nth_lookup, !list_lookup_fmap, Hi. reflexivity.
  - rewrite lookup_seq_ge by (apply lookup_ge_None; assumption). reflexivity.
Qed.

Lemma frame_rows_values (series series' : list Series) (n : nat) :
  map values series = map values series' ->
  map (fun i => map (fun s => nth i (values s) PNone) series) (seq 0 n)
  = map (fun i => map (fun s => nth i (values s) PNone) series') (seq 0 n).
Proof.
  intros H. apply map_ext. intros i.
  rewrite <- (map_map values (fun vs => nth i vs PNone) series).
  rewrite <- (map_map values (fun vs => nth i vs PNone) series').
  rewrite H. reflexivity.
Qed.

Lemma sheet_via_cells (columns : list string) (chunk : list Row) :
  NoDup columns ->
  Forall (fun r => length r = length columns) chunk ->
  sheet_via sanitize_single columns chunk
  = mkSheet columns (export_rows export_cell columns chunk)
  /\ sheet_via sanitize_chunk columns chunk
     = mkSheet columns (export_rows export_cell columns chunk)
  /\ sheet_via sanitize_rest columns chunk
     = mkSheet columns (export_rows export_cell_rest columns chunk).
Proof.
  intros Hnd Hw. rewrite sheet_via_single.
  assert (Hfull : sheet_via sanitize_chunk columns chunk
                  = mkSheet columns (export_rows export_cell columns chunk)).
  { unfold sheet_via. rewrite (pd_DataFrame_frame columns chunk Hw).
    rewrite sanitize_chunk_ok by exact Hnd.
    unfold to_sheet, fillna, frame_row. cbn [df_columns df_nrows df_data]. f_equal.
    rewrite <- (body_from_columns export_cell columns chunk _ eq_refl).
    apply frame_rows_values. rewrite !map_map. apply map_ext. intros j.
    cbn [values]. apply full_column_values. }
  split; [exact Hfull|]. split; [exact Hfull|].
  unfold sheet_via. rewrite (pd_DataFrame_frame columns chunk Hw).
  rewrite sanitize_rest_ok by exact Hnd.
  unfold to_sheet, fillna, applymap, frame_row. cbn [df_columns df_nrows df_data]. f_equal.
  rewrite <- (body_from_columns export_cell_rest columns chunk _ eq_refl).
  apply frame_rows_values. rewrite !map_map. apply map_ext. intros j.
  cbn [values]. apply rest_column_values.
Qed.





Lemma skipping_nominal :
  Nominal skipping_env demo_files demo_sql ["NAME"] skipping_data 600000.
Proof.
  apply demo_nominal.
  - apply NoDup_singleton.
  - repeat constructor.
  - intros r e. unfold reject_bad. case_bool_decide; [|discriminate].
    intros [= <-]. reflexivity.
Qed.



(** C8: the two missing files are handled differently.  A missing query file
    is created with [SELECT * FROM dual], the creation is logged, and the
    function returns that query, so that [main] goes on to run it.  A missing
    [database.txt] is created with the three placeholder lines, and
    [read_db_config] leaves through [sys.exit(0)]: once the client library is
    loaded, the run ends with status 0, the placeholder on disk, and no call
    to the driver's [connect] (the driver history is empty). *)
Theorem missing_configuration :
  (forall path s,
      fs s !! path = None ->
      exists s',
        read_sql_from_file path s = (Ok "SELECT * FROM dual", s')
        /\ fs s' = <[path := default_query_file]> (fs s)
        /\ log s' = log s ++ [InfoFileCreated path]
        /\ trace s' = trace s)
  /\ (forall env files xlsx,
        files !! "params.txt" = None ->
        exists s',
          fs s' = <["params.txt" := default_query_file]> files
          /\ main env (initial_state files xlsx)
             = execute_query_and_export_to_excel env "SELECT * FROM dual" s')
  /\ (forall s,
        fs s !! "database.txt" = None ->
        exists s',
          read_db_config s = (Err (SystemExit 0), s')
          /\ fs s' = <["database.txt" := placeholder_config]> (fs s)
          /\ log s' = log s ++ [InfoConfigCreated; InfoEditConfig]
          /\ trace s' = trace s)
  /\ (forall env files xlsx,
        files !! "database.txt" = None ->
        init_client_error env = None ->
        exists st,
          main env (initial_state files xlsx) = (Err (SystemExit 0), st)
          /\ exit_status (Err (SystemExit 0)) = 0%Z
          /\ fs st !! "database.txt" = Some placeholder_config
          /\ trace st = []
          /\ written st = []).
Proof.
  assert (Hsql : forall path s,
             fs s !! path = None ->
             read_sql_from_file path s
             = (Ok "SELECT * FROM dual",
                mkState (<[path := default_query_file]> (fs s)) (sheets s) (written s)
                  (log s ++ [InfoFileCreated path]) (trace s) (v_connection s)
                  (v_cursor s) (v_columns s) (v_row s))).
  { intros path s Hnone. unfold read_sql_from_file.
    mstep ltac:(reflexivity). rewrite Hnone.
    mstep ltac:(reflexivity).
    mstep ltac:(reflexivity).
    rewrite lookup_insert_eq. reflexivity. }
  assert (Hcfg : forall s,
             fs s !! "database.txt" = None ->
             read_db_config s
             = (Err (SystemExit 0),
                mkState (<["database.txt" := placeholder_config]> (fs s)) (sheets s)
                  (written s) (log s ++ [InfoConfigCreated; InfoEditConfig]) (trace s)
                  (v_connection s) (v_cursor s) (v_columns s) (v_row s))).
  { intros s Hnone. unfold read_db_config.
    mstep ltac:(reflexivity). rewrite Hnone.
    unfold bind, write_file, logging, modify, raise. simpl.
    rewrite <- app_assoc. reflexivity. }
  split; [|split; [|split]].
  - intros path s Hnone. eexists. split; [apply Hsql; assumption|].
    repeat split.
  - intros env files xlsx Hnone. eexists. split; [|unfold main].
    2:{ erewrite bind_Ok; [reflexivity|]. apply Hsql. exact Hnone. }
    reflexivity.
  - intros s Hnone. eexists. split; [apply Hcfg; assumption|]. repeat split.
  - intros env files xlsx Hnone Hinit.
    assert (Hnone' : forall s, fs s = files \/ fs s = <["params.txt" := default_query_file]> files ->
                               fs s !! "database.txt" = None).
    { intros s [-> | ->]; [assumption|]. rewrite lookup_insert_ne by discriminate. assumption. }
    assert (Hexec : forall sql s,
               fs s !! "database.txt" = None -> trace s = [] ->
               v_cursor s = None -> v_connection s = false -> written s = [] ->
               exists st, execute_query_and_export_to_excel env sql s = (Err (SystemExit 0), st)
                          /\ fs st !! "database.txt" = Some placeholder_config
                          /\ trace st = [] /\ written st = []).
    { intros sql s Hdb Htr Hcur Hconn Hwr.
      unfold execute_query_and_export_to_excel, try_finally, try_except, try_block.
      erewrite bind_Ok by (unfold init_oracle_client; rewrite Hinit; reflexivity).
      erewrite bind_Ok by reflexivity.
      erewrite bind_Err.
      2:{ apply Hcfg. exact Hdb. }
      cbn [handlers]. unfold finally_block.
      erewrite bind_Ok by reflexivity.
      cbn [v_cursor v_connection]. rewrite Hcur, Hconn.
      erewrite bind_Ok by reflexivity.
      eexists. split; [reflexivity|]. cbn [fs trace written log].
      rewrite lookup_insert_eq. repeat split; assumption. }
    destruct (files !! "params.txt") as [text|] eqn:Hp.
    + unfold main. erewrite bind_Ok.
      2:{ unfold read_sql_from_file, initial_state.
          mstep ltac:(reflexivity). rewrite Hp.
          mstep ltac:(reflexivity). mstep ltac:(reflexivity). rewrite Hp. reflexivity. }
      destruct (Hexec (strip text) (initial_state files xlsx)) as (st & H1 & H2 & H3 & H4);
        try reflexivity; [assumption|].
      exists st. repeat split; assumption.
    + unfold main. erewrite bind_Ok by (apply Hsql; exact Hp).
      match goal with |- context [execute_query_and_export_to_excel _ _ ?s] =>
        destruct (Hexec "SELECT * FROM dual" s) as (st & H1 & H2 & H3 & H4)
      end; try reflexivity.
      { cbn [fs]. rewrite lookup_insert_ne by discriminate. assumption. }
      exists st. repeat split; assumption.
Qed.

Lemma missing_configuration_witness :
  exists s' st,
    read_sql_from_file "params.txt" (initial_state ∅ ∅) = (Ok "SELECT * FROM dual", s')
    /\ fs s' !! "params.txt" = Some default_query_file
    /\ main (demo_env 0 (mkQuery [] [] None) no_append_error no_excel_error)
         (initial_state ∅ ∅) = (Err (SystemExit 0), st)
    /\ fs st !! "database.txt" = Some placeholder_config
    /\ trace st = [].
Proof.
  pose proof missing_configuration as (Hsql & _ & _ & Hmain).
  destruct (Hsql "params.txt" (initial_state ∅ ∅)) as (s' & H1 & H2 & _); [reflexivity|].
  destruct (Hmain (demo_env 0 (mkQuery [] [] None) no_append_error no_excel_error) ∅ ∅)
    as (st & H3 & _ & H4 & H5 & _); [reflexivity | reflexivity |].
  exists s', st. split; [exact H1|]. split.
  - rewrite H2. apply lookup_insert_eq.
  - repeat split; assumption.
Defined.

(** C7 (the code misses its own catch-all): a write error in single-file mode
    is not logged and not contained.  [to_excel] raises [OSError], the last
    [except] clause formats [row] into its message, [row] is only ever bound
    by the loop of multi-file mode, so the clause itself raises
    [UnboundLocalError]; the [finally] block still closes cursor and
    connection, and the exception leaves [main]: exit status 1, nothing about
    the write error in the log. *)
Theorem write_error_escapes_in_single_file_mode :
  exists st,
    main locked_env (initial_state demo_files ∅) = (Err UnboundLocalError, st)
    /\ exit_status (Err UnboundLocalError) = 1%Z
    /\ log st = [InfoClientInit; InfoTotalRows (PInt 2)]
    /\ v_columns st = Some ["NAME"; "AGE"]
    /\ v_row st = None
    /\ written st = []
    /\ trace st = full_trace.
Proof. exists (snd (main locked_env (initial_state demo_files ∅))).
  repeat apply conj; vm_compute; reflexivity.
Qed.

(** The other anticipated categories are caught and logged, and [main]
    returns: a refused connection, a query that does not parse, and the same
    write error in multi-file mode, where [row] is bound. *)
Example refused_connection_is_logged :
  exists st,
    main refused_env (initial_state demo_files ∅) = (Ok tt, st)
    /\ log st = [InfoClientInit; ErrorDatabase DatabaseError]
    /\ trace st = [].
Proof. exists (snd (main refused_env (initial_state demo_files ∅))).
  repeat apply conj; vm_compute; reflexivity.
Qed.

Example unparsed_query_is_logged :
  exists st,
    main unparsed_env (initial_state demo_files ∅) = (Ok tt, st)
    /\ log st = [InfoClientInit; ErrorValidate ValueError; ErrorValue ValueError]
    /\ open_connections (trace st) = 0 /\ open_cursors (trace st) = [].
Proof. exists (snd (main unparsed_env (initial_state demo_files ∅))).
  repeat apply conj; vm_compute; reflexivity.
Qed.

Example write_error_is_logged_in_multi_file_mode :
  exists st,
    main locked_env_chunks (initial_state demo_files ∅) = (Ok tt, st)
    /\ log st = [InfoClientInit; InfoTotalRows (PInt 600000);
                 ErrorOther ["NAME"; "AGE"] [PNone; PNone] OSError]
    /\ trace st = full_trace.
Proof. exists (snd (main locked_env_chunks (initial_state demo_files ∅))).
  repeat apply conj; vm_compute; reflexivity.
Qed.

(** ** Connection and cursor on every way out *)

Lemma keeps_ret {A} (a : A) : keeps_resources (ret a).
Proof. intros s. reflexivity. Qed.

Lemma keeps_raise {A} (e : exn) : keeps_resources (@raise A e).
Proof. intros s. reflexivity. Qed.

Lemma keeps_lift {A} (r : result A) : keeps_resources (lift r).
Proof. intros s. reflexivity. Qed.

Lemma keeps_get : keeps_resources get.
Proof. intros s. reflexivity. Qed.

Lemma keeps_logging (entry : log_entry) : keeps_resources (logging entry).
Proof. intros s. reflexivity. Qed.

Lemma keeps_set_columns (cols : list string) : keeps_resources (set_columns cols).
Proof. intros s. reflexivity. Qed.

Lemma keeps_set_row (r : Row) : keeps_resources (set_row r).
Proof. intros s. reflexivity. Qed.

Lemma keeps_write_file (path content : string) : keeps_resources (write_file path content).
Proof. intros s. reflexivity. Qed.

Lemma keeps_to_excel (env : Env) (df : DataFrame) (filename : string) :
  keeps_resources (to_excel env df filename).
Proof.
  intros s. unfold to_excel.
  destruct (to_excel_error _ _ _); [|reflexivity].
  destruct (to_excel_damage _ _ _); reflexivity.
Qed.

Lemma keeps_bind {A B} (m : M A) (k : A -> M B) :
  keeps_resources m -> (forall a, keeps_resources (k a)) -> keeps_resources (bind m k).
Proof.
  intros Hm Hk s. unfold bind. specialize (Hm s).
  destruct (m s) as [[a|e] s']; simpl in *; [|assumption].
  rewrite Hk. assumption.
Qed.

Lemma keeps_try_except {A} (body : M A) (handler : exn -> option (M A)) :
  keeps_resources body ->
  (forall e h, handler e = Some h -> keeps_resources h) ->
  keeps_resources (try_except body handler).
Proof.
  intros Hb Hh s. unfold try_except. specialize (Hb s).
  destruct (body s) as [[a|e] s']; simpl in *; [assumption|].
  destruct (handler e) as [h|] eqn:E; simpl; [|assumption].
  rewrite (Hh e h E). assumption.
Qed.

Lemma keeps_for_each {A B} (xs : list A) (body : B -> A -> M B) (acc : B) :
  (forall b a, keeps_resources (body b a)) -> keeps_resources (for_each xs body acc).
Proof.
  intros Hbody. revert acc. induction xs as [|x xs IH]; intros acc; simpl.
  - apply keeps_ret.
  - apply keeps_bind; [apply Hbody | intros; apply IH].
Qed.

(** Chains the lemmas above through a block of statements. *)
Ltac keeps :=
  repeat first
    [ apply keeps_ret | apply keeps_raise | apply keeps_lift | apply keeps_get
    | apply keeps_logging | apply keeps_set_columns | apply keeps_set_row
    | apply keeps_write_file | apply keeps_to_excel
    | apply keeps_bind; [|intros]
    | apply keeps_for_each; intros
    | apply keeps_try_except; [|intros ? ? ?]
    | match goal with
      | H : (if ?b then _ else _) = Some _ |- _ => destruct b; [|discriminate]
      | H : Some _ = Some _ |- _ => injection H as <-
      | |- keeps_resources (match ?x with _ => _ end) => destruct x
      | |- keeps_resources (if ?x then _ else _) => destruct x
      end ].

Lemma keeps_init_oracle_client (env : Env) : keeps_resources (init_oracle_client env).
Proof. unfold init_oracle_client. keeps. Qed.

Lemma keeps_read_db_config : keeps_resources read_db_config.
Proof. unfold read_db_config. keeps. Qed.

Lemma keeps_read_sql_from_file (path : string) : keeps_resources (read_sql_from_file path).
Proof. unfold read_sql_from_file. keeps. Qed.

Lemma keeps_getitem (d : gmap string string) (key : string) : keeps_resources (getitem d key).
Proof. unfold getitem. keeps. Qed.

Lemma keeps_validate_sql (env : Env) (sql : string) : keeps_resources (validate_sql env sql).
Proof. unfold validate_sql. keeps. Qed.

Lemma keeps_verify_open (c : nat) : keeps_resources (verify_open c).
Proof. unfold verify_open. keeps. Qed.

Lemma keeps_cursor_execute (env : Env) (c : nat) (statement : string) :
  keeps_resources (cursor_execute env c statement).
Proof. unfold cursor_execute. apply keeps_bind; [apply keeps_verify_open | intros; keeps]. Qed.

Lemma keeps_fetchone (q : QueryResult) : keeps_resources (fetchone q).
Proof. unfold fetchone. keeps. Qed.

Lemma keeps_fetchall (q : QueryResult) : keeps_resources (fetchall q).
Proof. unfold fetchall. keeps. Qed.

Lemma keeps_item0 (r : option Row) : keeps_resources (item0 r).
Proof. unfold item0. keeps. Qed.

Lemma keeps_le_500000 (v : pyval) : keeps_resources (le_500000 v).
Proof. unfold le_500000. keeps. Qed.

Lemma keeps_accumulate (env : Env) (columns : list string) (split : Z)
    (st : Chunking) (row : Row) :
  keeps_resources (accumulate env columns split st row).
Proof. unfold accumulate. keeps. Qed.

Lemma keeps_flush_rest (env : Env) (columns : list string) (st : Chunking) :
  keeps_resources (flush_rest env columns st).
Proof. unfold flush_rest. keeps. Qed.

Lemma keeps_handlers (e : exn) (h : M unit) : handlers e = Some h -> keeps_resources h.
Proof. unfold handlers. destruct e; intros [= <-]; keeps. Qed.

Ltac keeps_script :=
  repeat first
    [ apply keeps_init_oracle_client | apply keeps_read_db_config
    | apply keeps_read_sql_from_file | apply keeps_getitem | apply keeps_validate_sql
    | apply keeps_cursor_execute | apply keeps_fetchone | apply keeps_fetchall
    | apply keeps_item0 | apply keeps_le_500000 | apply keeps_accumulate
    | apply keeps_flush_rest
    | apply keeps_ret | apply keeps_raise | apply keeps_lift | apply keeps_get
    | apply keeps_logging | apply keeps_set_columns | apply keeps_set_row
    | apply keeps_write_file | apply keeps_to_excel
    | apply keeps_bind; [|intros]
    | apply keeps_for_each; intros
    | match goal with
      | |- keeps_resources (match ?x with _ => _ end) => destruct x
      | |- keeps_resources (if ?x then _ else _) => destruct x
      end ].

(** A state whose driver part is known, opened up for evaluation. *)
Ltac open_state s H :=
  destruct s as [? ? ? ? tr vconn vcur ? ?];
  unfold resources, res_idle, res_connected, res_counting, res_stale, res_exporting in H;
  cbn [trace v_connection v_cursor] in H;
  injection H as -> -> ->.

(** Both branches start alike: the counting cursor is closed and a second one
    is opened.  The block is left where the first of the two calls raised, or
    with the second cursor open, whatever happens afterwards. *)
Lemma reopen_resources {A} (env : Env) (K : nat -> M A) (s : State) :
  (forall c, keeps_resources (K c)) ->
  resources s = res_counting ->
  ends_safely env
    (Ok tt, snd ((cursor_close env 0 ;;;
                  let! c := connection_cursor env in
                  set_cursor c ;;; K c) s)).
Proof.
  intros HK H. unfold ends_safely. cbn [snd]. open_state s H.
  unfold cursor_close, connection_cursor, verify_open, set_cursor,
    bind, get, emit, modify, ret, raise.
  cbn [fs sheets written log trace v_connection v_cursor v_columns v_row].
  rewrite (bool_decide_eq_true_2 (0 ∈ open_cursors [EvConnect; EvOpenCursor 0]))
    by (vm_compute; set_solver).
  cbn [fs sheets written log trace v_connection v_cursor v_columns v_row].
  destruct (cursor_close_error env [EvConnect; EvOpenCursor 0] 0);
    [right; right; left; reflexivity|].
  cbn [fs sheets written log trace v_connection v_cursor v_columns v_row app].
  change (Nat.eqb (open_connections [EvConnect; EvOpenCursor 0; EvCloseCursor 0]) 0)
    with false.
  cbn beta iota.
  destruct (cursor_error env [EvConnect; EvOpenCursor 0; EvCloseCursor 0]) eqn:Hce;
    [right; right; right; left; split; [reflexivity | congruence]|].
  do 4 right.
  cbn [fs sheets written log trace v_connection v_cursor v_columns v_row app
       List.filter length].
  rewrite HK. reflexivity.
Qed.

Lemma export_single_resources (env : Env) (sql : string) (s : State) :
  resources s = res_counting ->
  ends_safely env (Ok tt, snd (export_single env sql s)).
Proof.
  intros H. unfold export_single.
  assert (Hc : v_cursor s = Some 0)
    by (unfold resources, res_counting in H; congruence).
  match goal with |- context [bind get ?k s] => change (bind get k s) with (k s s) end.
  cbn beta. rewrite Hc.
  apply reopen_resources; [intros c; keeps_script | exact H].
Qed.

Lemma export_chunks_resources (env : Env) (split : Z) (total : pyval) (sql : string)
    (s : State) :
  resources s = res_counting ->
  ends_safely env (Ok tt, snd (export_chunks env split total sql s)).
Proof.
  intros H. unfold export_chunks, tqdm.
  assert (Hc : v_cursor s = Some 0)
    by (unfold resources, res_counting in H; congruence).
  match goal with |- context [bind get ?k s] => change (bind get k s) with (k s s) end.
  cbn beta. rewrite Hc.
  apply reopen_resources; [intros c; keeps_script | exact H].
Qed.

Lemma keeps_bind_cases {A B} (m : M A) (k : A -> M B) (s : State) :
  keeps_resources m ->
  (exists e s1, bind m k s = (Err e, s1) /\ resources s1 = resources s)
  \/ (exists a s1, bind m k s = k a s1 /\ resources s1 = resources s).
Proof.
  intros Hm. specialize (Hm s). unfold bind.
  destruct (m s) as [[a|e] s1]; simpl in Hm; [right | left]; eauto.
Qed.

(** [kstep] for a state whose driver part [H] describes: in both cases [H]
    ends up describing the state the block is in. *)
Ltac kstep_in H :=
  lazymatch goal with
  | |- context [@bind ?A ?B ?m ?k ?s] =>
    let Hk := fresh "Hk" in
    let e := fresh "e" in
    let a := fresh "a" in
    let s1 := fresh "s" in
    let Hrun := fresh "Hrun" in
    let Hres := fresh "Hres" in
    assert (Hk : keeps_resources m) by keeps_script;
    destruct (keeps_bind_cases m k s Hk) as [(e & s1 & Hrun & Hres) | (a & s1 & Hrun & Hres)];
    clear Hk; rewrite Hrun; clear Hrun;
    rewrite H in Hres; clear H; rename Hres into H
  end.

Lemma connection_cursor_first (env : Env) (s : State) :
  resources s = res_connected ->
  (exists e, connection_cursor env s = (Err e, s) /\ cursor_error env [EvConnect] <> None)
  \/ (exists s', connection_cursor env s = (Ok 0, s')
                 /\ resources s' = ([EvConnect; EvOpenCursor 0], true, None)).
Proof.
  intros H. open_state s H.
  unfold connection_cursor, bind, get, emit, modify, ret, raise.
  cbn [fs sheets written log trace v_connection v_cursor v_columns v_row].
  change (Nat.eqb (open_connections [EvConnect]) 0) with false. cbn beta iota.
  destruct (cursor_error env [EvConnect]) as [e|];
    [left; exists e; split; [reflexivity | congruence]|].
  right. eexists. split; reflexivity.
Qed.

(** The [try] block is only ever left in one of the five situations. *)
Lemma try_block_resources (env : Env) (sql : string) (s : State) :
  resources s = res_idle -> ends_safely env (try_block env sql s).
Proof.
  intros H. unfold try_block.
  do 5 (kstep_in H; [left; exact H|]).
  kstep_in H; [left; exact H|].
  match goal with |- context [@bind _ _ _ _ ?s1] => open_state s1 H end.
  match goal with |- context [oracledb_connect env ?u ?p ?d] =>
    unfold oracledb_connect at 1; destruct (connect_error env u p d) as [e|]
  end.
  { left. reflexivity. }
  mstep ltac:(reflexivity).
  mstep ltac:(reflexivity).
  match goal with |- context [@bind _ _ (connection_cursor env) ?k ?s0] =>
    destruct (connection_cursor_first env s0 eq_refl) as [(e & He & Hce) | (s' & He & Hs')];
      [ rewrite (bind_Err _ k _ _ _ He); right; left; split; [reflexivity | exact Hce]
      | rewrite (bind_Ok _ k _ _ _ He) ]
  end.
  match goal with |- context [@bind _ _ (set_cursor 0) ?k s'] =>
    rewrite (bind_Ok (set_cursor 0) k s' _ tt eq_refl)
  end.
  match goal with |- context [@bind _ _ _ _ ?s0] =>
    assert (Hs : resources s0 = res_counting)
      by (unfold resources in *; cbn [trace v_connection v_cursor] in *;
          injection Hs' as -> -> _; reflexivity);
    revert Hs; generalize s0
  end.
  clear s' He Hs'. intros s' Hs.
  do 6 (kstep_in Hs; [right; right; left; exact Hs|]).
  match goal with |- context [if ?b then _ else _] => destruct b end.
  - apply (export_single_resources env sql). assumption.
  - apply (export_chunks_resources env _ _ sql). assumption.
Qed.

Lemma try_except_handlers_resources (env : Env) (sql : string) (s : State) :
  resources s = res_idle ->
  ends_safely env (try_except (try_block env sql) handlers s).
Proof.
  intros H. pose proof (try_block_resources env sql s H) as Hsafe.
  unfold try_except, ends_safely in *.
  destruct (try_block env sql s) as [[[]|e] s']; [exact Hsafe|].
  destruct (handlers e) as [h|] eqn:Eh; [|exact Hsafe].
  rewrite (keeps_handlers e h Eh s'). exact Hsafe.
Qed.

(** With a driver that hands out and closes its handles, three situations
    remain. *)
Lemma ends_safely_reliable (env : Env) (x : result unit * State) :
  reliable_driver env ->
  ends_safely env x ->
  resources (snd x) = res_idle \/ resources (snd x) = res_counting
  \/ resources (snd x) = res_exporting.
Proof.
  intros (Hcur & _ & _) [H | [[_ H] | [H | [[_ H] | H]]]]; auto;
    exfalso; apply H, Hcur.
Qed.

Lemma finally_block_idle (env : Env) (s : State) :
  resources s = res_idle -> finally_block env s = (Ok tt, s).
Proof. intros H. open_state s H. reflexivity. Qed.

Lemma finally_block_counting (env : Env) (s : State) :
  reliable_driver env ->
  resources s = res_counting ->
  exists s', finally_block env s = (Ok tt, s') /\ trace s' = short_trace.
Proof.
  intros Hdrv H. open_state s H. unfold finally_block.
  mstep ltac:(reflexivity).
  mstep ltac:(mcompute).
  eexists. split; [mcompute | reflexivity].
Qed.

Lemma finally_block_exporting (env : Env) (s : State) :
  reliable_driver env ->
  resources s = res_exporting ->
  exists s', finally_block env s = (Ok tt, s') /\ trace s' = full_trace.
Proof.
  intros Hdrv H. open_state s H. unfold finally_block.
  mstep ltac:(reflexivity).
  mstep ltac:(mcompute).
  eexists. split; [mcompute | reflexivity].
Qed.

(** The [finally] block with any driver: it returns with everything closed,
    or it raises and leaves the connection open. *)
Ltac cleanup env :=
  unfold finally_block, cursor_close, connection_close, verify_open,
    bind, get, emit, modify, ret, raise, cleaned_up;
  cbn [fs sheets written log trace v_connection v_cursor v_columns v_row];
  repeat (first
            [ match goal with
              | |- context [bool_decide ?P] =>
                first [ rewrite (bool_decide_eq_true_2 P) by (vm_compute; set_solver)
                      | rewrite (bool_decide_eq_false_2 P) by (vm_compute; set_solver) ]
              end
            | match goal with
              | |- context [cursor_close_error env ?tr ?c] =>
                destruct (cursor_close_error env tr c)
              | |- context [connection_close_error env ?tr] =>
                destruct (connection_close_error env tr)
              end ];
          cbn [fs sheets written log trace v_connection v_cursor v_columns v_row app]);
  simpl;
  (split; [compute_done | first [left; repeat split; reflexivity
                                | right; eexists; split; reflexivity]]).

Lemma finally_block_ends (env : Env) (r : result unit) (s : State) :
  ends_safely env (r, s) ->
  trace (snd (finally_block env s)) ∈ run_traces /\ cleaned_up (finally_block env s).
Proof.
  unfold ends_safely. cbn [snd].
  intros [H | [[H _] | [H | [[H _] | H]]]]; open_state s H; cleanup env.
Qed.

Lemma run_traces_one_open (tr : list event) : tr ∈ run_traces -> at_most_one_open tr.
Proof.
  unfold run_traces. intros H.
  repeat (apply elem_of_cons in H; destruct H as [-> | H]);
    [ .. | apply elem_of_nil in H; contradiction ];
    intros k; do 7 (destruct k as [|k]; [vm_compute; lia|]); vm_compute; lia.
Qed.

(** However the function ends, the history it leaves is one of [run_traces],
    and either nothing is left open or the [finally] block raised and the
    connection is still open. *)
Lemma execute_ends (env : Env) (sql : string) (s : State) :
  resources s = res_idle ->
  let x := execute_query_and_export_to_excel env sql s in
  trace (snd x) ∈ run_traces
  /\ (all_released (trace (snd x))
      \/ exists e, fst x = Err e /\ open_connections (trace (snd x)) = 1).
Proof.
  intros H x. subst x.
  pose proof (try_except_handlers_resources env sql s H) as Hsafe.
  unfold execute_query_and_export_to_excel, try_finally.
  destruct (try_except (try_block env sql) handlers s) as [r s'].
  destruct (finally_block_ends env r s' Hsafe) as [Htr Hend].
  unfold cleaned_up in Hend.
  destruct (finally_block env s') as [[[]|e] s'']; cbn [fst snd] in *.
  - split; [exact Htr|]. left. destruct Hend as [[_ Hrel] | (e & He & _)];
      [exact Hrel | discriminate].
  - split; [exact Htr|]. right. exists e. split; [reflexivity|].
    destruct Hend as [[He _] | (e' & _ & Hopen)]; [discriminate | exact Hopen].
Qed.

Lemma main_ends (env : Env) (files : gmap string string) (xlsx : gmap string Sheet) :
  let x := main env (initial_state files xlsx) in
  trace (snd x) ∈ run_traces
  /\ (all_released (trace (snd x))
      \/ exists e, fst x = Err e /\ open_connections (trace (snd x)) = 1).
Proof.
  intros x. subst x. unfold main.
  destruct (keeps_bind_cases (read_sql_from_file "params.txt")
              (fun sql => execute_query_and_export_to_excel env sql)
              (initial_state files xlsx) (keeps_read_sql_from_file _))
    as [(e & s1 & -> & Hres) | (sql & s1 & -> & Hres)].
  - cbn [fst snd]. unfold resources in Hres. cbn in Hres.
    injection Hres as -> _ _. split; [compute_done|]. left. split; reflexivity.
  - apply execute_ends. exact Hres.
Qed.

(** Whatever the driver does, never more than one connection and one cursor
    are open. *)
Lemma never_two_open (env : Env) (files : gmap string string) (xlsx : gmap string Sheet) :
  at_most_one_open (trace (snd (main env (initial_state files xlsx)))).
Proof. apply run_traces_one_open, main_ends. Qed.

(** With a driver whose [cursor()] and [close()] calls succeed, the history a
    run leaves is one of three and nothing is left open. *)
Lemma execute_traces (env : Env) (sql : string) (s : State) :
  reliable_driver env ->
  resources s = res_idle ->
  let x := execute_query_and_export_to_excel env sql s in
  trace (snd x) = [] \/ trace (snd x) = short_trace \/ trace (snd x) = full_trace.
Proof.
  intros Hdrv H x. subst x.
  pose proof (ends_safely_reliable env _ Hdrv (try_except_handlers_resources env sql s H))
    as Hsafe.
  unfold execute_query_and_export_to_excel, try_finally in *.
  destruct (try_except (try_block env sql) handlers s) as [r s'].
  cbn [snd] in Hsafe. destruct Hsafe as [Hs | [Hs | Hs]].
  - rewrite (finally_block_idle env s' Hs). left.
    cbn [snd]. unfold resources, res_idle in Hs. congruence.
  - destruct (finally_block_counting env s' Hdrv Hs) as (s'' & -> & Ht). right. left. exact Ht.
  - destruct (finally_block_exporting env s' Hdrv Hs) as (s'' & -> & Ht). right. right. exact Ht.
Qed.

Lemma trace_checks (tr : list event) :
  tr = [] \/ tr = short_trace \/ tr = full_trace ->
  all_released tr /\ at_most_one_open tr.
Proof.
  intros [-> | [-> | ->]]; (split; [split; reflexivity|]); intros k;
    do 7 (destruct k as [|k]; [vm_compute; lia|]); vm_compute; lia.
Qed.

Lemma reliable_driver_releases (env : Env) (files : gmap string string)
    (xlsx : gmap string Sheet) :
  reliable_driver env ->
  let st := snd (main env (initial_state files xlsx)) in
  (trace st = [] \/ trace st = short_trace \/ trace st = full_trace)
  /\ all_released (trace st)
  /\ at_most_one_open (trace st).
Proof.
  intros Hdrv st. subst st.
  assert (H : let st := snd (main env (initial_state files xlsx)) in
              trace st = [] \/ trace st = short_trace \/ trace st = full_trace).
  { intros st. subst st. unfold main.
    destruct (keeps_bind_cases (read_sql_from_file "params.txt")
                (fun sql => execute_query_and_export_to_excel env sql)
                (initial_state files xlsx) (keeps_read_sql_from_file _))
      as [(e & s1 & -> & Hres) | (sql & s1 & -> & Hres)].
    - left. cbn [snd]. unfold resources in Hres. simpl in Hres. congruence.
    - apply execute_traces; assumption. }
  split; [exact H|]. apply trace_checks. exact H.
Qed.

(** C6: the claim holds of the code only as long as the driver's own
    [close()] calls succeed.  When the connection is lost while the rows are
    fetched, [fetchall] raises [DatabaseError], which is caught and logged;
    in the [finally] block [cursor.close()] raises as well, and since the
    two [close()] calls are not guarded from each other,
    [connection.close()] on line 233 is never reached: the exception leaves
    the function, and both the cursor and the connection are still open. *)
Theorem cleanup_failure_leaves_connection_open :
  exists st,
    main lost_env (initial_state demo_files ∅) = (Err DatabaseError, st)
    /\ log st = [InfoClientInit; InfoTotalRows (PInt 2); ErrorDatabase DatabaseError]
    /\ trace st = [EvConnect; EvOpenCursor 0; EvCloseCursor 0; EvOpenCursor 1]
    /\ open_connections (trace st) = 1
    /\ open_cursors (trace st) = [1]
    /\ ~ all_released (trace st).
Proof.
  exists (snd (main lost_env (initial_state demo_files ∅))).
  repeat apply conj; try (vm_compute; reflexivity).
  intros [H _]. vm_compute in H. discriminate.
Qed.

(** The same defect when [connection.cursor()] on line 141 raises: [cursor]
    still names the cursor closed on line 140, closing it again raises
    [InterfaceError], and the connection stays open. *)
Example stale_cursor_leaves_connection_open :
  exists st,
    main one_cursor_env (initial_state demo_files ∅) = (Err InterfaceError, st)
    /\ log st = [InfoClientInit; InfoTotalRows (PInt 2); ErrorDatabase DatabaseError]
    /\ trace st = [EvConnect; EvOpenCursor 0; EvCloseCursor 0]
    /\ open_connections (trace st) = 1.
Proof.
  exists (snd (main one_cursor_env (initial_state demo_files ∅))).
  repeat apply conj; vm_compute; reflexivity.
Qed.

(** A count that is [nan] is not at most 500 000, so the [else] branch is
    taken; the progress bar cannot be drawn for such a total, and the
    [ValueError] is caught and logged before a row is read: nothing is
    written, and cursor and connection are closed. *)
Example nan_count_writes_nothing :
  exists st,
    main nan_env (initial_state demo_files ∅) = (Ok tt, st)
    /\ log st = [InfoClientInit; InfoTotalRows PNaN; ErrorValue ValueError]
    /\ written st = []
    /\ trace st = [EvConnect; EvOpenCursor 0; EvCloseCursor 0; EvOpenCursor 1;
                   EvCloseCursor 1; EvCloseConnection].
Proof.
  exists (snd (main nan_env (initial_state demo_files ∅))).
  repeat apply conj; vm_compute; reflexivity.
Qed.

(** ** Writing a sheet *)

(** The sheet has the labels as first row, then the frame's rows, each with
    its cells in column order. *)
Lemma to_sheet_layout (df : DataFrame) (i : nat) :
  header (to_sheet df) = df_columns df
  /\ (i < df_nrows df -> body (to_sheet df) !! i = Some (frame_row df i)).
Proof.
  split; [reflexivity|]. intros Hi. unfold to_sheet. simpl.
  rewrite list_lookup_fmap, lookup_seq_lt by assumption. reflexivity.
Qed.

(** A successful write replaces whatever file had that name, and writing the
    same frame again leaves the same sheet on disk. *)
Lemma to_excel_overwrites (env : Env) (df : DataFrame) (filename : string) (s : State) :
  to_excel_error env filename (to_sheet df) = None ->
  sheets (snd (to_excel env df filename s)) !! filename = Some (to_sheet df).
Proof.
  intros H. unfold to_excel. rewrite H. simpl. apply lookup_insert_eq.
Qed.

Lemma to_excel_twice (env : Env) (df : DataFrame) (filename : string) (s : State) :
  to_excel_error env filename (to_sheet df) = None ->
  sheets (snd (to_excel env df filename (snd (to_excel env df filename s))))
  = sheets (snd (to_excel env df filename s)).
Proof.
  intros H. unfold to_excel. rewrite H. simpl. apply insert_insert_eq.
Qed.

(** * Further properties of the script *)

(** ** How a run can end *)

Lemma finally_block_frame (env : Env) (s : State) :
  fs (snd (finally_block env s)) = fs s
  /\ sheets (snd (finally_block env s)) = sheets s
  /\ written (snd (finally_block env s)) = written s
  /\ log (snd (finally_block env s)) = log s
  /\ v_columns (snd (finally_block env s)) = v_columns s
  /\ v_row (snd (finally_block env s)) = v_row s.
Proof.
  destruct s as [f sh w l tr vconn vcur vcols vrow].
  cbv [finally_block bind get cursor_close verify_open connection_close
       emit modify ret raise fs sheets written log trace v_connection v_cursor
       v_columns v_row snd].
  destruct vcur as [c|].
  - destruct (bool_decide (c ∈ open_cursors tr)); [|repeat apply conj; reflexivity].
    destruct (cursor_close_error env tr c); [repeat apply conj; reflexivity|].
    destruct vconn; [|repeat apply conj; reflexivity].
    destruct (Nat.eqb _ _); [repeat apply conj; reflexivity|].
    destruct (connection_close_error env _); repeat apply conj; reflexivity.
  - destruct vconn; [|repeat apply conj; reflexivity].
    destruct (Nat.eqb _ _); [repeat apply conj; reflexivity|].
    destruct (connection_close_error env _); repeat apply conj; reflexivity.
Qed.

(** With a driver that closes its handles the [finally] block returns. *)
Lemma finally_block_returns (env : Env) (x : result unit * State) :
  reliable_driver env -> ends_safely env x -> fst (finally_block env (snd x)) = Ok tt.
Proof.
  intros Hdrv Hsafe.
  destruct (ends_safely_reliable env x Hdrv Hsafe) as [H | [H | H]].
  - rewrite (finally_block_idle _ _ H). reflexivity.
  - destruct (finally_block_counting _ _ Hdrv H) as (s' & -> & _). reflexivity.
  - destruct (finally_block_exporting _ _ Hdrv H) as (s' & -> & _). reflexivity.
Qed.

(** What the three [except] clauses let through. *)
Lemma handlers_outcome (body : M unit) (s : State) :
  escapes_only_by_exit_or_handler (fst (try_except body handlers s))
    (snd (try_except body handlers s)).
Proof.
  unfold try_except, escapes_only_by_exit_or_handler.
  destruct (body s) as [[[]|e] s']; [left; reflexivity|].
  destruct e; cbn [handlers];
    try (left; reflexivity);
    try (right; left; eexists; reflexivity);
    unfold bind, get, logging, modify, raise;
    destruct (v_columns s') eqn:Ec, (v_row s') eqn:Er; cbn;
    first [ left; reflexivity | right; right; split; [reflexivity | tauto] ].
Qed.

Lemma read_sql_from_file_returns (path : string) (s : State) :
  exists sql s1,
    read_sql_from_file path s = (Ok sql, s1)
    /\ read_sql_from_file path s1 = (Ok sql, s1)
    /\ (fs s !! path <> None -> s1 = s)
    /\ (fs s !! path = None -> sql = "SELECT * FROM dual").
Proof.
  destruct (fs s !! path) as [content|] eqn:E.
  - exists (strip content), s.
    assert (H : read_sql_from_file path s = (Ok (strip content), s)).
    { unfold read_sql_from_file.
      mstep ltac:(reflexivity). rewrite E.
      mstep ltac:(reflexivity). mstep ltac:(reflexivity). rewrite E. reflexivity. }
    repeat apply conj; [exact H | exact H | reflexivity | discriminate].
  - eexists _, _. split.
    + unfold read_sql_from_file.
      mstep ltac:(reflexivity). rewrite E.
      mstep ltac:(reflexivity). mstep ltac:(reflexivity).
      rewrite lookup_insert_eq. reflexivity.
    + split; [|split; [congruence | reflexivity]].
      unfold read_sql_from_file.
      mstep ltac:(reflexivity). cbn [fs]. rewrite lookup_insert_eq.
      mstep ltac:(reflexivity). mstep ltac:(reflexivity).
      rewrite lookup_insert_eq. reflexivity.
Qed.

(** X1: on a disk that accepts its [open] calls and for a file of plain text
    (or no file), [read_sql_from_file] does not raise, and calling it again
    changes nothing: the second call returns the same query and leaves disk
    and log as the first call left them.  A file that exists is only read; a
    file that had to be created yields [SELECT * FROM dual]. *)
Theorem read_sql_from_file_settles (path : string) (s : State) :
  (forall content, fs s !! path = Some content -> plain_text content) ->
  exists sql s1,
    read_sql_from_file path s = (Ok sql, s1)
    /\ read_sql_from_file path s1 = (Ok sql, s1)
    /\ (fs s !! path <> None -> s1 = s)
    /\ (fs s !! path = None -> sql = "SELECT * FROM dual").
Proof. intros _. apply read_sql_from_file_returns. Qed.

Lemma read_sql_from_file_settles_witness :
  exists s1,
    read_sql_from_file "params.txt" (initial_state demo_files ∅)
    = (Ok demo_sql, s1)
    /\ read_sql_from_file "params.txt" s1 = (Ok demo_sql, s1).
Proof.
  destruct (read_sql_from_file_settles "params.txt" (initial_state demo_files ∅))
    as (sql & s1 & H1 & H2 & _ & _).
  - intros content [= <-]. split; vm_compute; reflexivity.
  - exists s1.
    assert (E : sql = demo_sql)
      by (assert (E0 : fst (read_sql_from_file "params.txt" (initial_state demo_files ∅))
                       = Ok demo_sql) by (vm_compute; reflexivity);
          rewrite H1 in E0; cbn [fst] in E0; congruence).
    subst sql. split; assumption.
Defined.

Lemma main_ends_how (env : Env) (files : gmap string string) (xlsx : gmap string Sheet) :
  let x := main env (initial_state files xlsx) in
  at_most_one_open (trace (snd x))
  /\ ((all_released (trace (snd x))
       /\ escapes_only_by_exit_or_handler (fst x) (snd x))
      \/ (exists e, fst x = Err e /\ open_connections (trace (snd x)) = 1)).
Proof.
  intros x. split; [apply never_two_open|]. subst x. unfold main.
  destruct (read_sql_from_file_returns "params.txt" (initial_state files xlsx))
    as (sql & s1 & Hread & _).
  pose proof (keeps_read_sql_from_file "params.txt" (initial_state files xlsx)) as Hres.
  rewrite Hread in Hres. cbn [snd] in Hres.
  rewrite (bind_Ok _ _ _ _ _ Hread).
  unfold execute_query_and_export_to_excel, try_finally.
  pose proof (try_except_handlers_resources env sql s1 Hres) as Hsafe.
  pose proof (handlers_outcome (try_block env sql) s1) as Hout.
  destruct (try_except (try_block env sql) handlers s1) as [r s2].
  destruct (finally_block_ends env r s2 Hsafe) as [_ Hend].
  pose proof (finally_block_frame env s2) as (_ & _ & _ & _ & Hc & Hr).
  unfold cleaned_up in Hend. cbn [fst snd] in *.
  destruct (finally_block env s2) as [[[]|e] s3]; cbn [fst snd] in *.
  - left. destruct Hend as [[_ Hrel] | (e & He & _)]; [|discriminate].
    split; [exact Hrel|].
    unfold escapes_only_by_exit_or_handler in *. rewrite Hc, Hr. exact Hout.
  - right. exists e. split; [reflexivity|].
    destruct Hend as [[He _] | (e' & _ & Hopen)]; [discriminate | exact Hopen].
Qed.

(** X2: how a run can end, whatever the environment does.  With
    [params.txt] and [database.txt] holding plain text (or missing), [main]
    ends in one of four ways.  It returns, or leaves through [SystemExit], or
    leaves through the [UnboundLocalError] of its own last [except] clause
    (and then [columns] or [row] was not bound): in these three cases the
    cursor and the connection are closed.  Or [cursor.close()] or
    [connection.close()] raised in the [finally] block: then that exception
    leaves the function and the connection is still open.  No
    [DatabaseError], [ValueError] or other exception of the [try] block gets
    out by itself, and never more than one connection and one cursor are
    open. *)
Theorem main_outcomes (env : Env) (files : gmap string string) (xlsx : gmap string Sheet) :
  readable files ->
  let x := main env (initial_state files xlsx) in
  at_most_one_open (trace (snd x))
  /\ ((all_released (trace (snd x))
       /\ escapes_only_by_exit_or_handler (fst x) (snd x))
      \/ (exists e, fst x = Err e /\ open_connections (trace (snd x)) = 1)).
Proof. intros _. exact (main_ends_how env files xlsx). Qed.

Lemma demo_files_readable : readable demo_files.
Proof.
  intros path content [-> | ->] H; vm_compute in H; injection H as <-;
    split; vm_compute; reflexivity.
Qed.

Lemma main_outcomes_witness :
  exists e st,
    main lost_env (initial_state demo_files ∅) = (Err e, st)
    /\ open_connections (trace st) = 1
    /\ at_most_one_open (trace st).
Proof.
  destruct (main_outcomes lost_env demo_files ∅ demo_files_readable)
    as [Hone [[Hrel _] | (e & He & Hopen)]].
  - exfalso. destruct Hrel as [Hrel _]. vm_compute in Hrel. discriminate.
  - exists e, (snd (main lost_env (initial_state demo_files ∅))).
    split; [|split; [exact Hopen | exact Hone]].
    rewrite <- He. destruct (main lost_env (initial_state demo_files ∅)); reflexivity.
Defined.

(** ** Failures before and during the export *)

Lemma try_block_connects (env : Env) (files : gmap string string) (sql : string)
    (xlsx : gmap string Sheet) :
  Connects env files ->
  try_block env sql (initial_state files xlsx)
  = after_connect env sql (connected files xlsx).
Proof.
  intros [Hcl (cfg & Hcfg & [u Hu] & [p Hp] & [d Hd]) Hconn Hdrv].
  unfold try_block, initial_state, connected, after_connect.
  mstep ltac:(unfold init_oracle_client; rewrite Hcl; reflexivity).
  mstep ltac:(reflexivity).
  mstep ltac:(unfold read_db_config, bind, get; cbn [fs]; rewrite Hcfg; reflexivity).
  mstep ltac:(unfold getitem; rewrite Hu; reflexivity).
  mstep ltac:(unfold getitem; rewrite Hp; reflexivity).
  mstep ltac:(unfold getitem; rewrite Hd; reflexivity).
  mstep ltac:(unfold oracledb_connect; rewrite Hconn; reflexivity).
  mstep ltac:(reflexivity).
  mstep ltac:(mcompute).
  mstep ltac:(reflexivity).
  reflexivity.
Qed.

Lemma after_connect_counts (env : Env) (files : gmap string string) (sql : string)
    (total : Z) (xlsx : gmap string Sheet) :
  Counts env files sql total ->
  after_connect env sql (connected files xlsx)
  = (if (total <=? 500000)%Z then export_single env sql
     else export_chunks env 200000 (PInt total) sql) (at_decision files total xlsx).
Proof.
  intros [_ [k Hparse] [cd Hcount]].
  unfold after_connect, connected, at_decision.
  mstep ltac:(unfold validate_sql, try_except, bind, lift; rewrite Hparse; reflexivity).
  mstep ltac:(unfold cursor_execute, bind, lift; rewrite Hcount; mcompute).
  mstep ltac:(reflexivity).
  mstep ltac:(reflexivity).
  mstep ltac:(reflexivity).
  mstep ltac:(reflexivity).
  simpl. destruct (total <=? 500000)%Z; reflexivity.
Qed.

(** The function once the [try] block has ended with a [DatabaseError] or a
    [ValueError] in one of the connected situations. *)
Lemma execute_caught (env : Env) (sql : string) (s : State) (e : exn) (s' : State)
    (entry : log_entry) (tr : list event) :
  resources s' = res_idle \/ reliable_driver env ->
  try_block env sql s = (Err e, s') ->
  (e = DatabaseError /\ entry = ErrorDatabase e \/ e = ValueError /\ entry = ErrorValue e) ->
  (resources s' = res_idle /\ tr = []
   \/ resources s' = res_counting /\ tr = short_trace
   \/ resources s' = res_exporting /\ tr = full_trace) ->
  exists st,
    execute_query_and_export_to_excel env sql s = (Ok tt, st)
    /\ log st = log s' ++ [entry]
    /\ written st = written s' /\ sheets st = sheets s' /\ fs st = fs s'
    /\ trace st = tr.
Proof.
  intros Hdrv Hrun He Hres.
  unfold execute_query_and_export_to_excel, try_finally, try_except. rewrite Hrun.
  assert (Hh : handlers e = Some (logging entry)).
  { destruct He as [[-> ->] | [-> ->]]; reflexivity. }
  rewrite Hh. unfold logging at 1, modify.
  match goal with |- context [finally_block env ?s2] =>
    pose proof (finally_block_frame env s2) as (Hf & Hsh & Hw & Hl & _);
    assert (Hr2 : resources s2 = resources s') by reflexivity
  end.
  cbn [fs sheets written log] in Hf, Hsh, Hw, Hl.
  assert (Hdrv' : resources s' <> res_idle -> reliable_driver env)
    by (destruct Hdrv as [Hi | Hd]; [contradiction | intros _; exact Hd]).
  clear Hdrv.
  destruct Hres as [[Hr ->] | [[Hr ->] | [Hr ->]]]; rewrite Hr in Hr2, Hdrv';
    try (assert (Hdrv : reliable_driver env) by (apply Hdrv'; discriminate)).
  - rewrite (finally_block_idle env _ Hr2) in *. eexists. split; [reflexivity|].
    cbn [snd log written sheets fs trace]. repeat apply conj; try reflexivity.
    unfold resources, res_idle in Hr. congruence.
  - destruct (finally_block_counting env _ Hdrv Hr2) as (s3 & Hfin & Ht).
    rewrite Hfin in *. cbn [snd] in *. exists s3. repeat apply conj; auto.
  - destruct (finally_block_exporting env _ Hdrv Hr2) as (s3 & Hfin & Ht).
    rewrite Hfin in *. cbn [snd] in *. exists s3. repeat apply conj; auto.
Qed.

(** X3: a query that [sqlparse] splits into no statement at all is refused
    before it reaches the database.  [validate_sql] logs the failure and
    raises [ValueError] again, the function logs it a second time under its
    own heading and returns; the cursor and the connection are closed, no
    row count is logged and no file is written. *)
Theorem unparsed_query_is_refused (env : Env) (files : gmap string string) (sql : string)
    (xlsx : gmap string Sheet) :
  Connects env files ->
  sqlparse_parse env sql = Ok 0 ->
  exists st,
    execute_query_and_export_to_excel env sql (initial_state files xlsx) = (Ok tt, st)
    /\ log st = [InfoClientInit; ErrorValidate ValueError; ErrorValue ValueError]
    /\ trace st = short_trace
    /\ written st = [] /\ sheets st = xlsx.
Proof.
  intros Hcon Hparse.
  destruct (execute_caught env sql (initial_state files xlsx) ValueError
              (mkState files xlsx [] [InfoClientInit; ErrorValidate ValueError]
                 [EvConnect; EvOpenCursor 0] true (Some 0) None None)
              (ErrorValue ValueError) short_trace (or_intror (con_driver _ _ Hcon)))
    as (st & Hrun & Hl & Hw & Hsh & _ & Ht).
  - rewrite (try_block_connects env files sql xlsx Hcon).
    unfold after_connect, connected.
    erewrite bind_Err; [reflexivity|].
    unfold validate_sql, try_except, bind, lift. rewrite Hparse. reflexivity.
  - right. split; reflexivity.
  - right. left. split; reflexivity.
  - exists st. repeat apply conj; assumption.
Qed.

Lemma connects_demo (env : Env) :
  init_client_error env = None ->
  (forall u p d, connect_error env u p d = None) ->
  reliable_driver env ->
  Connects env demo_files.
Proof.
  intros Hi Hc Hd. constructor; [exact Hi | | exact Hc | exact Hd].
  exists ("user=scott" +:+ nl +:+ "password=tiger" +:+ nl +:+ "dsn=db:1521/orcl" +:+ nl).
  split; [vm_compute; reflexivity|].
  repeat apply conj; eexists; vm_compute; reflexivity.
Qed.

Lemma unparsed_query_is_refused_witness :
  exists st,
    execute_query_and_export_to_excel unparsed_env "" (initial_state demo_files ∅)
    = (Ok tt, st)
    /\ log st = [InfoClientInit; ErrorValidate ValueError; ErrorValue ValueError]
    /\ trace st = short_trace.
Proof.
  destruct (unparsed_query_is_refused unparsed_env demo_files "" ∅)
    as (st & H1 & H2 & H3 & _).
  - apply connects_demo; [reflexivity | reflexivity | repeat split].
  - reflexivity.
  - exists st. repeat apply conj; assumption.
Defined.

(** X4: when the client library cannot be loaded the run stops there.  The
    [DatabaseError] is logged and the function returns; [database.txt] is
    not read, so a missing one is not created either, and the driver is
    never asked for a connection. *)
Theorem client_failure_stops_before_credentials (env : Env) (files : gmap string string)
    (sql : string) (xlsx : gmap string Sheet) :
  init_client_error env = Some DatabaseError ->
  exists st,
    execute_query_and_export_to_excel env sql (initial_state files xlsx) = (Ok tt, st)
    /\ log st = [ErrorDatabase DatabaseError]
    /\ fs st = files
    /\ trace st = []
    /\ written st = [].
Proof.
  intros Hinit.
  destruct (execute_caught env sql (initial_state files xlsx) DatabaseError
              (initial_state files xlsx) (ErrorDatabase DatabaseError) []
              (or_introl eq_refl))
    as (st & Hrun & Hl & Hw & _ & Hf & Ht).
  - unfold try_block. erewrite bind_Err; [reflexivity|].
    unfold init_oracle_client. rewrite Hinit. reflexivity.
  - left. split; reflexivity.
  - left. split; reflexivity.
  - exists st. repeat apply conj; assumption.
Qed.

Lemma client_failure_stops_before_credentials_witness :
  exists st,
    execute_query_and_export_to_excel
      (mkEnv (Some DatabaseError) (fun _ _ _ => None) (fun _ => Ok 1)
         (fun _ => Err DatabaseError) no_append_error no_excel_error
         (fun _ _ => Untouched) (fun _ => None) (fun _ _ => None) (fun _ => None))
      demo_sql (initial_state ∅ ∅) = (Ok tt, st)
    /\ fs st = ∅.
Proof.
  destruct (client_failure_stops_before_credentials
              (mkEnv (Some DatabaseError) (fun _ _ _ => None) (fun _ => Ok 1)
                 (fun _ => Err DatabaseError) no_append_error no_excel_error
         (fun _ _ => Untouched) (fun _ => None) (fun _ _ => None) (fun _ => None))
              ∅ demo_sql ∅ eq_refl) as (st & H1 & _ & H2 & _).
  exists st. split; assumption.
Defined.

(** X5: a [DatabaseError] raised by the driver is logged once and the
    function returns with cursor and connection closed and nothing written,
    whether it comes from [connect], from the count query, or from the query
    itself; only the last case has logged a row count before. *)
Theorem database_errors_are_contained (env : Env) (files : gmap string string)
    (sql : string) (xlsx : gmap string Sheet) :
  (init_client_error env = None ->
   (exists cfg, files !! "database.txt" = Some cfg
                /\ is_Some (parse_config cfg !! "user")
                /\ is_Some (parse_config cfg !! "password")
                /\ is_Some (parse_config cfg !! "dsn")) ->
   (forall u p d, connect_error env u p d = Some DatabaseError) ->
   exists st,
     execute_query_and_export_to_excel env sql (initial_state files xlsx) = (Ok tt, st)
     /\ log st = [InfoClientInit; ErrorDatabase DatabaseError]
     /\ trace st = [] /\ written st = [])
  /\ (Connects env files ->
      (exists k, sqlparse_parse env sql = Ok (S k)) ->
      db_execute env (count_sql sql) = Err DatabaseError ->
      exists st,
        execute_query_and_export_to_excel env sql (initial_state files xlsx) = (Ok tt, st)
        /\ log st = [InfoClientInit; ErrorDatabase DatabaseError]
        /\ trace st = short_trace /\ written st = [])
  /\ (forall total,
        Counts env files sql total ->
        db_execute env sql = Err DatabaseError ->
        exists st,
          execute_query_and_export_to_excel env sql (initial_state files xlsx) = (Ok tt, st)
          /\ log st = [InfoClientInit; InfoTotalRows (PInt total); ErrorDatabase DatabaseError]
          /\ trace st = full_trace /\ written st = []).
Proof.
  split; [|split].
  - intros Hcl (cfg & Hcfg & [u Hu] & [p Hp] & [d Hd]) Hconn.
    destruct (execute_caught env sql (initial_state files xlsx) DatabaseError
                (mkState files xlsx [] [InfoClientInit] [] false None None None)
                (ErrorDatabase DatabaseError) [] (or_introl eq_refl))
      as (st & Hrun & Hl & Hw & _ & _ & Ht).
    + unfold try_block, initial_state.
      mstep ltac:(unfold init_oracle_client; rewrite Hcl; reflexivity).
      mstep ltac:(reflexivity).
      mstep ltac:(unfold read_db_config, bind, get; cbn [fs]; rewrite Hcfg; reflexivity).
      mstep ltac:(unfold getitem; rewrite Hu; reflexivity).
      mstep ltac:(unfold getitem; rewrite Hp; reflexivity).
      mstep ltac:(unfold getitem; rewrite Hd; reflexivity).
      erewrite bind_Err; [reflexivity|].
      unfold oracledb_connect. rewrite Hconn. reflexivity.
    + left. split; reflexivity.
    + left. split; reflexivity.
    + exists st. repeat apply conj; assumption.
  - intros Hcon [k Hparse] Hcount.
    destruct (execute_caught env sql (initial_state files xlsx) DatabaseError
                (connected files xlsx) (ErrorDatabase DatabaseError) short_trace
                (or_intror (con_driver _ _ Hcon)))
      as (st & Hrun & Hl & Hw & _ & _ & Ht).
    + rewrite (try_block_connects env files sql xlsx Hcon).
      unfold after_connect, connected.
      mstep ltac:(unfold validate_sql, try_except, bind, lift; rewrite Hparse; reflexivity).
      erewrite bind_Err; [reflexivity|].
      unfold cursor_execute, bind, lift. rewrite Hcount. mcompute.
    + left. split; reflexivity.
    + right. left. split; reflexivity.
    + exists st. repeat apply conj; assumption.
  - intros total Hcnt Hquery.
    destruct (execute_caught env sql (initial_state files xlsx) DatabaseError
                (mkState files xlsx [] [InfoClientInit; InfoTotalRows (PInt total)]
                   [EvConnect; EvOpenCursor 0; EvCloseCursor 0; EvOpenCursor 1]
                   true (Some 1) None None)
                (ErrorDatabase DatabaseError) full_trace
                (or_intror (con_driver _ _ (cnt_connects _ _ _ _ Hcnt))))
      as (st & Hrun & Hl & Hw & _ & _ & Ht).
    + rewrite (try_block_connects env files sql xlsx (cnt_connects _ _ _ _ Hcnt)).
      rewrite (after_connect_counts env files sql total xlsx Hcnt).
      unfold at_decision.
      destruct (total <=? 500000)%Z; [unfold export_single | unfold export_chunks, tqdm];
        (mstep ltac:(reflexivity);
         mstep ltac:(mcompute);
         mstep ltac:(mcompute);
         mstep ltac:(reflexivity);
         erewrite bind_Err; [reflexivity|];
         unfold cursor_execute, bind, lift; rewrite Hquery; mcompute).
    + left. split; reflexivity.
    + right. right. split; reflexivity.
    + exists st. repeat apply conj; assumption.
Qed.

Lemma database_errors_are_contained_witness :
  exists st,
    execute_query_and_export_to_excel refused_env demo_sql (initial_state demo_files ∅)
    = (Ok tt, st)
    /\ log st = [InfoClientInit; ErrorDatabase DatabaseError]
    /\ trace st = [].
Proof.
  pose proof (database_errors_are_contained refused_env demo_files demo_sql ∅)
    as (Hconnect & _ & _).
  destruct Hconnect as (st & H1 & H2 & H3 & _).
  - reflexivity.
  - exists ("user=scott" +:+ nl +:+ "password=tiger" +:+ nl +:+ "dsn=db:1521/orcl" +:+ nl).
    split; [vm_compute; reflexivity|].
    repeat apply conj; eexists; vm_compute; reflexivity.
  - reflexivity.
  - exists st. repeat apply conj; assumption.
Defined.

(** X6: a [database.txt] that lacks one of the keys [user], [password] and
    [dsn] ends the run with an exception.  The lookup raises [KeyError], the
    last [except] clause wants [columns] for its message, which is not bound
    yet, and its [UnboundLocalError] leaves the function: nothing but the
    client message is logged, and the driver is never asked for a
    connection. *)
Theorem missing_credential_key_escapes (env : Env) (files : gmap string string)
    (sql : string) (xlsx : gmap string Sheet) (cfg : string) :
  init_client_error env = None ->
  files !! "database.txt" = Some cfg ->
  (parse_config cfg !! "user" = None \/ parse_config cfg !! "password" = None
   \/ parse_config cfg !! "dsn" = None) ->
  exists st,
    execute_query_and_export_to_excel env sql (initial_state files xlsx)
    = (Err UnboundLocalError, st)
    /\ exit_status (Err UnboundLocalError) = 1%Z
    /\ log st = [InfoClientInit]
    /\ trace st = []
    /\ written st = [].
Proof.
  intros Hcl Hcfg Hmiss.
  assert (Hrun : try_block env sql (initial_state files xlsx)
                 = (Err KeyError,
                    mkState files xlsx [] [InfoClientInit] [] false None None None)).
  { unfold try_block, initial_state.
    mstep ltac:(unfold init_oracle_client; rewrite Hcl; reflexivity).
    mstep ltac:(reflexivity).
    mstep ltac:(unfold read_db_config, bind, get; cbn [fs]; rewrite Hcfg; reflexivity).
    destruct (parse_config cfg !! "user") as [u|] eqn:Hu.
    2:{ erewrite bind_Err; [reflexivity|]. unfold getitem. rewrite Hu. reflexivity. }
    mstep ltac:(unfold getitem; rewrite Hu; reflexivity).
    destruct (parse_config cfg !! "password") as [p|] eqn:Hp.
    2:{ erewrite bind_Err; [reflexivity|]. unfold getitem. rewrite Hp. reflexivity. }
    mstep ltac:(unfold getitem; rewrite Hp; reflexivity).
    destruct (parse_config cfg !! "dsn") as [d|] eqn:Hd.
    2:{ erewrite bind_Err; [reflexivity|]. unfold getitem. rewrite Hd. reflexivity. }
    exfalso. destruct Hmiss as [H | [H | H]]; discriminate. }
  eexists. split.
  - unfold execute_query_and_export_to_excel, try_finally, try_except.
    rewrite Hrun. reflexivity.
  - repeat apply conj; reflexivity.
Qed.

Lemma missing_credential_key_escapes_witness :
  exists st,
    execute_query_and_export_to_excel small_env demo_sql
      (initial_state {[ "database.txt" := "user=scott" +:+ nl +:+ "password=tiger" +:+ nl ]} ∅)
    = (Err UnboundLocalError, st)
    /\ trace st = [].
Proof.
  destruct (missing_credential_key_escapes small_env
              {[ "database.txt" := "user=scott" +:+ nl +:+ "password=tiger" +:+ nl ]}
              demo_sql ∅ ("user=scott" +:+ nl +:+ "password=tiger" +:+ nl))
    as (st & H1 & _ & _ & H2 & _).
  - reflexivity.
  - vm_compute. reflexivity.
  - right. right. vm_compute. reflexivity.
  - exists st. split; assumption.
Defined.

(** X7: when the cursor fails in the middle of the result, after delivering
    [data], multi-file mode keeps the full chunks it has written and loses
    the rows after the last full chunk: no trailing file is written, the
    error is logged and the function returns.  Single-file mode, which
    fetches everything first, writes nothing at all. *)
Theorem fetch_error_keeps_full_chunks (env : Env) (files : gmap string string)
    (sql : string) (columns : list string) (data : list Row) (total : Z)
    (xlsx : gmap string Sheet) :
  Counts env files sql total ->
  db_execute env sql = Ok (mkQuery columns data (Some DatabaseError)) ->
  NoDup columns ->
  Forall (fun r => length r = length columns) data ->
  (forall f sh, to_excel_error env f sh = None) ->
  (forall r e, append_error env r = Some e -> is_Exception e = true) ->
  exists st,
    execute_query_and_export_to_excel env sql (initial_state files xlsx) = (Ok tt, st)
    /\ last (log st) = Some (ErrorDatabase DatabaseError)
    /\ trace st = full_trace
    /\ written st
       = (if (total <=? 500000)%Z then []
          else full_files columns (Z.to_nat 200000) (survivors env data)).
Proof.
  intros Hcnt Hquery Hnd Hw Hexcel Happ.
  pose proof (try_block_connects env files sql xlsx (cnt_connects _ _ _ _ Hcnt)) as Htry.
  rewrite (after_connect_counts env files sql total xlsx Hcnt) in Htry.
  unfold at_decision in Htry.
  destruct (total <=? 500000)%Z.
  - destruct (execute_caught env sql (initial_state files xlsx) DatabaseError
                (mkState files xlsx [] [InfoClientInit; InfoTotalRows (PInt total)]
                   [EvConnect; EvOpenCursor 0; EvCloseCursor 0; EvOpenCursor 1]
                   true (Some 1) (Some columns) None)
                (ErrorDatabase DatabaseError) full_trace
                (or_intror (con_driver _ _ (cnt_connects _ _ _ _ Hcnt))))
      as (st & Hrun & Hl & Hwr & _ & _ & Ht).
    + rewrite Htry. unfold export_single.
      mstep ltac:(reflexivity).
      mstep ltac:(mcompute).
      mstep ltac:(mcompute).
      mstep ltac:(reflexivity).
      mstep ltac:(unfold cursor_execute, bind, lift; rewrite Hquery; mcompute).
      mstep ltac:(reflexivity).
      erewrite bind_Err; reflexivity.
    + left. split; reflexivity.
    + right. right. split; reflexivity.
    + exists st. split; [exact Hrun|]. rewrite Hl. cbn [log].
      repeat apply conj; [reflexivity | exact Ht | exact Hwr].
  - assert (Hloop : exists L s',
               try_block env sql (initial_state files xlsx) = (Err DatabaseError, s')
               /\ resources s' = res_exporting
               /\ log s' = [InfoClientInit; InfoTotalRows (PInt total)] ++ L
               /\ written s' = full_files columns (Z.to_nat 200000) (survivors env data)).
    { rewrite Htry. unfold export_chunks, tqdm.
      mstep ltac:(reflexivity).
      mstep ltac:(mcompute).
      mstep ltac:(mcompute).
      mstep ltac:(reflexivity).
      mstep ltac:(unfold cursor_execute, bind, lift; rewrite Hquery; mcompute).
      mstep ltac:(reflexivity).
      mstep ltac:(reflexivity).
      match goal with |- context [@bind _ _ (for_each data _ _) _ ?s] =>
        destruct (accumulate_loop env columns 200000 ltac:(lia) Hnd Hexcel Happ data s Hw)
          as (L & Hrun & _)
      end.
      cbn [fs sheets written log trace v_connection v_cursor v_columns v_row app] in Hrun.
      mstep ltac:(exact Hrun).
      exists L. eexists. split; [reflexivity|]. repeat apply conj; reflexivity. }
    destruct Hloop as (L & s' & Hrun & Hres & Hlog & Hwr).
    destruct (execute_caught env sql (initial_state files xlsx) DatabaseError s'
                (ErrorDatabase DatabaseError) full_trace
                (or_intror (con_driver _ _ (cnt_connects _ _ _ _ Hcnt))) Hrun)
      as (st & Hexec & Hl & Hwr' & _ & _ & Ht).
    + left. split; reflexivity.
    + right. right. split; [exact Hres | reflexivity].
    + exists st. split; [exact Hexec|]. rewrite Hl, Hwr', Hwr.
      repeat apply conj; [apply last_snoc | exact Ht | reflexivity].
Qed.

(** A stream of two rows that breaks after the second, chunked in multi-file
    mode because the count query announced 600 000 rows. *)
Lemma fetch_error_keeps_full_chunks_witness :
  exists st,
    execute_query_and_export_to_excel
      (demo_env 600000 (mkQuery ["NAME"; "AGE"] small_data (Some DatabaseError))
         no_append_error no_excel_error)
      demo_sql (initial_state demo_files ∅) = (Ok tt, st)
    /\ written st = [].
Proof.
  destruct (fetch_error_keeps_full_chunks
              (demo_env 600000 (mkQuery ["NAME"; "AGE"] small_data (Some DatabaseError))
                 no_append_error no_excel_error)
              demo_files demo_sql ["NAME"; "AGE"] small_data 600000 ∅)
    as (st & H1 & _ & _ & H2).
  - constructor.
    + apply connects_demo; [reflexivity | reflexivity | repeat split].
    + exists 0. reflexivity.
    + eexists. vm_compute. reflexivity.
  - vm_compute. reflexivity.
  - compute_done.
  - repeat constructor.
  - reflexivity.
  - discriminate.
  - exists st. split; [exact H1|]. rewrite H2. reflexivity.
Defined.

(** X8: the count only selects the mode.  When multi-file mode then meets
    fewer than 200 000 accepted rows, everything goes through the
    trailing-chunk path into the single file [output_001.xlsx]; when it
    meets no accepted row it writes no file at all (single-file mode writes
    a header-only file for an empty result). *)
Theorem short_stream_in_multi_file_mode (env : Env) (files : gmap string string)
    (sql : string) (columns : list string) (data : list Row) (total : Z)
    (xlsx : gmap string Sheet) :
  Nominal env files sql columns data total ->
  (500000 < total)%Z ->
  (Z.of_nat (length (survivors env data)) < 200000)%Z ->
  exists st,
    main env (initial_state files xlsx) = (Ok tt, st)
    /\ written st
       = match survivors env data with
         | [] => []
         | _ => [("output_001.xlsx", sheet_via sanitize_rest columns (survivors env data))]
         end.
Proof.
  intros Hnom Hbig Hshort.
  destruct (main_multi_file env files sql columns data total Hnom xlsx Hbig)
    as (L & Hrun & _).
  eexists. split; [exact Hrun|]. cbn [written].
  set (sv := survivors env data) in *. set (c := Z.to_nat 200000).
  assert (Hlt : length sv < c) by (subst c; lia). clearbody c.
  unfold chunk_files, full_files, rest_file.
  rewrite (Nat.div_small _ _ Hlt), (Nat.mod_small _ _ Hlt). cbn [seq map app Nat.mul drop].
  destruct sv as [|r sv']; reflexivity.
Qed.

Lemma short_stream_in_multi_file_mode_witness :
  exists st,
    main (demo_env 600000 (mkQuery ["NAME"; "AGE"] small_data None)
            no_append_error no_excel_error)
      (initial_state demo_files ∅) = (Ok tt, st)
    /\ written st
       = [("output_001.xlsx",
           mkSheet ["NAME"; "AGE"] [[PStr "a"; PInt 1]; [PStr ""; PInt 0]])].
Proof.
  destruct (short_stream_in_multi_file_mode
              (demo_env 600000 (mkQuery ["NAME"; "AGE"] small_data None)
                 no_append_error no_excel_error)
              demo_files demo_sql ["NAME"; "AGE"] small_data 600000 ∅)
    as (st & H1 & H2).
  - apply demo_nominal; [compute_done | repeat constructor | discriminate].
  - lia.
  - vm_compute. reflexivity.
  - exists st. split; [exact H1|]. rewrite H2. vm_compute. reflexivity.
Defined.

(** ** What ends up in a sheet *)

Ltac exact_cells :=
  repeat first [ apply Forall_nil_2 | apply Forall_cons_2 | exact I
               | (unfold exact_int; lia) ].

(** X9: what a sheet holds, cell by cell.  For rows of the right width under
    distinct labels whose integers are at most 2^53 in absolute value,
    single-file mode and a full chunk write, in row [i] and column [j], the
    fetched value [v] as [str(v)] without U+001F when the column is inferred
    [object] from this chunk, and as [v] with 0 for a missing value when it
    is inferred numeric; the trailing chunk writes text without U+001F,
    integers as they are, and for a missing value the empty text or 0 by the
    same inference.  Rows and columns keep their order. *)
Theorem sheet_contents (columns : list string) (chunk : list Row) :
  NoDup columns ->
  Forall (fun r => length r = length columns) chunk ->
  exact_rows chunk ->
  sheet_via sanitize_single columns chunk
  = mkSheet columns (export_rows export_cell columns chunk)
  /\ sheet_via sanitize_chunk columns chunk
     = mkSheet columns (export_rows export_cell columns chunk)
  /\ sheet_via sanitize_rest columns chunk
     = mkSheet columns (export_rows export_cell_rest columns chunk).
Proof. intros Hnd Hw _. exact (sheet_via_cells columns chunk Hnd Hw). Qed.

Lemma sheet_contents_witness :
  sheet_via sanitize_chunk ["NAME"; "AGE"] small_data
  = mkSheet ["NAME"; "AGE"] [[PStr "a"; PInt 1]; [PStr "None"; PInt 0]]
  /\ sheet_via sanitize_rest ["NAME"; "AGE"] small_data
     = mkSheet ["NAME"; "AGE"] [[PStr "a"; PInt 1]; [PStr ""; PInt 0]].
Proof.
  destruct (sheet_contents ["NAME"; "AGE"] small_data) as (_ & H2 & H3).
  - compute_done.
  - repeat constructor.
  - unfold exact_rows, small_data. exact_cells.
  - split; [rewrite H2 | rewrite H3]; reflexivity.
Defined.

Lemma infer_numeric_no_text (col : list pyval) (t : string) :
  infer_dtype col = numeric -> In (PStr t) col -> False.
Proof.
  unfold infer_dtype. intros Hd Hin.
  assert (Hs : existsb isinstance_str col = true).
  { apply existsb_exists. exists (PStr t). split; [assumption | reflexivity]. }
  rewrite Hs in Hd. discriminate.
Qed.

Lemma export_cell_clean (col : list pyval) (v : pyval) :
  In v col -> clean (export_cell col v).
Proof.
  intros Hin. unfold export_cell, clean.
  destruct (infer_dtype col) eqn:Hd.
  - split; [reflexivity|]. intros t [= <-]. apply replace_x1f_count.
  - destruct v as [| |t|z]; cbn; (split; [reflexivity|]); try discriminate.
    intros t' _. exfalso. exact (infer_numeric_no_text col t Hd Hin).
Qed.

Lemma export_cell_rest_clean (col : list pyval) (v : pyval) :
  clean (export_cell_rest col v).
Proof.
  unfold export_cell_rest, clean.
  destruct v as [| |t|z]; [destruct (infer_dtype col) .. | | ]; cbn;
    (split; [reflexivity|]); try discriminate.
  - intros t' [= <-]. reflexivity.
  - intros t' [= <-]. reflexivity.
  - intros t' [= <-]. apply replace_x1f_count.
Qed.

Lemma export_rows_clean (out : list pyval -> pyval -> pyval)
    (columns : list string) (chunk : list Row) :
  (forall col v, In v col -> clean (out col v)) ->
  Forall (Forall clean) (export_rows out columns chunk).
Proof.
  intros Hout. unfold export_rows.
  apply List.Forall_forall. intros row Hrow.
  apply in_map_iff in Hrow. destruct Hrow as (r & <- & Hr).
  apply List.Forall_forall. intros v Hv.
  apply in_map_iff in Hv. destruct Hv as (j & <- & _).
  apply Hout. unfold column_of.
  apply in_map_iff. exists r. split; [reflexivity | assumption].
Qed.

(** X10: nothing missing and no U+001F reaches a sheet.  For rows of the
    right width under distinct labels, every cell that single-file mode, a
    full chunk or the trailing chunk writes is neither [None] nor [nan], and
    if it is text it holds no U+001F. *)
Theorem sheets_are_clean (columns : list string) (chunk : list Row) :
  NoDup columns ->
  Forall (fun r => length r = length columns) chunk ->
  clean_sheet (sheet_via sanitize_single columns chunk)
  /\ clean_sheet (sheet_via sanitize_chunk columns chunk)
  /\ clean_sheet (sheet_via sanitize_rest columns chunk).
Proof.
  intros Hnd Hw.
  destruct (sheet_via_cells columns chunk Hnd Hw) as (-> & -> & ->).
  unfold clean_sheet. cbn [body].
  repeat apply conj.
  - apply export_rows_clean, export_cell_clean.
  - apply export_rows_clean, export_cell_clean.
  - apply export_rows_clean. intros col v _. apply export_cell_rest_clean.
Qed.

Lemma sheets_are_clean_witness :
  clean_sheet (sheet_via sanitize_chunk ["NAME"; "AGE"] small_data)
  /\ clean_sheet (sheet_via sanitize_rest ["NAME"; "AGE"] small_data).
Proof.
  destruct (sheets_are_clean ["NAME"; "AGE"] small_data) as (_ & H2 & H3).
  - compute_done.
  - repeat constructor.
  - exact (conj H2 H3).
Defined.

(** ** Sanitising twice *)

Lemma strip_column_twice (s : Series) :
  fillna_series (strip_column (fillna_series (strip_column s)))
  = fillna_series (strip_column s).
Proof.
  destruct s as [d vs]. destruct d.
  - unfold strip_column, str_replace, astype_str, fillna_series, fill_value.
    cbn [dtype_of values]. f_equal. rewrite !map_map. apply map_ext. intros v.
    cbn. rewrite (replace_x1f_clean (replace_x1f (py_str v))) by apply replace_x1f_count.
    reflexivity.
  - unfold strip_column. cbn [dtype_of fillna_series].
    change (strip_column (fillna_series {| dtype_of := numeric; values := vs |}))
      with (fillna_series {| dtype_of := numeric; values := vs |}).
    apply fillna_series_idem.
Qed.

Lemma rest_series (vs : list pyval) :
  fillna_series (make_series (map strip_if_str vs))
  = mkSeries (infer_dtype vs) (map (rest_out (infer_dtype vs)) vs).
Proof.
  unfold make_series. rewrite infer_dtype_strip.
  unfold fillna_series, fill_value. cbn [dtype_of values]. f_equal.
  rewrite !map_map. apply map_ext. intros v.
  destruct (infer_dtype vs), v; reflexivity.
Qed.

Lemma existsb_str_rest_out (d : dtype) (vs : list pyval) :
  existsb isinstance_str (map (rest_out d) vs)
  = existsb isinstance_str vs
    || match d with object => existsb isna vs | numeric => false end.
Proof.
  induction vs as [|v vs IH]; [destruct d; reflexivity|].
  cbn [map existsb]. rewrite IH.
  destruct d, v; cbn;
    repeat match goal with |- context [existsb ?f ?l] => destruct (existsb f l) end;
    reflexivity.
Qed.

Lemma existsb_number_rest_out (vs : list pyval) :
  existsb is_number vs = true ->
  existsb is_number (map (rest_out numeric) vs) = true.
Proof.
  intros H. apply existsb_exists in H. destruct H as (v & Hin & Hv).
  apply existsb_exists. exists (rest_out numeric v).
  split; [apply in_map; assumption | destruct v; try discriminate; reflexivity].
Qed.

Lemma existsb_number_rest_out_object (vs : list pyval) :
  existsb is_number vs = false ->
  existsb is_number (map (rest_out object) vs) = false.
Proof.
  induction vs as [|v vs IH]; [reflexivity|].
  cbn [map existsb]. intros H. apply orb_false_iff in H. destruct H as [Hv Hvs].
  rewrite (IH Hvs). destruct v; try discriminate; reflexivity.
Qed.

Lemma infer_rest_out (vs : list pyval) :
  infer_dtype (map (rest_out (infer_dtype vs)) vs) = infer_dtype vs.
Proof.
  unfold infer_dtype at 1. rewrite existsb_str_rest_out.
  unfold infer_dtype.
  destruct (existsb isinstance_str vs) eqn:Hs; [reflexivity|].
  destruct (existsb is_number vs) eqn:Hn.
  - cbn [orb]. rewrite (existsb_number_rest_out vs Hn). reflexivity.
  - cbn [orb]. rewrite (existsb_number_rest_out_object vs Hn).
    destruct (existsb isna vs); reflexivity.
Qed.

Lemma rest_out_twice (d : dtype) (v : pyval) : rest_out d (rest_out d v) = rest_out d v.
Proof.
  destruct d, v; cbn; try reflexivity;
    rewrite (replace_x1f_clean (replace_x1f _)) by apply replace_x1f_count; reflexivity.
Qed.

Lemma rest_series_twice (s : Series) :
  fillna_series (make_series (map strip_if_str
    (values (fillna_series (make_series (map strip_if_str (values s)))))))
  = fillna_series (make_series (map strip_if_str (values s))).
Proof.
  rewrite (rest_series (values s)). cbn [values].
  rewrite rest_series, infer_rest_out. f_equal.
  rewrite map_map. apply map_ext. intros v. apply rest_out_twice.
Qed.

Lemma sanitize_chunk_twice (df df' : DataFrame) :
  sanitize_chunk df = Ok df' -> sanitize_chunk df' = Ok df'.
Proof.
  unfold sanitize_chunk.
  destruct (has_duplicate_label (df_columns df)) eqn:Hd; [discriminate|].
  intros [= <-]. unfold fillna. cbn [df_columns df_nrows df_data]. rewrite Hd.
  do 2 f_equal. rewrite !map_map. apply map_ext. intros s. apply strip_column_twice.
Qed.

Lemma sanitize_rest_twice (df df' : DataFrame) :
  sanitize_rest df = Ok df' -> sanitize_rest df' = Ok df'.
Proof.
  unfold sanitize_rest. cbn [applymap df_columns].
  destruct (has_duplicate_label (df_columns df)) eqn:Hd; [discriminate|].
  intros [= <-]. unfold fillna, applymap. cbn [df_columns df_nrows df_data]. rewrite Hd.
  do 2 f_equal. rewrite !map_map. apply map_ext. intros s. apply rest_series_twice.
Qed.

(** X11: each of the three sanitising passes is idempotent.  If a pass
    returns a frame, the same pass on that frame returns it unchanged:
    text is already free of U+001F, nothing is left to fill, and no column
    changes its dtype. *)
Theorem sanitizing_twice (sanitize : DataFrame -> result DataFrame) (df df' : DataFrame) :
  In sanitize [sanitize_single; sanitize_chunk; sanitize_rest] ->
  sanitize df = Ok df' ->
  sanitize df' = Ok df'.
Proof.
  intros [<- | [<- | [<- | []]]].
  - rewrite !sanitize_single_chunk. apply sanitize_chunk_twice.
  - apply sanitize_chunk_twice.
  - apply sanitize_rest_twice.
Qed.

Lemma sanitizing_twice_witness :
  exists df df',
    pd_DataFrame small_data ["NAME"; "AGE"] = Ok df
    /\ sanitize_rest df = Ok df'
    /\ sanitize_rest df' = Ok df'.
Proof.
  eexists. eexists. split; [reflexivity|].
  assert (H : sanitize_rest
                {| df_columns := ["NAME"; "AGE"]; df_nrows := 2;
                   df_data := [make_series [PStr "a"; PNone];
                               make_series [PInt 1; PNone]] |}
              = Ok {| df_columns := ["NAME"; "AGE"]; df_nrows := 2;
                      df_data := [mkSeries object [PStr "a"; PStr ""];
                                  mkSeries numeric [PInt 1; PInt 0]] |})
    by (vm_compute; reflexivity).
  split; [exact H|].
  apply (sanitizing_twice sanitize_rest _ _ ltac:(cbn; tauto) H).
Defined.

(** ** Reading the credential file *)

Lemma string_app_cons (c : ascii) (s t : string) :
  String c s +:+ t = String c (s +:+ t).
Proof. reflexivity. Qed.

Lemma string_app_nil_l (t : string) : EmptyString +:+ t = t.
Proof. reflexivity. Qed.

Lemma string_app_nil_r (s : string) : s +:+ EmptyString = s.
Proof.
  induction s as [|c s IH]; [reflexivity|].
  rewrite string_app_cons, IH. reflexivity.
Qed.

Lemma string_app_assoc (s t u : string) : (s +:+ t) +:+ u = s +:+ (t +:+ u).
Proof.
  induction s as [|c s IH]; [reflexivity|].
  rewrite !string_app_cons, IH. reflexivity.
Qed.

Lemma rev_app_append (s t : string) :
  String.rev_app s t = String.rev_app s EmptyString +:+ t.
Proof.
  revert t. induction s as [|a s IH]; intros t; [reflexivity|].
  cbn [String.rev_app]. rewrite (IH (String a t)), (IH (String a EmptyString)).
  rewrite string_app_assoc, string_app_cons, string_app_nil_l. reflexivity.
Qed.

Lemma split_lines_aux_line (l rest cur : string) :
  lacks "010"%char l = true ->
  split_lines_aux cur (l +:+ (nl +:+ rest))
  = (String.rev cur +:+ l) :: split_lines_aux EmptyString rest.
Proof.
  revert cur. induction l as [|c l IH]; intros cur Hl.
  - unfold nl. rewrite string_app_nil_l, string_app_cons, string_app_nil_l.
    cbn [split_lines_aux]. rewrite Ascii.eqb_refl, string_app_nil_r. reflexivity.
  - cbn [lacks] in Hl. apply andb_true_iff in Hl. destruct Hl as [Hc Hl].
    apply negb_true_iff in Hc.
    rewrite string_app_cons. cbn [split_lines_aux]. rewrite Hc.
    rewrite (IH (String c cur) Hl).
    unfold String.rev. cbn [String.rev_app].
    rewrite (rev_app_append cur (String c EmptyString)).
    rewrite string_app_assoc, string_app_cons, string_app_nil_l. reflexivity.
Qed.

Lemma split_lines_render (kvs : list (string * string)) :
  Forall (fun kv => lacks "010"%char (config_line kv) = true) kvs ->
  split_lines (render_config kvs) = map config_line kvs.
Proof.
  unfold split_lines. induction 1 as [|kv kvs Hkv _ IH]; [reflexivity|].
  cbn [render_config foldr map].
  rewrite (split_lines_aux_line _ _ EmptyString Hkv).
  change (String.rev EmptyString) with EmptyString.
  rewrite string_app_nil_l. f_equal. exact IH.
Qed.

Lemma split_eq_line (k v : string) :
  lacks "="%char k = true -> split_eq (k +:+ ("=" +:+ v)) = Some (k, v).
Proof.
  induction k as [|c k IH]; intros Hk; [reflexivity|].
  cbn [lacks] in Hk. apply andb_true_iff in Hk. destruct Hk as [Hc Hk].
  apply negb_true_iff in Hc.
  rewrite string_app_cons. cbn [split_eq]. rewrite Hc, (IH Hk). reflexivity.
Qed.

Lemma parse_config_render (kvs : list (string * string)) :
  Forall config_entry kvs ->
  parse_config (render_config kvs) = list_to_map (reverse kvs).
Proof.
  intros Hall. unfold parse_config.
  rewrite split_lines_render
    by (eapply Forall_impl; [exact Hall | intros kv Hkv; exact (proj1 (proj2 Hkv))]).
  induction kvs as [|kv kvs IH] using rev_ind; [reflexivity|].
  apply Forall_app in Hall. destruct Hall as [Hkvs Hkv].
  apply List.Forall_inv in Hkv. unfold config_entry in Hkv.
  destruct Hkv as (Hk & _ & _ & _ & Hs).
  rewrite map_app. cbn [map]. rewrite foldl_snoc, (IH Hkvs), reverse_snoc.
  rewrite Hs. destruct kv as [k v]. unfold config_line. cbn [fst snd] in *.
  rewrite (split_eq_line k v Hk). reflexivity.
Qed.

(** X12: a credential file of [key=value] lines is read back as written.
    If [database.txt] holds one entry per line, each with no ['='] in its
    key, no line end, ASCII only and no white space at the ends of the line, then
    [read_db_config] returns exactly these entries and changes nothing; the
    value is everything after the first ['='], and of two entries with the
    same key the later one wins. *)
Theorem read_db_config_reads_entries (kvs : list (string * string)) (st : State) :
  fs st !! "database.txt" = Some (render_config kvs) ->
  Forall config_entry kvs ->
  read_db_config st = (Ok (list_to_map (reverse kvs)), st).
Proof.
  intros Hfile Hall. unfold read_db_config, bind, get. cbn [fst snd].
  rewrite Hfile. unfold ret. rewrite (parse_config_render kvs Hall). reflexivity.
Qed.

Lemma read_db_config_reads_entries_witness :
  let kvs := [("user", "scott"); ("dsn", "db:1521/orcl?a=b"); ("password", "x");
              ("password", "tiger")] in
  let st := connected {["database.txt" := render_config kvs]} ∅ in
  exists config,
    read_db_config st = (Ok config, st)
    /\ config !! "user" = Some "scott"
    /\ config !! "password" = Some "tiger"
    /\ config !! "dsn" = Some "db:1521/orcl?a=b".
Proof.
  intros kvs st. exists (list_to_map (reverse kvs)). split.
  - apply (read_db_config_reads_entries kvs st).
    + reflexivity.
    + repeat constructor.
  - repeat apply conj; reflexivity.
Defined.

(** ** The numbered files on the disk *)

Lemma counter_of_zeros (n : nat) (s : string) :
  counter_of (zeros n +:+ s) = counter_of s.
Proof.
  induction n as [|n IH]; [reflexivity|].
  cbn [zeros]. rewrite string_app_cons. rewrite <- IH.
  unfold counter_of. cbn [NilEmpty.uint_of_string].
  destruct (NilEmpty.uint_of_string (zeros n +:+ s)); reflexivity.
Qed.

Lemma counter_of_digits (k : Z) :
  (0 <= k)%Z -> counter_of (NilZero.string_of_int (Z.to_int k)) = Some k.
Proof.
  intros Hk. destruct k as [|p|p]; [reflexivity| |lia].
  pose proof (DecimalZ.of_to (Z.pos p)) as Hp.
  cbn [Z.to_int NilZero.string_of_int] in *.
  unfold counter_of.
  destruct (Pos.to_uint p) as [|u|u|u|u|u|u|u|u|u|u] eqn:Hu;
    [discriminate Hp | ..];
    cbn [NilZero.string_of_uint]; rewrite NilEmpty.usu; cbn [option_map];
    f_equal; exact Hp.
Qed.

Lemma counter_of_format_03d (k : Z) :
  (0 <= k)%Z -> counter_of (format_03d k) = Some k.
Proof.
  intros Hk. unfold format_03d.
  destruct (Z.ltb_spec k 0); [lia|].
  rewrite Z.abs_eq by assumption.
  rewrite counter_of_zeros. apply counter_of_digits. assumption.
Qed.

Lemma format_03d_inj (i j : Z) :
  (0 <= i)%Z -> (0 <= j)%Z -> format_03d i = format_03d j -> i = j.
Proof.
  intros Hi Hj H.
  assert (E : Some i = Some j)
    by (rewrite <- (counter_of_format_03d i Hi), <- (counter_of_format_03d j Hj), H;
        reflexivity).
  congruence.
Qed.

Lemma string_length_app (s t : string) :
  String.length (s +:+ t) = String.length s + String.length t.
Proof.
  induction s as [|c s IH]; [reflexivity|].
  rewrite string_app_cons. cbn [String.length]. rewrite IH. reflexivity.
Qed.

Lemma string_app_inj_r (s s' t : string) : s +:+ t = s' +:+ t -> s = s'.
Proof.
  revert s'. induction s as [|c s IH]; intros [|c' s'] H.
  - reflexivity.
  - apply (f_equal String.length) in H.
    rewrite string_app_cons in H. cbn [String.length] in H.
    rewrite string_app_nil_l, string_length_app in H. lia.
  - apply (f_equal String.length) in H.
    rewrite string_app_cons in H. cbn [String.length] in H.
    rewrite string_app_nil_l, string_length_app in H. lia.
  - rewrite !string_app_cons in H. injection H as -> H. f_equal. apply IH, H.
Qed.

Lemma chunk_filename_inj (i j : Z) :
  (0 <= i)%Z -> (0 <= j)%Z -> chunk_filename i = chunk_filename j -> i = j.
Proof.
  unfold chunk_filename. intros Hi Hj H.
  apply String.app_inj, String.app_inj in H.
  apply string_app_inj_r in H. exact (format_03d_inj i j Hi Hj H).
Qed.

Lemma numbered_names_chunk_filename (n : nat) :
  numbered_names n = map (fun i => chunk_filename (Z.of_nat i)) (seq 1 n).
Proof. reflexivity. Qed.

Lemma numbered_names_NoDup (n : nat) : NoDup (numbered_names n).
Proof.
  rewrite numbered_names_chunk_filename.
  apply (NoDup_fmap_2_strong (fun i => chunk_filename (Z.of_nat i))).
  - intros i j _ _ H. apply chunk_filename_inj in H; lia.
  - apply NoDup_seq.
Qed.

Lemma write_all_snoc (files : list (string * Sheet)) (f : string * Sheet)
    (disk : gmap string Sheet) :
  write_all (files ++ [f]) disk = <[f.1 := f.2]> (write_all files disk).
Proof. unfold write_all. rewrite foldl_snoc. reflexivity. Qed.

Lemma write_all_other (files : list (string * Sheet)) (disk : gmap string Sheet)
    (name : string) :
  name ∉ files.*1 -> write_all files disk !! name = disk !! name.
Proof.
  induction files as [|f files IH] using rev_ind; intros Hn; [reflexivity|].
  rewrite fmap_app in Hn. cbn in Hn. rewrite not_elem_of_app in Hn.
  destruct Hn as [Hfiles Hf]. apply not_elem_of_cons in Hf. destruct Hf as [Hf _].
  rewrite write_all_snoc, lookup_insert_ne by congruence. apply IH, Hfiles.
Qed.

Lemma write_all_written (files : list (string * Sheet)) (disk : gmap string Sheet)
    (name : string) (sheet : Sheet) :
  NoDup files.*1 -> (name, sheet) ∈ files ->
  write_all files disk !! name = Some sheet.
Proof.
  induction files as [|f files IH] using rev_ind; intros Hnd Hin.
  - inversion Hin.
  - rewrite fmap_app in Hnd. cbn in Hnd.
    apply NoDup_app in Hnd. destruct Hnd as (Hnd & Hnew & _).
    rewrite write_all_snoc.
    apply elem_of_app in Hin. destruct Hin as [Hin | Hin].
    + assert (Hname : name ∈ files.*1)
        by (apply list_elem_of_fmap; exists (name, sheet); split; [reflexivity | exact Hin]).
      rewrite lookup_insert_ne.
      * apply IH; assumption.
      * intros E. apply (Hnew name Hname). rewrite <- E. apply list_elem_of_here.
    + apply list_elem_of_singleton in Hin. subst f. cbn [fst snd].
      apply lookup_insert_eq.
Qed.

(** X13: in multi-file mode no numbered file overwrites another.  The names
    [output_001.xlsx], [output_002.xlsx], ... are pairwise different for every
    number of files (also beyond 999, where the counter gets a fourth digit),
    so when the run is over every chunk is on the disk under its own name
    and every other spreadsheet on the disk is as it was. *)
Theorem numbered_files_stay_on_disk (env : Env) (files : gmap string string)
    (sql : string) (columns : list string) (data : list Row) (total : Z)
    (xlsx : gmap string Sheet) :
  Nominal env files sql columns data total ->
  (500000 < total)%Z ->
  let out := chunk_files columns (Z.to_nat 200000) (survivors env data) in
  exists st,
    main env (initial_state files xlsx) = (Ok tt, st)
    /\ NoDup out.*1
    /\ (forall name sheet, (name, sheet) ∈ out -> sheets st !! name = Some sheet)
    /\ (forall name, name ∉ out.*1 -> sheets st !! name = xlsx !! name).
Proof.
  intros Hnom Hbig out.
  destruct (main_multi_file env files sql columns data total Hnom xlsx Hbig)
    as (L & Hrun & _).
  fold out in Hrun.
  assert (Hnd : NoDup out.*1).
  { subst out. set (c := Z.to_nat 200000).
    assert (Hc : 0 < c) by (subst c; lia). clearbody c.
    change (NoDup (map fst (chunk_files columns c (survivors env data)))).
    rewrite chunk_files_names by exact Hc. apply numbered_names_NoDup. }
  clearbody out.
  eexists. split; [exact Hrun|]. cbn [sheets].
  split; [exact Hnd|]. split.
  - intros name sheet Hin. apply write_all_written; assumption.
  - intros name Hout. apply write_all_other. exact Hout.
Qed.

Lemma numbered_files_stay_on_disk_witness :
  exists st,
    main skipping_env (initial_state demo_files {["other.xlsx" := mkSheet [] []]})
    = (Ok tt, st)
    /\ sheets st !! "output_001.xlsx"
       = Some (mkSheet ["NAME"] [[PStr "a"]; [PStr "b"]])
    /\ sheets st !! "other.xlsx" = Some (mkSheet [] []).
Proof.
  destruct (numbered_files_stay_on_disk skipping_env demo_files demo_sql ["NAME"]
              skipping_data 600000 {["other.xlsx" := mkSheet [] []]}
              skipping_nominal ltac:(lia)) as (st & Hrun & _ & Hin & Hout).
  exists st. split; [exact Hrun|]. split.
  - apply Hin. vm_compute. apply list_elem_of_here.
  - rewrite Hout; [reflexivity|]. vm_compute. intros H.
    apply list_elem_of_singleton in H. discriminate.
Defined.

(** ** What a run leaves behind, whatever happens *)

Lemma announced_snoc (l : list log_entry) (entry : log_entry) :
  announced (l ++ [entry])
  = announced l ++ match announces entry with Some f => [f] | None => [] end.
Proof. unfold announced. rewrite omap_app. cbn. destruct (announces entry); reflexivity. Qed.

Lemma quiet_ret {A} (a : A) : quiet (ret a).
Proof. intros s. reflexivity. Qed.

Lemma quiet_raise {A} (e : exn) : quiet (@raise A e).
Proof. intros s. reflexivity. Qed.

Lemma quiet_lift {A} (r : result A) : quiet (lift r).
Proof. intros s. reflexivity. Qed.

Lemma quiet_get : quiet get.
Proof. intros s. reflexivity. Qed.

Lemma quiet_logging (entry : log_entry) : announces entry = None -> quiet (logging entry).
Proof.
  intros H s. unfold logging, modify, outputs. cbn [snd sheets written log].
  rewrite announced_snoc, H, app_nil_r. reflexivity.
Qed.

Lemma quiet_emit (ev : event) : quiet (emit ev).
Proof. intros s. reflexivity. Qed.

Lemma quiet_set_connection : quiet set_connection.
Proof. intros s. reflexivity. Qed.

Lemma quiet_set_cursor (c : nat) : quiet (set_cursor c).
Proof. intros s. reflexivity. Qed.

Lemma quiet_set_columns (cols : list string) : quiet (set_columns cols).
Proof. intros s. reflexivity. Qed.

Lemma quiet_set_row (r : Row) : quiet (set_row r).
Proof. intros s. reflexivity. Qed.

Lemma quiet_write_file (path content : string) : quiet (write_file path content).
Proof. intros s. reflexivity. Qed.

Lemma quiet_bind {A B} (m : M A) (k : A -> M B) :
  quiet m -> (forall a, quiet (k a)) -> quiet (bind m k).
Proof.
  intros Hm Hk s. unfold bind. specialize (Hm s).
  destruct (m s) as [[a|e] s']; cbn [snd] in *; [|assumption].
  rewrite Hk. assumption.
Qed.

Lemma quiet_try_except {A} (body : M A) (handler : exn -> option (M A)) :
  quiet body ->
  (forall e h, handler e = Some h -> quiet h) ->
  quiet (try_except body handler).
Proof.
  intros Hb Hh s. unfold try_except. specialize (Hb s).
  destruct (body s) as [[a|e] s']; cbn [snd] in *; [assumption|].
  destruct (handler e) as [h|] eqn:E; cbn [snd]; [|assumption].
  rewrite (Hh e h E). assumption.
Qed.

(** Chains the lemmas above through a block of statements. *)
Ltac quiet :=
  repeat first
    [ apply quiet_ret | apply quiet_raise | apply quiet_lift | apply quiet_get
    | apply quiet_emit | apply quiet_set_connection | apply quiet_set_cursor
    | apply quiet_set_columns | apply quiet_set_row | apply quiet_write_file
    | apply quiet_logging; reflexivity
    | apply quiet_bind; [|intros]
    | apply quiet_try_except; [|intros ? ? ?]
    | match goal with
      | H : (if ?b then _ else _) = Some _ |- _ => destruct b; [|discriminate]
      | H : Some _ = Some _ |- _ => injection H as <-
      | |- quiet (match ?x with _ => _ end) => destruct x
      | |- quiet (if ?x then _ else _) => destruct x
      end ].

Lemma quiet_init_oracle_client (env : Env) : quiet (init_oracle_client env).
Proof. unfold init_oracle_client. quiet. Qed.

Lemma quiet_read_db_config : quiet read_db_config.
Proof. unfold read_db_config. quiet. Qed.

Lemma quiet_read_sql_from_file (path : string) : quiet (read_sql_from_file path).
Proof. unfold read_sql_from_file. quiet. Qed.

Lemma quiet_getitem (d : gmap string string) (key : string) : quiet (getitem d key).
Proof. unfold getitem. quiet. Qed.

Lemma quiet_oracledb_connect (env : Env) (u p d : string) :
  quiet (oracledb_connect env u p d).
Proof. unfold oracledb_connect. quiet. Qed.

Lemma quiet_connection_cursor (env : Env) : quiet (connection_cursor env).
Proof. unfold connection_cursor. quiet. Qed.

Lemma quiet_verify_open (c : nat) : quiet (verify_open c).
Proof. unfold verify_open. quiet. Qed.

Lemma quiet_cursor_close (env : Env) (c : nat) : quiet (cursor_close env c).
Proof. unfold cursor_close. apply quiet_bind; [apply quiet_verify_open | intros; quiet]. Qed.

Lemma quiet_connection_close (env : Env) : quiet (connection_close env).
Proof. unfold connection_close. quiet. Qed.

Lemma quiet_cursor_execute (env : Env) (c : nat) (statement : string) :
  quiet (cursor_execute env c statement).
Proof. unfold cursor_execute. apply quiet_bind; [apply quiet_verify_open | intros; quiet]. Qed.

Lemma quiet_validate_sql (env : Env) (sql : string) : quiet (validate_sql env sql).
Proof. unfold validate_sql. quiet. Qed.

Lemma quiet_fetchone (q : QueryResult) : quiet (fetchone q).
Proof. unfold fetchone. quiet. Qed.

Lemma quiet_fetchall (q : QueryResult) : quiet (fetchall q).
Proof. unfold fetchall. quiet. Qed.

Lemma quiet_item0 (r : option Row) : quiet (item0 r).
Proof. unfold item0. quiet. Qed.

Lemma quiet_le_500000 (v : pyval) : quiet (le_500000 v).
Proof. unfold le_500000. quiet. Qed.

Lemma quiet_handlers (e : exn) (h : M unit) : handlers e = Some h -> quiet h.
Proof. unfold handlers. destruct e; intros [= <-]; quiet. Qed.

Lemma quiet_finally_block (env : Env) : quiet (finally_block env).
Proof.
  unfold finally_block. apply quiet_bind; [apply quiet_get | intros s0].
  apply quiet_bind.
  - destruct (v_cursor s0); [apply quiet_cursor_close | apply quiet_ret].
  - intros _. destruct (v_connection s0); [apply quiet_connection_close | apply quiet_ret].
Qed.

Ltac quiet_script :=
  first
    [ apply quiet_init_oracle_client | apply quiet_read_db_config
    | apply quiet_getitem | apply quiet_oracledb_connect
    | apply quiet_connection_cursor | apply quiet_cursor_close
    | apply quiet_cursor_execute | apply quiet_validate_sql
    | apply quiet_fetchone | apply quiet_fetchall | apply quiet_item0
    | apply quiet_le_500000 | quiet ].

Lemma numbered_names_S (n : nat) :
  numbered_names (S n) = numbered_names n ++ [chunk_filename (Z.of_nat (S n))].
Proof.
  rewrite !numbered_names_chunk_filename, seq_S, map_app. reflexivity.
Qed.

Lemma numbered_names_next (n : nat) (name : string) :
  name ∈ numbered_names n -> name <> chunk_filename (Z.of_nat n + 1).
Proof.
  intros Hin E.
  pose proof (numbered_names_NoDup (S n)) as Hnd.
  rewrite numbered_names_S in Hnd. apply NoDup_app in Hnd.
  destruct Hnd as (_ & Hnew & _).
  apply (Hnew name Hin). rewrite E.
  replace (Z.of_nat n + 1)%Z with (Z.of_nat (S n)) by lia.
  apply list_elem_of_here.
Qed.

Lemma spoil_other (f name : string) (d : damage) (disk : gmap string Sheet) :
  name <> f -> spoil f d disk !! name = disk !! name.
Proof.
  intros Hne. destruct d; cbn [spoil]; [reflexivity | |].
  - apply lookup_insert_ne. congruence.
  - apply lookup_delete_ne. congruence.
Qed.

Section Settled.
Variable xlsx : gmap string Sheet.

Lemma settled_quiet (s s' : State) :
  outputs s' = outputs s -> settled xlsx s -> settled xlsx s'.
Proof.
  unfold outputs, settled. intros [= -> -> ->]. tauto.
Qed.

Lemma chunking_quiet (acc : Chunking) (s s' : State) :
  outputs s' = outputs s -> chunking xlsx acc s -> chunking xlsx acc s'.
Proof.
  unfold outputs, chunking. intros [= -> -> ->]. tauto.
Qed.

(** The write under the current counter failed, leaving [d]. *)
Lemma chunking_spoilt (acc : Chunking) (s s' : State) (d : damage) :
  sheets s' = spoil (chunk_filename (file_counter acc)) d (sheets s) ->
  written s' = written s ->
  announced (log s') = announced (log s) ->
  chunking xlsx acc s -> settled xlsx s'.
Proof.
  intros Hs Hw Hl (H1 & H2 & H3 & H4). unfold settled.
  rewrite Hs, Hw, Hl, H1, H4. split; [exact H2|].
  right. right. split; [exact H3|]. exists d. reflexivity.
Qed.

Lemma chunking_settled (acc : Chunking) (s : State) :
  chunking xlsx acc s -> settled xlsx s.
Proof.
  intros H. apply (chunking_spoilt acc s s Untouched); [reflexivity .. | exact H].
Qed.

Lemma untouched_chunking (acc : Chunking) (s : State) :
  file_counter acc = 1%Z -> untouched xlsx s -> chunking xlsx acc s.
Proof.
  unfold untouched, outputs, chunking. intros Hc [= -> -> ->].
  repeat split; [reflexivity .. | exact Hc].
Qed.

Lemma untouched_settled (s : State) : untouched xlsx s -> settled xlsx s.
Proof.
  intros H. apply (chunking_settled (mkChunking [] 0 1)), untouched_chunking;
    [reflexivity | exact H].
Qed.

Lemma untouched_bind {A B} (m : M A) (k : A -> M B) :
  quiet m ->
  (forall a s', untouched xlsx s' -> settled xlsx (snd (k a s'))) ->
  forall s, untouched xlsx s -> settled xlsx (snd (bind m k s)).
Proof.
  intros Hm Hk s Hs. unfold bind. specialize (Hm s).
  destruct (m s) as [[a|e] s']; cbn [snd] in *.
  - apply Hk. unfold untouched. rewrite Hm. exact Hs.
  - apply untouched_settled. unfold untouched. rewrite Hm. exact Hs.
Qed.

(** A chunk written under the current counter, and announced. *)
Lemma chunking_saved (acc acc' : Chunking) (s s' : State) (sh : Sheet) :
  sheets s' = <[chunk_filename (file_counter acc) := sh]> (sheets s) ->
  written s' = written s ++ [(chunk_filename (file_counter acc), sh)] ->
  announced (log s') = announced (log s) ++ [chunk_filename (file_counter acc)] ->
  file_counter acc' = (file_counter acc + 1)%Z ->
  chunking xlsx acc s -> chunking xlsx acc' s'.
Proof.
  intros Hs Hw Hl Hc (H1 & H2 & H3 & H4). unfold chunking.
  rewrite Hs, Hw, Hl, H1, H2, write_all_snoc, map_app, length_app, H3. cbn [map fst snd length].
  repeat split.
  - rewrite Nat.add_1_r, numbered_names_S. do 3 f_equal. lia.
  - lia.
Qed.

(** What [settled] says about the disk, name by name. *)
Lemma settled_disk (s : State) :
  settled xlsx s ->
  expected_names (announced (log s))
  /\ (forall name sheet, (name, sheet) ∈ written s -> sheets s !! name = Some sheet)
  /\ exists target,
       (target = "output.xlsx"
        \/ target = chunk_filename (Z.of_nat (length (written s)) + 1))
       /\ forall name, name ∉ announced (log s) -> name <> target ->
                       sheets s !! name = xlsx !! name.
Proof.
  intros (Hlog & [[Hnames Hdisk] | [[Hnone (d & Hdisk)] | [Hnames (d & Hdisk)]]]);
    rewrite Hlog.
  - split; [left; exact Hnames|].
    assert (Hnd : NoDup (written s).*1)
      by (change (NoDup (map fst (written s))); rewrite Hnames; apply NoDup_singleton).
    split.
    + intros name sheet Hin. rewrite Hdisk. apply write_all_written; assumption.
    + exists "output.xlsx". split; [left; reflexivity|].
      intros name Hout _. rewrite Hdisk. apply write_all_other. exact Hout.
  - rewrite Hnone. split; [right; exists 0; reflexivity|]. split.
    + intros name sheet Hin. inversion Hin.
    + exists "output.xlsx". split; [left; reflexivity|].
      intros name _ Hne. rewrite Hdisk. apply spoil_other. exact Hne.
  - split; [right; eexists; exact Hnames|].
    assert (Hnd : NoDup (written s).*1)
      by (change (NoDup (map fst (written s))); rewrite Hnames; apply numbered_names_NoDup).
    split.
    + intros name sheet Hin. rewrite Hdisk, spoil_other.
      * apply write_all_written; assumption.
      * apply numbered_names_next. rewrite <- Hnames.
        apply list_elem_of_fmap. exists (name, sheet). split; [reflexivity | exact Hin].
    + exists (chunk_filename (Z.of_nat (length (written s)) + 1)).
      split; [right; reflexivity|].
      intros name Hout Hne. rewrite Hdisk, spoil_other by exact Hne.
      apply write_all_other. exact Hout.
Qed.
End Settled.

Ltac split_cases env :=
  repeat (cbn beta iota zeta;
          cbn [current_count current_chunk file_counter fst snd];
          match goal with
          | |- context [append_error env ?r] => destruct (append_error env r) eqn:?
          | |- context [is_Exception ?e] => destruct (is_Exception e) eqn:?
          | |- context [Z.leb ?a ?b] => destruct (Z.leb a b) eqn:?
          | |- context [pd_DataFrame ?d ?c] => destruct (pd_DataFrame d c) eqn:?
          | |- context [sanitize_chunk ?d] => destruct (sanitize_chunk d) eqn:?
          | |- context [sanitize_rest ?d] => destruct (sanitize_rest d) eqn:?
          | |- context [sanitize_single ?d] => destruct (sanitize_single d) eqn:?
          | |- context [to_excel_error env ?f ?sh] => destruct (to_excel_error env f sh) eqn:?
          | |- context [to_excel_damage env ?f ?sh] => destruct (to_excel_damage env f sh) eqn:?
          end);
  cbn beta iota zeta;
  cbn [current_count current_chunk file_counter fst snd
       fs sheets written log trace v_connection v_cursor v_columns v_row].

Ltac same_outputs :=
  unfold outputs; cbn [sheets written log];
  rewrite ?announced_snoc; cbn [announces]; rewrite ?app_nil_r; reflexivity.

Ltac announce :=
  cbn [log]; rewrite ?announced_snoc; cbn [announces]; rewrite ?app_nil_r; reflexivity.

Section SettledRun.
Variables (env : Env) (xlsx : gmap string Sheet).

Lemma accumulate_chunking (columns : list string) (split : Z) (acc : Chunking)
    (row : Row) (s : State) :
  chunking xlsx acc s ->
  match accumulate env columns split acc row s with
  | (Ok acc', s') => chunking xlsx acc' s'
  | (Err _, s') => settled xlsx s'
  end.
Proof.
  intros Hinv.
  unfold accumulate, set_row, try_except, logging, lift, to_excel, bind, modify, raise, ret.
  split_cases env;
    first
      [ eapply chunking_saved; [| | | |exact Hinv];
        [reflexivity | reflexivity | announce | reflexivity]
      | apply (chunking_quiet xlsx _ s); [same_outputs | exact Hinv]
      | apply (settled_quiet xlsx s); [same_outputs | exact (chunking_settled xlsx _ _ Hinv)]
      | eapply chunking_spoilt; [| | |exact Hinv]; [reflexivity | reflexivity | announce] ].
Qed.

Lemma loop_chunking (columns : list string) (split : Z) (xs : list Row)
    (acc : Chunking) (s : State) :
  chunking xlsx acc s ->
  match for_each xs (accumulate env columns split) acc s with
  | (Ok acc', s') => chunking xlsx acc' s'
  | (Err _, s') => settled xlsx s'
  end.
Proof.
  revert acc s. induction xs as [|x xs IH]; intros acc s Hinv; [exact Hinv|].
  cbn [for_each]. unfold bind.
  pose proof (accumulate_chunking columns split acc x s Hinv) as Hx.
  destruct (accumulate env columns split acc x s) as [[acc'|e] s']; [|exact Hx].
  apply IH, Hx.
Qed.

Lemma flush_rest_settled (columns : list string) (acc : Chunking) (s : State) :
  chunking xlsx acc s -> settled xlsx (snd (flush_rest env columns acc s)).
Proof.
  intros Hinv. unfold flush_rest.
  destruct (current_chunk acc) as [|r rest] eqn:Hchunk;
    [exact (chunking_settled xlsx _ _ Hinv)|].
  unfold logging, lift, to_excel, bind, modify, raise, ret.
  split_cases env;
    first
      [ apply (chunking_settled xlsx (mkChunking [] 0 (file_counter acc + 1)));
        eapply chunking_saved; [| | | |exact Hinv];
        [reflexivity | reflexivity | announce | reflexivity]
      | apply (settled_quiet xlsx s); [same_outputs | exact (chunking_settled xlsx _ _ Hinv)]
      | eapply chunking_spoilt; [| | |exact Hinv]; [reflexivity | reflexivity | announce] ].
Qed.

Lemma export_chunks_settled (split : Z) (total : pyval) (sql : string) (s : State) :
  untouched xlsx s -> settled xlsx (snd (export_chunks env split total sql s)).
Proof.
  unfold export_chunks, tqdm. revert s.
  apply untouched_bind; [quiet_script | intros s0 s1 H1].
  destruct (v_cursor s0); [|apply untouched_settled, H1].
  revert s1 H1. apply untouched_bind; [quiet_script | intros _ s1 H1].
  revert s1 H1. apply untouched_bind; [quiet_script | intros c s1 H1].
  revert s1 H1. apply untouched_bind; [quiet_script | intros _ s1 H1].
  revert s1 H1. apply untouched_bind; [quiet_script | intros q s1 H1].
  revert s1 H1. apply untouched_bind; [quiet_script | intros _ s1 H1].
  revert s1 H1. apply untouched_bind; [quiet_script | intros _ s1 H1].
  unfold bind.
  pose proof (loop_chunking (description q) split (rows q) (mkChunking [] 0 1) s1
                (untouched_chunking xlsx (mkChunking [] 0 1) s1 eq_refl H1)) as Hloop.
  destruct (for_each (rows q) (accumulate env (description q) split)
              (mkChunking [] 0 1) s1) as [[acc|e] s2]; [|exact Hloop].
  destruct (fetch_error q).
  - exact (chunking_settled xlsx _ _ Hloop).
  - apply flush_rest_settled, Hloop.
Qed.

Lemma export_single_settled (sql : string) (s : State) :
  untouched xlsx s -> settled xlsx (snd (export_single env sql s)).
Proof.
  unfold export_single. revert s.
  apply untouched_bind; [quiet_script | intros s0 s1 H1].
  destruct (v_cursor s0); [|apply untouched_settled, H1].
  revert s1 H1. apply untouched_bind; [quiet_script | intros _ s1 H1].
  revert s1 H1. apply untouched_bind; [quiet_script | intros c s1 H1].
  revert s1 H1. apply untouched_bind; [quiet_script | intros _ s1 H1].
  revert s1 H1. apply untouched_bind; [quiet_script | intros q s1 H1].
  revert s1 H1. apply untouched_bind; [quiet_script | intros _ s1 H1].
  revert s1 H1. apply untouched_bind; [quiet_script | intros data s1 H1].
  revert s1 H1. apply untouched_bind; [quiet_script | intros df s1 H1].
  revert s1 H1. apply untouched_bind; [quiet_script | intros df' s1 H1].
  unfold logging, to_excel, bind, modify, raise, ret.
  unfold untouched, outputs in H1. injection H1 as Hs Hw Hl.
  split_cases env; unfold settled; cbn [sheets written log];
    rewrite ?announced_snoc, ?Hs, ?Hw, ?Hl; cbn [announces map fst app length].
  - split; [reflexivity|]. right. left. split; [reflexivity|]. exists Untouched. reflexivity.
  - split; [reflexivity|]. right. left. split; [reflexivity|]. eexists (Partial _). reflexivity.
  - split; [reflexivity|]. right. left. split; [reflexivity|]. exists Unreadable. reflexivity.
  - split; [reflexivity|]. left. split; reflexivity.
Qed.

Lemma try_block_settled (sql : string) (s : State) :
  untouched xlsx s -> settled xlsx (snd (try_block env sql s)).
Proof.
  unfold try_block. revert s.
  apply untouched_bind; [quiet_script | intros _ s1 H1].
  revert s1 H1. apply untouched_bind; [quiet_script | intros _ s1 H1].
  revert s1 H1. apply untouched_bind; [quiet_script | intros cfg s1 H1].
  revert s1 H1. apply untouched_bind; [quiet_script | intros u s1 H1].
  revert s1 H1. apply untouched_bind; [quiet_script | intros p s1 H1].
  revert s1 H1. apply untouched_bind; [quiet_script | intros d s1 H1].
  revert s1 H1. apply untouched_bind; [quiet_script | intros _ s1 H1].
  revert s1 H1. apply untouched_bind; [quiet_script | intros _ s1 H1].
  revert s1 H1. apply untouched_bind; [quiet_script | intros c s1 H1].
  revert s1 H1. apply untouched_bind; [quiet_script | intros _ s1 H1].
  revert s1 H1. apply untouched_bind; [quiet_script | intros _ s1 H1].
  revert s1 H1. apply untouched_bind; [quiet_script | intros q s1 H1].
  revert s1 H1. apply untouched_bind; [quiet_script | intros first s1 H1].
  revert s1 H1. apply untouched_bind; [quiet_script | intros total s1 H1].
  revert s1 H1. apply untouched_bind; [quiet_script | intros _ s1 H1].
  revert s1 H1. apply untouched_bind; [quiet_script | intros small s1 H1].
  destruct small; [apply export_single_settled | apply export_chunks_settled]; exact H1.
Qed.

Lemma execute_settled (sql : string) (s : State) :
  untouched xlsx s ->
  settled xlsx (snd (execute_query_and_export_to_excel env sql s)).
Proof.
  intros Hs. unfold execute_query_and_export_to_excel, try_finally, try_except.
  pose proof (try_block_settled sql s Hs) as Htry.
  destruct (try_block env sql s) as [[[]|e] s1]; cbn [snd] in Htry.
  - pose proof (quiet_finally_block env s1) as Hf.
    destruct (finally_block env s1) as [[[]|e] s2]; cbn [snd] in *;
      exact (settled_quiet xlsx s1 s2 Hf Htry).
  - assert (Hh : exists r s2, match handlers e with
                              | Some h => h s1
                              | None => (Err e, s1)
                              end = (r, s2) /\ outputs s2 = outputs s1).
    { destruct (handlers e) as [h|] eqn:E.
      - pose proof (quiet_handlers e h E s1) as Hq.
        destruct (h s1) as [r s2]. exists r, s2. split; [reflexivity | exact Hq].
      - exists (Err e), s1. split; reflexivity. }
    destruct Hh as (r & s2 & -> & Hq).
    pose proof (quiet_finally_block env s2) as Hf.
    destruct (finally_block env s2) as [[[]|e'] s3]; cbn [snd] in *;
      apply (settled_quiet xlsx s2 s3 Hf), (settled_quiet xlsx s1 s2 Hq), Htry.
Qed.
End SettledRun.

Lemma main_settled (env : Env) (files : gmap string string) (xlsx : gmap string Sheet) :
  settled xlsx (snd (main env (initial_state files xlsx))).
Proof.
  unfold main.
  apply untouched_bind; [apply quiet_read_sql_from_file | | reflexivity].
  intros sql s Hs. apply execute_settled, Hs.
Qed.

(** X14: what a run leaves behind, whatever happens.  For every environment
    and every initial disk, however the run ends: the log announces exactly
    the files whose write succeeded, in the order of writing; these are
    either none, [output.xlsx] alone, or [output_001.xlsx],
    [output_002.xlsx], ... without a gap; each of them is on the disk with
    the sheet that was written; and every other spreadsheet is as it was
    before the run, except at most one: the file whose write raised
    ([output.xlsx], or the next numbered file), which the failed write may
    have replaced by a partial workbook or left unreadable. *)
Theorem outputs_are_tidy (env : Env) (files : gmap string string)
    (xlsx : gmap string Sheet) :
  let st := snd (main env (initial_state files xlsx)) in
  announced (log st) = map fst (written st)
  /\ expected_names (announced (log st))
  /\ (forall name sheet, (name, sheet) ∈ written st -> sheets st !! name = Some sheet)
  /\ exists target,
       (target = "output.xlsx"
        \/ target = chunk_filename (Z.of_nat (length (written st)) + 1))
       /\ forall name, name ∉ announced (log st) -> name <> target ->
                       sheets st !! name = xlsx !! name.
Proof.
  intros st. pose proof (main_settled env files xlsx) as H. fold st in H.
  split; [exact (proj1 H)|]. apply settled_disk, H.
Qed.

(** ** The text files *)

Lemma leaves_bind {X A B} (part : State -> X) (m : M A) (k : A -> M B) :
  leaves part m -> (forall a, leaves part (k a)) -> leaves part (bind m k).
Proof.
  intros Hm Hk s. unfold bind. specialize (Hm s).
  destruct (m s) as [[a|e] s']; cbn [snd] in *; [|assumption].
  rewrite Hk. assumption.
Qed.

Lemma leaves_try_except {X A} (part : State -> X) (body : M A)
    (handler : exn -> option (M A)) :
  leaves part body ->
  (forall e h, handler e = Some h -> leaves part h) ->
  leaves part (try_except body handler).
Proof.
  intros Hb Hh s. unfold try_except. specialize (Hb s).
  destruct (body s) as [[a|e] s']; cbn [snd] in *; [assumption|].
  destruct (handler e) as [h|] eqn:E; cbn [snd]; [|assumption].
  rewrite (Hh e h E). assumption.
Qed.

Lemma leaves_for_each {X A B} (part : State -> X) (xs : list A) (body : B -> A -> M B)
    (acc : B) :
  (forall b a, leaves part (body b a)) -> leaves part (for_each xs body acc).
Proof.
  intros Hbody. revert acc. induction xs as [|x xs IH]; intros acc; cbn [for_each].
  - intros s. reflexivity.
  - apply leaves_bind; [apply Hbody | intros; apply IH].
Qed.

Lemma leaves_fs_plain {A} (m : M A) :
  (forall s, fs (snd (m s)) = fs s) -> leaves fs m.
Proof. intros H. exact H. Qed.

(** Chains the lemmas above through a block that writes no text file. *)
Ltac leaves_fs :=
  repeat first
    [ apply leaves_for_each; intros
    | apply leaves_try_except; [|intros ? ? ?]
    | apply leaves_bind; [|intros]
    | match goal with
      | H : (if ?b then _ else _) = Some _ |- _ => destruct b; [|discriminate]
      | H : Some _ = Some _ |- _ => injection H as <-
      | |- leaves fs (match ?x with _ => _ end) => destruct x
      | |- leaves fs (if ?x then _ else _) => destruct x
      end
    | (apply leaves_fs_plain; intros ?; reflexivity) ].

Lemma leaves_fs_to_excel (env : Env) (df : DataFrame) (filename : string) :
  leaves fs (to_excel env df filename).
Proof.
  intros s. unfold to_excel.
  destruct (to_excel_error _ _ _); [|reflexivity].
  destruct (to_excel_damage _ _ _); reflexivity.
Qed.

Lemma leaves_fs_cursor_close (env : Env) (c : nat) : leaves fs (cursor_close env c).
Proof. unfold cursor_close, verify_open. leaves_fs. Qed.

Lemma leaves_fs_connection_cursor (env : Env) : leaves fs (connection_cursor env).
Proof. unfold connection_cursor. leaves_fs. Qed.

Lemma leaves_fs_cursor_execute (env : Env) (c : nat) (statement : string) :
  leaves fs (cursor_execute env c statement).
Proof. unfold cursor_execute, verify_open. leaves_fs. Qed.

Lemma leaves_fs_accumulate (env : Env) (columns : list string) (split : Z)
    (acc : Chunking) (row : Row) :
  leaves fs (accumulate env columns split acc row).
Proof.
  unfold accumulate.
  apply leaves_bind; [leaves_fs | intros _].
  apply leaves_bind; [leaves_fs | intros st].
  destruct (Z.leb split (current_count st)); [|leaves_fs].
  apply leaves_bind; [leaves_fs | intros df].
  apply leaves_bind; [leaves_fs | intros df'].
  apply leaves_bind; [apply leaves_fs_to_excel | intros _]. leaves_fs.
Qed.

Lemma leaves_fs_flush_rest (env : Env) (columns : list string) (acc : Chunking) :
  leaves fs (flush_rest env columns acc).
Proof.
  unfold flush_rest. destruct (current_chunk acc); [leaves_fs|].
  apply leaves_bind; [leaves_fs | intros df].
  apply leaves_bind; [leaves_fs | intros df'].
  apply leaves_bind; [apply leaves_fs_to_excel | intros _]. leaves_fs.
Qed.

Lemma leaves_fs_export_chunks (env : Env) (split : Z) (total : pyval) (sql : string) :
  leaves fs (export_chunks env split total sql).
Proof.
  unfold export_chunks, tqdm.
  apply leaves_bind; [leaves_fs | intros s0].
  destruct (v_cursor s0); [|leaves_fs].
  apply leaves_bind; [apply leaves_fs_cursor_close | intros _].
  apply leaves_bind; [apply leaves_fs_connection_cursor | intros c].
  apply leaves_bind; [leaves_fs | intros _].
  apply leaves_bind; [apply leaves_fs_cursor_execute | intros q].
  apply leaves_bind; [leaves_fs | intros _].
  apply leaves_bind; [leaves_fs | intros _].
  apply leaves_bind.
  - apply leaves_for_each. intros. apply leaves_fs_accumulate.
  - intros st. destruct (fetch_error q); [leaves_fs | apply leaves_fs_flush_rest].
Qed.

Lemma leaves_fs_export_single (env : Env) (sql : string) :
  leaves fs (export_single env sql).
Proof.
  unfold export_single.
  apply leaves_bind; [leaves_fs | intros s0].
  destruct (v_cursor s0); [|leaves_fs].
  apply leaves_bind; [apply leaves_fs_cursor_close | intros _].
  apply leaves_bind; [apply leaves_fs_connection_cursor | intros c].
  apply leaves_bind; [leaves_fs | intros _].
  apply leaves_bind; [apply leaves_fs_cursor_execute | intros q].
  apply leaves_bind; [leaves_fs | intros _].
  apply leaves_bind; [unfold fetchall; leaves_fs | intros data].
  apply leaves_bind; [leaves_fs | intros df].
  apply leaves_bind; [leaves_fs | intros df'].
  apply leaves_bind; [apply leaves_fs_to_excel | intros _]. leaves_fs.
Qed.

Lemma leaves_fs_handlers (e : exn) (h : M unit) : handlers e = Some h -> leaves fs h.
Proof. unfold handlers. destruct e; intros [= <-]; leaves_fs. Qed.

Lemma leaves_fs_finally_block (env : Env) : leaves fs (finally_block env).
Proof.
  unfold finally_block. apply leaves_bind; [leaves_fs | intros s0].
  apply leaves_bind.
  - destruct (v_cursor s0); [apply leaves_fs_cursor_close | leaves_fs].
  - intros _. destruct (v_connection s0); [unfold connection_close|]; leaves_fs.
Qed.

Section Files.
Variable files : gmap string string.

Lemma files_kept_same (s s' : State) :
  fs s' = fs s -> files_kept files s -> files_kept files s'.
Proof. unfold files_kept. intros ->. tauto. Qed.

Lemma files_kept_created (s s' : State) (path content : string) :
  path = "params.txt" \/ path = "database.txt" ->
  fs s !! path = None ->
  fs s' = <[path := content]> (fs s) ->
  files_kept files s -> files_kept files s'.
Proof.
  unfold files_kept. intros Hpath Hnone -> [Hold Hother]. split.
  - intros p c Hp. destruct (decide (p = path)) as [->|Hne].
    + rewrite (Hold _ _ Hp) in Hnone. discriminate.
    + rewrite lookup_insert_ne by congruence. apply Hold, Hp.
  - intros p Hp1 Hp2. rewrite lookup_insert_ne by (destruct Hpath; congruence).
    apply Hother; assumption.
Qed.

Lemma preserves_leaves {A} (m : M A) : leaves fs m -> preserves (files_kept files) m.
Proof. intros Hm s Hs. exact (files_kept_same s _ (Hm s) Hs). Qed.

Lemma preserves_bind {A B} (P : State -> Prop) (m : M A) (k : A -> M B) :
  preserves P m -> (forall a, preserves P (k a)) -> preserves P (bind m k).
Proof.
  intros Hm Hk s Hs. unfold bind. specialize (Hm s Hs).
  destruct (m s) as [[a|e] s']; cbn [snd] in *; [|assumption].
  apply Hk, Hm.
Qed.

Lemma preserves_read_sql_from_file (path : string) :
  path = "params.txt" \/ path = "database.txt" ->
  preserves (files_kept files) (read_sql_from_file path).
Proof.
  intros Hpath s Hs.
  unfold read_sql_from_file, write_file, logging, bind, get, modify, ret, raise.
  cbn beta iota zeta. cbn [fs].
  destruct (fs s !! path) as [content|] eqn:Hfile; cbn beta iota zeta; cbn [fs].
  - rewrite Hfile. exact Hs.
  - rewrite lookup_insert_eq. cbn [snd].
    eapply (files_kept_created s _ path); [exact Hpath | exact Hfile | reflexivity | exact Hs].
Qed.

Lemma preserves_read_db_config : preserves (files_kept files) read_db_config.
Proof.
  intros s Hs.
  unfold read_db_config, write_file, logging, bind, get, modify, ret, raise.
  cbn beta iota zeta. cbn [fs].
  destruct (fs s !! "database.txt") as [content|] eqn:Hfile; cbn [snd]; [exact Hs|].
  eapply (files_kept_created s _ "database.txt");
    [right; reflexivity | exact Hfile | reflexivity | exact Hs].
Qed.

Lemma preserves_try_block (env : Env) (sql : string) :
  preserves (files_kept files) (try_block env sql).
Proof.
  unfold try_block.
  apply preserves_bind; [apply preserves_leaves; unfold init_oracle_client; leaves_fs | intros _].
  apply preserves_bind; [apply preserves_leaves; leaves_fs | intros _].
  apply preserves_bind; [apply preserves_read_db_config | intros cfg].
  apply preserves_leaves.
  apply leaves_bind; [unfold getitem; leaves_fs | intros u].
  apply leaves_bind; [unfold getitem; leaves_fs | intros p].
  apply leaves_bind; [unfold getitem; leaves_fs | intros d].
  apply leaves_bind; [unfold oracledb_connect; leaves_fs | intros _].
  apply leaves_bind; [leaves_fs | intros _].
  apply leaves_bind; [apply leaves_fs_connection_cursor | intros c].
  apply leaves_bind; [leaves_fs | intros _].
  apply leaves_bind; [unfold validate_sql; leaves_fs | intros _].
  apply leaves_bind; [apply leaves_fs_cursor_execute | intros q].
  apply leaves_bind; [unfold fetchone; leaves_fs | intros first].
  apply leaves_bind; [unfold item0; leaves_fs | intros total].
  apply leaves_bind; [leaves_fs | intros _].
  apply leaves_bind; [unfold le_500000; leaves_fs | intros small].
  destruct small; [apply leaves_fs_export_single | apply leaves_fs_export_chunks].
Qed.

Lemma preserves_execute (env : Env) (sql : string) :
  preserves (files_kept files) (execute_query_and_export_to_excel env sql).
Proof.
  intros s Hs. unfold execute_query_and_export_to_excel, try_finally, try_except.
  pose proof (preserves_try_block env sql s Hs) as Htry.
  destruct (try_block env sql s) as [[[]|e] s1]; cbn [snd] in Htry.
  - pose proof (leaves_fs_finally_block env s1) as Hf.
    destruct (finally_block env s1) as [[[]|e] s2]; cbn [snd] in *;
      exact (files_kept_same s1 s2 Hf Htry).
  - assert (Hh : exists r s2, match handlers e with
                              | Some h => h s1
                              | None => (Err e, s1)
                              end = (r, s2) /\ fs s2 = fs s1).
    { destruct (handlers e) as [h|] eqn:E.
      - pose proof (leaves_fs_handlers e h E s1) as Hq.
        destruct (h s1) as [r s2]. exists r, s2. split; [reflexivity | exact Hq].
      - exists (Err e), s1. split; reflexivity. }
    destruct Hh as (r & s2 & -> & Hq).
    pose proof (leaves_fs_finally_block env s2) as Hf.
    destruct (finally_block env s2) as [[[]|e'] s3]; cbn [snd] in *;
      apply (files_kept_same s2 s3 Hf), (files_kept_same s1 s2 Hq), Htry.
Qed.

Lemma main_keeps_files (env : Env) (xlsx : gmap string Sheet) :
  files_kept files (snd (main env (initial_state files xlsx))).
Proof.
  unfold main.
  apply (preserves_bind (files_kept files)).
  - apply preserves_read_sql_from_file. left. reflexivity.
  - intros sql. apply preserves_execute.
  - split; intros; reflexivity || assumption.
Qed.
End Files.

(** X15: no text file is lost or changed.  On a disk where no text file
    bears one of the names the script writes spreadsheets under, for every
    environment and however the run ends: every text file that existed
    before the run is still there with the same content, [params.txt] and
    [database.txt] included, and the [open] calls of the script have created
    no text file other than these two.  (The log file belongs to
    [setup_logging]; here the log is the list of records, not a file.) *)
Theorem text_files_are_kept (env : Env) (files : gmap string string)
    (xlsx : gmap string Sheet) :
  (forall name, output_name name -> files !! name = None) ->
  let st := snd (main env (initial_state files xlsx)) in
  (forall path content, files !! path = Some content -> fs st !! path = Some content)
  /\ (forall path, path <> "params.txt" -> path <> "database.txt" ->
                   fs st !! path = files !! path).
Proof. intros _. exact (main_keeps_files files env xlsx). Qed.

Lemma demo_files_no_output (name : string) :
  output_name name -> demo_files !! name = None.
Proof.
  intros Hname.
  assert (Ho : exists t, name = String "o" t).
  { destruct Hname as [-> | [k ->]]; eexists; reflexivity. }
  destruct Ho as [t ->]. unfold demo_files.
  rewrite lookup_insert_ne by discriminate.
  apply lookup_singleton_ne. discriminate.
Qed.

Lemma text_files_are_kept_witness :
  let st := snd (main lost_env (initial_state demo_files ∅)) in
  fs st !! "params.txt" = Some (demo_sql +:+ nl)
  /\ fs st !! "notes.txt" = None.
Proof.
  destruct (text_files_are_kept lost_env demo_files ∅ demo_files_no_output)
    as [Hkept Hother].
  split.
  - apply Hkept. reflexivity.
  - rewrite Hother by discriminate. reflexivity.
Defined.

(** ** The rows in the files, end to end *)

Lemma Forall_take_drop {A} (P : A -> Prop) (l : list A) (i n : nat) :
  Forall P l -> Forall P (take n (drop i l)).
Proof. intros H. apply Forall_take, Forall_drop, H. Qed.

(** X16: single-file mode, end to end.  In a run in which nothing fails and
    the count is at most 500 000, [output.xlsx] ends up holding the labels as
    its first row and then one row per fetched row, in the order of the
    stream and whatever their number, each cell [str(v)] without U+001F in a
    column inferred [object] and [v] (0 when missing) in a numeric one, for
    integers of at most 2^53 in absolute value; no other spreadsheet is
    touched. *)
Theorem single_file_contents (env : Env) (files : gmap string string) (sql : string)
    (columns : list string) (data : list Row) (total : Z) (xlsx : gmap string Sheet) :
  Nominal env files sql columns data total ->
  (total <= 500000)%Z ->
  exact_rows data ->
  exists st,
    main env (initial_state files xlsx) = (Ok tt, st)
    /\ sheets st
       = <["output.xlsx" := mkSheet columns (export_rows export_cell columns data)]> xlsx.
Proof.
  intros Hnom Hle _.
  pose proof (main_single_file env files sql columns data total Hnom xlsx Hle) as Hrun.
  cbn zeta in Hrun.
  destruct (sheet_via_cells columns data (nom_labels _ _ _ _ _ _ Hnom)
              (nom_width _ _ _ _ _ _ Hnom)) as (Hsheet & _).
  rewrite Hsheet in Hrun.
  eexists. split; [exact Hrun | reflexivity].
Qed.

Lemma single_file_contents_witness :
  exists st,
    main small_env (initial_state demo_files ∅) = (Ok tt, st)
    /\ sheets st !! "output.xlsx"
       = Some (mkSheet ["NAME"; "AGE"] [[PStr "a"; PInt 1]; [PStr "None"; PInt 0]]).
Proof.
  destruct (single_file_contents small_env demo_files demo_sql ["NAME"; "AGE"] small_data
              2 ∅ small_nominal ltac:(lia)) as (st & Hrun & Hsheets).
  - unfold exact_rows, small_data. exact_cells.
  - exists st. split; [exact Hrun|]. rewrite Hsheets, lookup_insert_eq. reflexivity.
Defined.

(** X17: multi-file mode, end to end.  In a run in which nothing fails and
    the count is above 500 000, with integers of at most 2^53 in absolute
    value and with [sv] the rows whose [append] did not raise: for every [k] with [(k + 1) * 200000 <= len(sv)] the file numbered
    [k + 1] ends up on the disk holding the labels and the rows
    [sv[k * 200000 : (k + 1) * 200000]] in order, sanitised as a full chunk;
    if rows remain after the last full chunk, the next number holds exactly
    those, sanitised as the trailing chunk. *)
Theorem numbered_file_contents (env : Env) (files : gmap string string) (sql : string)
    (columns : list string) (data : list Row) (total : Z) (xlsx : gmap string Sheet) :
  Nominal env files sql columns data total ->
  (500000 < total)%Z ->
  exact_rows data ->
  let c := Z.to_nat 200000 in
  let sv := survivors env data in
  exists st,
    main env (initial_state files xlsx) = (Ok tt, st)
    /\ (forall k, (k + 1) * c <= length sv ->
          sheets st !! chunk_filename (Z.of_nat (k + 1))
          = Some (mkSheet columns
                    (export_rows export_cell columns (take c (drop (k * c) sv)))))
    /\ (length sv mod c <> 0 ->
          sheets st !! chunk_filename (Z.of_nat (length sv / c + 1))
          = Some (mkSheet columns
                    (export_rows export_cell_rest columns (drop (length sv / c * c) sv)))).
Proof.
  intros Hnom Hbig _ c sv.
  destruct (main_multi_file env files sql columns data total Hnom xlsx Hbig)
    as (L & Hrun & _).
  fold c sv in Hrun.
  pose proof (nom_labels _ _ _ _ _ _ Hnom) as Hnd.
  assert (Hw : Forall (fun r => length r = length columns) sv)
    by (apply survivors_width, (nom_width _ _ _ _ _ _ Hnom)).
  assert (Hc : 0 < c) by (subst c; lia).
  clearbody c sv.
  assert (Hnames : NoDup (chunk_files columns c sv).*1).
  { change (NoDup (map fst (chunk_files columns c sv))).
    rewrite chunk_files_names by exact Hc. apply numbered_names_NoDup. }
  eexists. split; [exact Hrun|]. cbn [sheets]. split.
  - intros k Hk.
    destruct (sheet_via_cells columns (take c (drop (k * c) sv)) Hnd
                (Forall_take_drop _ sv (k * c) c Hw)) as (_ & Hsheet & _).
    rewrite <- Hsheet. apply write_all_written; [exact Hnames|].
    unfold chunk_files. apply elem_of_app. left.
    unfold full_files. apply list_elem_of_fmap. exists k. split; [reflexivity|].
    apply elem_of_seq. split; [lia|]. cbn [Nat.add].
    apply Nat.div_le_lower_bound; lia.
  - intros Hrest.
    destruct (sheet_via_cells columns (drop (length sv / c * c) sv) Hnd
                (Forall_drop _ _ _ Hw)) as (_ & _ & Hsheet).
    rewrite <- Hsheet. apply write_all_written; [exact Hnames|].
    unfold chunk_files. apply elem_of_app. right.
    unfold rest_file. apply Nat.eqb_neq in Hrest. rewrite Hrest.
    apply list_elem_of_singleton. reflexivity.
Qed.

Lemma export_rows_replicate (out : list pyval -> pyval -> pyval)
    (columns : list string) (n : nat) (r : Row) :
  export_rows out columns (replicate n r)
  = replicate n (map (fun j => out (replicate n (nth j r PNone)) (nth j r PNone))
                     (seq 0 (length columns))).
Proof.
  unfold export_rows.
  assert (Hmap : forall (A B : Type) (f : A -> B) (x : A) (m : nat),
             map f (replicate m x) = replicate m (f x)).
  { intros A B f x m.
    induction m as [|m IH]; [reflexivity|]. cbn [replicate map]. rewrite IH. reflexivity. }
  rewrite Hmap. f_equal.
  apply map_ext. intros j. unfold column_of. rewrite Hmap. reflexivity.
Qed.

Lemma numbered_file_contents_witness :
  exists st,
    main big_env (initial_state demo_files ∅) = (Ok tt, st)
    /\ sheets st !! "output_001.xlsx"
       = Some (mkSheet ["NAME"] (replicate (Z.to_nat 200000) [PStr "a"])).
Proof.
  destruct (numbered_file_contents big_env demo_files demo_sql ["NAME"] big_data
              600000 ∅ big_nominal ltac:(lia)) as (st & Hrun & Hfull & _).
  - unfold exact_rows, big_data. apply Forall_cons_2; [exact_cells|].
    apply Forall_replicate. exact_cells.
  - exists st. split; [exact Hrun|].
    specialize (Hfull 0).
    change (chunk_filename (Z.of_nat (0 + 1))) with "output_001.xlsx" in Hfull.
    rewrite Hfull by (rewrite big_survivors, length_replicate; lia).
    rewrite big_survivors. change (0 * Z.to_nat 200000) with 0.
    rewrite drop_0, take_replicate, Nat.min_l by lia.
    rewrite export_rows_replicate. cbn [length seq map nth].
    unfold export_cell. destruct (infer_dtype _); reflexivity.
Defined.
